(** * Verification of the GCS-to-BigQuery ETL function

    Shallow embedding of [cloud_function_source/main.py]: the Cloud Function
    [process_gcs_csv_to_bq] that is triggered by an object-finalised event,
    downloads a CSV object, cleans it with pandas and appends the result to a
    BigQuery table.

    Modelling conventions.
    - Text is [string], the UTF-8 bytes of a Python [str].  [str.lower], which
      the code uses only to compare a suffix with [.csv], is modelled on ASCII
      letters: no character outside ASCII has one of the characters of [.csv]
      in its lower case.  [str.upper], which the country rule uses, is
      modelled on all of Unicode ([PyStr.unicode_upper]).
    - A float64 is a primitive [float]; NaN is pandas' missing number.
    - A timestamp is an integer count of microseconds since the epoch.
    - A frame holds typed columns, as [read_csv] infers them: text, int64,
      float64 or bool.  The constructor of a [Series] says what its cells are,
      not which numpy dtype holds them.
    - What pandas reads in a text is library code, taken as a parameter
      ([Pandas]): [read_csv] as a whole, the number in one text, and
      [to_datetime] on a whole column, since pandas may infer one format for
      the column.
    - [df['c'].fillna(v, inplace=True)] is modelled as updating the column of
      the frame, which is what the comment on that line intends.
    - [df.loc[:, 'c'] = s] gives the column [c] the cells of [s]; a scalar is
      broadcast to every row, which pandas refuses for a new column of a
      frame without rows.
    - The wall clock is a sequence of readings that the environment chooses;
      nothing relates them to each other or to the instant at which the
      invocation started.
    - A name that the function body imports anywhere is local to the function:
      [traceback] is one, and is unbound in the handler of the
      transformation.
    - Exceptions are values of [exn]; a computation returns [result]. *)

From Stdlib Require Import ZArith NArith List String Ascii Bool Arith Lia Floats DecimalString.
Import ListNotations.
Open Scope string_scope.

(** ** Python strings *)

Module PyStr.

Definition is_upper (c : ascii) : bool :=
  let n := nat_of_ascii c in (65 <=? n)%nat && (n <=? 90)%nat.

Definition is_lower (c : ascii) : bool :=
  let n := nat_of_ascii c in (97 <=? n)%nat && (n <=? 122)%nat.

Definition lower_char (c : ascii) : ascii :=
  if is_upper c then ascii_of_nat (nat_of_ascii c + 32) else c.

Definition upper_char (c : ascii) : ascii :=
  if is_lower c then ascii_of_nat (nat_of_ascii c - 32) else c.

(** [s.lower()] *)
Fixpoint lower (s : string) : string :=
  match s with
  | EmptyString => EmptyString
  | String c r => String (lower_char c) (lower r)
  end.

(** [s.upper()] *)
Fixpoint upper (s : string) : string :=
  match s with
  | EmptyString => EmptyString
  | String c r => String (upper_char c) (upper r)
  end.

(** [s.endswith(suffix)] *)
Definition endswith (s suffix : string) : bool :=
  let n := String.length s in
  let k := String.length suffix in
  (k <=? n)%nat && String.eqb (substring (n - k) k s) suffix.

(** [str(n)] for a non-negative integer. *)
Definition of_nat (n : nat) : string := NilZero.string_of_uint (Nat.to_uint n).

(** [str(z)] for an integer. *)
Definition of_Z (z : Z) : string := NilZero.string_of_int (Z.to_int z).

(** Truthiness of a string: [not s] holds for the empty string only. *)
Definition is_empty (s : string) : bool :=
  match s with EmptyString => true | _ => false end.

(** The double quote, which [repr] puts around a text that holds single
    quotes. *)
Definition dquote : string := String (ascii_of_nat 34) EmptyString.

(** *** Upper case over Unicode

    [str.upper] maps every code point to one, two or three code points
    (Unicode 14, as in CPython 3.11).  [simple_upper] lists the code points
    above ASCII that have one image, as runs [(first, last, step, offset)];
    [special_upper] lists those that have several. *)

Definition simple_upper : list (N * N * N * Z) :=
  [(181, 181, 1, (743)%Z); (224, 246, 1, (-32)%Z); (248, 254, 1, (-32)%Z);
   (255, 255, 1, (121)%Z); (257, 303, 2, (-1)%Z); (305, 305, 1, (-232)%Z);
   (307, 311, 2, (-1)%Z); (314, 328, 2, (-1)%Z); (331, 375, 2, (-1)%Z);
   (378, 382, 2, (-1)%Z); (383, 383, 1, (-300)%Z); (384, 384, 1, (195)%Z);
   (387, 389, 2, (-1)%Z); (392, 392, 1, (-1)%Z); (396, 396, 1, (-1)%Z);
   (402, 402, 1, (-1)%Z); (405, 405, 1, (97)%Z); (409, 409, 1, (-1)%Z);
   (410, 410, 1, (163)%Z); (414, 414, 1, (130)%Z); (417, 421, 2, (-1)%Z);
   (424, 424, 1, (-1)%Z); (429, 429, 1, (-1)%Z); (432, 432, 1, (-1)%Z);
   (436, 438, 2, (-1)%Z); (441, 441, 1, (-1)%Z); (445, 445, 1, (-1)%Z);
   (447, 447, 1, (56)%Z); (453, 453, 1, (-1)%Z); (454, 454, 1, (-2)%Z);
   (456, 456, 1, (-1)%Z); (457, 457, 1, (-2)%Z); (459, 459, 1, (-1)%Z);
   (460, 460, 1, (-2)%Z); (462, 476, 2, (-1)%Z); (477, 477, 1, (-79)%Z);
   (479, 495, 2, (-1)%Z); (498, 498, 1, (-1)%Z); (499, 499, 1, (-2)%Z);
   (501, 501, 1, (-1)%Z); (505, 543, 2, (-1)%Z); (547, 563, 2, (-1)%Z);
   (572, 572, 1, (-1)%Z); (575, 576, 1, (10815)%Z); (578, 578, 1, (-1)%Z);
   (583, 591, 2, (-1)%Z); (592, 592, 1, (10783)%Z); (593, 593, 1, (10780)%Z);
   (594, 594, 1, (10782)%Z); (595, 595, 1, (-210)%Z); (596, 596, 1, (-206)%Z);
   (598, 599, 1, (-205)%Z); (601, 601, 1, (-202)%Z); (603, 603, 1, (-203)%Z);
   (604, 604, 1, (42319)%Z); (608, 608, 1, (-205)%Z); (609, 609, 1, (42315)%Z);
   (611, 611, 1, (-207)%Z); (613, 613, 1, (42280)%Z); (614, 614, 1, (42308)%Z);
   (616, 616, 1, (-209)%Z); (617, 617, 1, (-211)%Z); (618, 618, 1, (42308)%Z);
   (619, 619, 1, (10743)%Z); (620, 620, 1, (42305)%Z); (623, 623, 1, (-211)%Z);
   (625, 625, 1, (10749)%Z); (626, 626, 1, (-213)%Z); (629, 629, 1, (-214)%Z);
   (637, 637, 1, (10727)%Z); (640, 640, 1, (-218)%Z); (642, 642, 1, (42307)%Z);
   (643, 643, 1, (-218)%Z); (647, 647, 1, (42282)%Z); (648, 648, 1, (-218)%Z);
   (649, 649, 1, (-69)%Z); (650, 651, 1, (-217)%Z); (652, 652, 1, (-71)%Z);
   (658, 658, 1, (-219)%Z); (669, 669, 1, (42261)%Z); (670, 670, 1, (42258)%Z);
   (837, 837, 1, (84)%Z); (881, 883, 2, (-1)%Z); (887, 887, 1, (-1)%Z);
   (891, 893, 1, (130)%Z); (940, 940, 1, (-38)%Z); (941, 943, 1, (-37)%Z);
   (945, 961, 1, (-32)%Z); (962, 962, 1, (-31)%Z); (963, 971, 1, (-32)%Z);
   (972, 972, 1, (-64)%Z); (973, 974, 1, (-63)%Z); (976, 976, 1, (-62)%Z);
   (977, 977, 1, (-57)%Z); (981, 981, 1, (-47)%Z); (982, 982, 1, (-54)%Z);
   (983, 983, 1, (-8)%Z); (985, 1007, 2, (-1)%Z); (1008, 1008, 1, (-86)%Z);
   (1009, 1009, 1, (-80)%Z); (1010, 1010, 1, (7)%Z); (1011, 1011, 1, (-116)%Z);
   (1013, 1013, 1, (-96)%Z); (1016, 1016, 1, (-1)%Z); (1019, 1019, 1, (-1)%Z);
   (1072, 1103, 1, (-32)%Z); (1104, 1119, 1, (-80)%Z); (1121, 1153, 2, (-1)%Z);
   (1163, 1215, 2, (-1)%Z); (1218, 1230, 2, (-1)%Z); (1231, 1231, 1, (-15)%Z);
   (1233, 1327, 2, (-1)%Z); (1377, 1414, 1, (-48)%Z); (4304, 4346, 1, (3008)%Z);
   (4349, 4351, 1, (3008)%Z); (5112, 5117, 1, (-8)%Z); (7296, 7296, 1, (-6254)%Z);
   (7297, 7297, 1, (-6253)%Z); (7298, 7298, 1, (-6244)%Z); (7299, 7300, 1, (-6242)%Z);
   (7301, 7301, 1, (-6243)%Z); (7302, 7302, 1, (-6236)%Z); (7303, 7303, 1, (-6181)%Z);
   (7304, 7304, 1, (35266)%Z); (7545, 7545, 1, (35332)%Z); (7549, 7549, 1, (3814)%Z);
   (7566, 7566, 1, (35384)%Z); (7681, 7829, 2, (-1)%Z); (7835, 7835, 1, (-59)%Z);
   (7841, 7935, 2, (-1)%Z); (7936, 7943, 1, (8)%Z); (7952, 7957, 1, (8)%Z);
   (7968, 7975, 1, (8)%Z); (7984, 7991, 1, (8)%Z); (8000, 8005, 1, (8)%Z);
   (8017, 8023, 2, (8)%Z); (8032, 8039, 1, (8)%Z); (8048, 8049, 1, (74)%Z);
   (8050, 8053, 1, (86)%Z); (8054, 8055, 1, (100)%Z); (8056, 8057, 1, (128)%Z);
   (8058, 8059, 1, (112)%Z); (8060, 8061, 1, (126)%Z); (8112, 8113, 1, (8)%Z);
   (8126, 8126, 1, (-7205)%Z); (8144, 8145, 1, (8)%Z); (8160, 8161, 1, (8)%Z);
   (8165, 8165, 1, (7)%Z); (8526, 8526, 1, (-28)%Z); (8560, 8575, 1, (-16)%Z);
   (8580, 8580, 1, (-1)%Z); (9424, 9449, 1, (-26)%Z); (11312, 11359, 1, (-48)%Z);
   (11361, 11361, 1, (-1)%Z); (11365, 11365, 1, (-10795)%Z); (11366, 11366, 1, (-10792)%Z);
   (11368, 11372, 2, (-1)%Z); (11379, 11379, 1, (-1)%Z); (11382, 11382, 1, (-1)%Z);
   (11393, 11491, 2, (-1)%Z); (11500, 11502, 2, (-1)%Z); (11507, 11507, 1, (-1)%Z);
   (11520, 11557, 1, (-7264)%Z); (11559, 11559, 1, (-7264)%Z); (11565, 11565, 1, (-7264)%Z);
   (42561, 42605, 2, (-1)%Z); (42625, 42651, 2, (-1)%Z); (42787, 42799, 2, (-1)%Z);
   (42803, 42863, 2, (-1)%Z); (42874, 42876, 2, (-1)%Z); (42879, 42887, 2, (-1)%Z);
   (42892, 42892, 1, (-1)%Z); (42897, 42899, 2, (-1)%Z); (42900, 42900, 1, (48)%Z);
   (42903, 42921, 2, (-1)%Z); (42933, 42947, 2, (-1)%Z); (42952, 42954, 2, (-1)%Z);
   (42961, 42961, 1, (-1)%Z); (42967, 42969, 2, (-1)%Z); (42998, 42998, 1, (-1)%Z);
   (43859, 43859, 1, (-928)%Z); (43888, 43967, 1, (-38864)%Z); (65345, 65370, 1, (-32)%Z);
   (66600, 66639, 1, (-40)%Z); (66776, 66811, 1, (-40)%Z); (66967, 66977, 1, (-39)%Z);
   (66979, 66993, 1, (-39)%Z); (66995, 67001, 1, (-39)%Z); (67003, 67004, 1, (-39)%Z);
   (68800, 68850, 1, (-64)%Z); (71872, 71903, 1, (-32)%Z); (93792, 93823, 1, (-32)%Z);
   (125218, 125251, 1, (-34)%Z)]%N.

Definition special_upper : list (N * list N) :=
  [(223, [83; 83]); (329, [700; 78]); (496, [74; 780]); (912, [921; 776; 769]);
   (944, [933; 776; 769]); (1415, [1333; 1362]); (7830, [72; 817]); (7831, [84; 776]);
   (7832, [87; 778]); (7833, [89; 778]); (7834, [65; 702]); (8016, [933; 787]);
   (8018, [933; 787; 768]); (8020, [933; 787; 769]); (8022, [933; 787; 834]); (8064, [7944; 921]);
   (8065, [7945; 921]); (8066, [7946; 921]); (8067, [7947; 921]); (8068, [7948; 921]);
   (8069, [7949; 921]); (8070, [7950; 921]); (8071, [7951; 921]); (8072, [7944; 921]);
   (8073, [7945; 921]); (8074, [7946; 921]); (8075, [7947; 921]); (8076, [7948; 921]);
   (8077, [7949; 921]); (8078, [7950; 921]); (8079, [7951; 921]); (8080, [7976; 921]);
   (8081, [7977; 921]); (8082, [7978; 921]); (8083, [7979; 921]); (8084, [7980; 921]);
   (8085, [7981; 921]); (8086, [7982; 921]); (8087, [7983; 921]); (8088, [7976; 921]);
   (8089, [7977; 921]); (8090, [7978; 921]); (8091, [7979; 921]); (8092, [7980; 921]);
   (8093, [7981; 921]); (8094, [7982; 921]); (8095, [7983; 921]); (8096, [8040; 921]);
   (8097, [8041; 921]); (8098, [8042; 921]); (8099, [8043; 921]); (8100, [8044; 921]);
   (8101, [8045; 921]); (8102, [8046; 921]); (8103, [8047; 921]); (8104, [8040; 921]);
   (8105, [8041; 921]); (8106, [8042; 921]); (8107, [8043; 921]); (8108, [8044; 921]);
   (8109, [8045; 921]); (8110, [8046; 921]); (8111, [8047; 921]); (8114, [8122; 921]);
   (8115, [913; 921]); (8116, [902; 921]); (8118, [913; 834]); (8119, [913; 834; 921]);
   (8124, [913; 921]); (8130, [8138; 921]); (8131, [919; 921]); (8132, [905; 921]);
   (8134, [919; 834]); (8135, [919; 834; 921]); (8140, [919; 921]); (8146, [921; 776; 768]);
   (8147, [921; 776; 769]); (8150, [921; 834]); (8151, [921; 776; 834]); (8162, [933; 776; 768]);
   (8163, [933; 776; 769]); (8164, [929; 787]); (8166, [933; 834]); (8167, [933; 776; 834]);
   (8178, [8186; 921]); (8179, [937; 921]); (8180, [911; 921]); (8182, [937; 834]);
   (8183, [937; 834; 921]); (8188, [937; 921]); (64256, [70; 70]); (64257, [70; 73]);
   (64258, [70; 76]); (64259, [70; 70; 73]); (64260, [70; 70; 76]); (64261, [83; 84]);
   (64262, [83; 84]); (64275, [1348; 1350]); (64276, [1348; 1333]); (64277, [1348; 1339]);
   (64278, [1358; 1350]); (64279, [1348; 1341])]%N.

Fixpoint find_special (cp : N) (l : list (N * list N)) : option (list N) :=
  match l with
  | [] => None
  | (k, v) :: r => if (k =? cp)%N then Some v else find_special cp r
  end.

Fixpoint find_simple (cp : N) (l : list (N * N * N * Z)) : option N :=
  match l with
  | [] => None
  | (lo, hi, step, offset) :: r =>
      if ((lo <=? cp) && (cp <=? hi) && ((cp - lo) mod step =? 0))%N
      then Some (Z.to_N (Z.of_N cp + offset))
      else find_simple cp r
  end.

(** The upper case of a code point above ASCII; [None] when it is its own. *)
Definition upper_code_point (cp : N) : option (list N) :=
  match find_special cp special_upper with
  | Some v => Some v
  | None =>
      match find_simple cp simple_upper with
      | Some u => Some [u]
      | None => None
      end
  end.

Definition byte (n : N) : ascii := ascii_of_N n.

(** The UTF-8 bytes of a code point. *)
Definition encode (cp : N) : string :=
  if (cp <? 128)%N then String (byte cp) EmptyString
  else if (cp <? 2048)%N then
    String (byte (192 + cp / 64)) (String (byte (128 + cp mod 64)) EmptyString)
  else if (cp <? 65536)%N then
    String (byte (224 + cp / 4096))
      (String (byte (128 + (cp / 64) mod 64))
         (String (byte (128 + cp mod 64)) EmptyString))
  else
    String (byte (240 + cp / 262144))
      (String (byte (128 + (cp / 4096) mod 64))
         (String (byte (128 + (cp / 64) mod 64))
            (String (byte (128 + cp mod 64)) EmptyString))).

Fixpoint encode_all (cps : list N) : string :=
  match cps with
  | [] => EmptyString
  | cp :: r => encode cp ++ encode_all r
  end.

(** A byte that continues a multi-byte sequence. *)
Definition is_continuation (c : ascii) : bool :=
  let n := N_of_ascii c in ((128 <=? n) && (n <? 192))%N.

Definition low6 (c : ascii) : N := (N_of_ascii c mod 64)%N.

(** The upper case of the code point written in [bytes], whose value is
    [cp]; the bytes themselves when the code point is its own upper case. *)
Definition upper_sequence (bytes : string) (cp : N) : string :=
  match upper_code_point cp with
  | Some v => encode_all v
  | None => bytes
  end.

(** [s.upper()], code point by code point; a byte that starts no well-formed
    sequence is copied. *)
Fixpoint unicode_upper (s : string) : string :=
  match s with
  | EmptyString => EmptyString
  | String a r =>
      let n := N_of_ascii a in
      if (n <? 128)%N then String (upper_char a) (unicode_upper r)
      else
        match r with
        | String b r1 =>
            if ((192 <=? n) && (n <? 224))%N && is_continuation b then
              upper_sequence (String a (String b EmptyString))
                ((n mod 32) * 64 + low6 b)
              ++ unicode_upper r1
            else
              match r1 with
              | String c r2 =>
                  if ((224 <=? n) && (n <? 240))%N && is_continuation b
                     && is_continuation c then
                    upper_sequence (String a (String b (String c EmptyString)))
                      (((n mod 16) * 64 + low6 b) * 64 + low6 c)
                    ++ unicode_upper r2
                  else
                    match r2 with
                    | String d r3 =>
                        if ((240 <=? n) && (n <? 248))%N && is_continuation b
                           && is_continuation c && is_continuation d then
                          upper_sequence
                            (String a (String b (String c (String d EmptyString))))
                            ((((n mod 8) * 64 + low6 b) * 64 + low6 c) * 64 + low6 d)
                          ++ unicode_upper r3
                        else String a (unicode_upper r)
                    | EmptyString => String a (unicode_upper r)
                    end
              | EmptyString => String a (unicode_upper r)
              end
        | EmptyString => String a EmptyString
        end
  end.

End PyStr.

(** ** Exceptions and results *)

Inductive exn_class :=
| ValueError
| FileNotFoundError
| KeyError
| TypeError
| AttributeError
| UnboundLocalError
| OtherException.

(** An exception: its class, [str(e)], and the [errors] attribute that
    BigQuery exceptions carry, a list of dicts. *)
Record exn := mk_exn {
  exn_cls : exn_class;
  exn_msg : string;
  exn_errors : list (list (string * string))
}.

Definition exn_class_eqb (a b : exn_class) : bool :=
  match a, b with
  | ValueError, ValueError | FileNotFoundError, FileNotFoundError
  | KeyError, KeyError | TypeError, TypeError
  | AttributeError, AttributeError | UnboundLocalError, UnboundLocalError
  | OtherException, OtherException => true
  | _, _ => false
  end.

Inductive result (A : Type) :=
| Ok (a : A)
| Raise (e : exn).
Arguments Ok {A} a.
Arguments Raise {A} e.

Definition rbind {A B} (r : result A) (k : A -> result B) : result B :=
  match r with
  | Ok a => k a
  | Raise e => Raise e
  end.

Definition is_ok {A} (r : result A) : bool :=
  match r with Ok _ => true | Raise _ => false end.

(** ** pandas: series and frames *)

(** A column and what its cells are.  [None] in a column of text is NaN, in
    a column of datetimes NaT; a float column holds NaN itself. *)
Inductive Series :=
| ObjectS (xs : list (option string))
| Int64S (xs : list Z)
| Float64S (xs : list float)
| BoolS (xs : list bool)
| DatetimeUTCS (xs : list (option Z))
| DatetimeS (xs : list (option Z)).

Record DataFrame := mk_frame {
  nrows : nat;
  columns : list (string * Series)
}.

(** One cell of a row. *)
Inductive cell :=
| CObj (o : option string)
| CInt (z : Z)
| CFloat (x : float)
| CBool (b : bool)
| CTimestampUTC (t : option Z)
| CDatetime (t : option Z).

Definition row := list (string * cell).

Fixpoint assoc {V} (k : string) (l : list (string * V)) : option V :=
  match l with
  | [] => None
  | (k', v) :: r => if String.eqb k k' then Some v else assoc k r
  end.

Definition key_error {A} (what : string) : result A :=
  Raise (mk_exn KeyError what []).

Definition quoted (name : string) : string := "'" ++ name ++ "'".

(** [df[name]] *)
Definition get_col (name : string) (df : DataFrame) : result Series :=
  match assoc name (columns df) with
  | Some s => Ok s
  | None => key_error (quoted name)
  end.

Fixpoint replace_col (name : string) (s : Series) (l : list (string * Series))
  : list (string * Series) :=
  match l with
  | [] => [(name, s)]
  | (k, v) :: r =>
      if String.eqb name k then (k, s) :: r else (k, v) :: replace_col name s r
  end.

(** [df.loc[:, name] = s] for a series [s]: an existing column is
    overwritten where it stands, a new one is added after the last. *)
Definition set_col (name : string) (s : Series) (df : DataFrame) : DataFrame :=
  mk_frame (nrows df) (replace_col name s (columns df)).

Fixpoint select_cols (names : list string) (l : list (string * Series))
  : result (list (string * Series)) :=
  match names with
  | [] => Ok []
  | n :: ns =>
      match assoc n l with
      | None =>
          key_error (PyStr.dquote ++ "[" ++ quoted n ++ "] not in index" ++ PyStr.dquote)
      | Some s => rbind (select_cols ns l) (fun r => Ok ((n, s) :: r))
      end
  end.

(** [df[[n1, ..., nk]]] *)
Definition select (names : list string) (df : DataFrame) : result DataFrame :=
  rbind (select_cols names (columns df)) (fun cs => Ok (mk_frame (nrows df) cs)).

Definition has_column (name : string) (df : DataFrame) : bool :=
  match assoc name (columns df) with
  | Some _ => true
  | None => false
  end.

Definition series_length (s : Series) : nat :=
  match s with
  | ObjectS xs => List.length xs
  | Int64S xs => List.length xs
  | Float64S xs => List.length xs
  | BoolS xs => List.length xs
  | DatetimeUTCS xs => List.length xs
  | DatetimeS xs => List.length xs
  end.

Definition cell_at (s : Series) (i : nat) : cell :=
  match s with
  | ObjectS xs => CObj (nth i xs None)
  | Int64S xs => CInt (nth i xs 0%Z)
  | Float64S xs => CFloat (nth i xs nan)
  | BoolS xs => CBool (nth i xs false)
  | DatetimeUTCS xs => CTimestampUTC (nth i xs None)
  | DatetimeS xs => CDatetime (nth i xs None)
  end.

Definition row_at (df : DataFrame) (i : nat) : row :=
  map (fun c => (fst c, cell_at (snd c) i)) (columns df).

(** The rows of a frame, in index order. *)
Definition rows (df : DataFrame) : list row :=
  map (row_at df) (seq 0 (nrows df)).

(** The cell under a column name in a row; NaN when the row has no such
    column. *)
Definition field (name : string) (r : row) : cell :=
  match assoc name r with
  | Some c => c
  | None => CObj None
  end.

(** A cell holds no value: NaN, None or NaT. *)
Definition is_missing (c : cell) : bool :=
  match c with
  | CObj None | CTimestampUTC None | CDatetime None => true
  | CFloat x => is_nan x
  | _ => false
  end.

(** Every column has one cell for each row. *)
Definition well_formed (df : DataFrame) : bool :=
  forallb (fun c => Nat.eqb (series_length (snd c)) (nrows df)) (columns df).

(** What [read_csv] infers for a column: text, int64, float64 or bool. *)
Definition csv_dtype (s : Series) : bool :=
  match s with
  | ObjectS _ | Int64S _ | Float64S _ | BoolS _ => true
  | DatetimeUTCS _ | DatetimeS _ => false
  end.

(** A frame as [read_csv] builds them. *)
Definition csv_frame (df : DataFrame) : bool :=
  well_formed df && forallb (fun c => csv_dtype (snd c)) (columns df).

(** *** Numbers *)

(** What [to_numeric] reads in a text: an integer or a float. *)
Inductive number :=
| IntN (z : Z)
| FloatN (x : float).

(** The float64 nearest to an integer, ties to even: numpy's conversion of
    int64 to float64. *)
Definition float_of_Z (z : Z) : float :=
  SF2Prim (binary_normalize prec emax z 0 false).

Definition to_float (n : number) : float :=
  match n with
  | IntN z => float_of_Z z
  | FloatN x => x
  end.

Definition float_of_bool (b : bool) : float := if b then 1%float else 0%float.

(** *** Column operations *)

(** The pandas functions that read text. *)
Record Pandas := mk_pandas {
  (** [pd.read_csv(io.StringIO(text))] *)
  read_csv : string -> result DataFrame;
  (** the number that [pd.to_numeric] reads in a text, if any *)
  parse_number : string -> option number;
  (** [pd.to_datetime(s, utc=True)] on a column of text, numbers or
      booleans, with [errors='coerce'] when the flag is set: an exception,
      or for each position the instant read there, converted to UTC, if
      any.  The result at one position may depend on the whole column. *)
  to_datetime_utc : bool -> Series -> result (nat -> option Z);
  (** [str(x)] for a float64 that is not NaN *)
  str_of_float : float -> string
}.

(** An operation met a column of datetimes where the pipeline, run on a
    frame that [read_csv] built, never hands it one; the model does not
    follow pandas there. *)
Definition unsupported {A} (op : string) : result A :=
  Raise (mk_exn TypeError (op ++ ": dtype outside the model") []).

Definition fill {A} (v : A) (o : option A) : option A :=
  match o with
  | Some x => Some x
  | None => Some v
  end.

(** The fixed lookup table of the country rule. *)
Definition country_mapping : list (string * string) :=
  [("MALAYSIA", "MY"); ("SINGAPORE", "SG"); ("THAILAND", "TH"); ("INDONESIA", "ID")].

Section Columns.

Variable pd : Pandas.

(** What [to_datetime] gives at position [i] of a column for which the
    library answered [f]: NaT for a missing cell, else the library's
    reading. *)
Definition instant_at (s : Series) (f : nat -> option Z) (i : nat) : option Z :=
  if is_missing (cell_at s i) then None else f i.

(** [pd.to_datetime(s, utc=True)], with [errors='coerce'] when [coerce]. *)
Definition to_datetime (coerce : bool) (s : Series) : result Series :=
  match s with
  | DatetimeUTCS xs => Ok (DatetimeUTCS xs)
  | DatetimeS xs => Ok (DatetimeUTCS xs)
  | _ =>
      rbind (to_datetime_utc pd coerce s) (fun f =>
      Ok (DatetimeUTCS (map (instant_at s f) (seq 0 (series_length s)))))
  end.

(** [s.fillna(value=t)] for an aware UTC datetime [t]. *)
Definition fillna_datetime (t : Z) (s : Series) : result Series :=
  match s with
  | DatetimeUTCS xs => Ok (DatetimeUTCS (map (fill t) xs))
  | _ => unsupported "fillna"
  end.

Definition str_of_text (o : option string) : string :=
  match o with
  | Some s => s
  | None => "nan"
  end.

Definition str_of_bool (b : bool) : string := if b then "True" else "False".

(** [str(x)] for a float64: NaN is written [nan]. *)
Definition float_text (x : float) : string :=
  if is_nan x then "nan" else str_of_float pd x.

(** [s.astype(str)] *)
Definition astype_str (s : Series) : result Series :=
  match s with
  | ObjectS xs => Ok (ObjectS (map (fun o => Some (str_of_text o)) xs))
  | Int64S xs => Ok (ObjectS (map (fun z => Some (PyStr.of_Z z)) xs))
  | Float64S xs => Ok (ObjectS (map (fun x => Some (float_text x)) xs))
  | BoolS xs => Ok (ObjectS (map (fun b => Some (str_of_bool b)) xs))
  | _ => unsupported "astype"
  end.

(** [s.str.upper()] *)
Definition str_upper (s : Series) : result Series :=
  match s with
  | ObjectS xs => Ok (ObjectS (map (option_map PyStr.unicode_upper) xs))
  | _ => Raise (mk_exn AttributeError "Can only use .str accessor with string values!" [])
  end.

Definition lookup_text (d : list (string * string)) (o : option string) : option string :=
  match o with
  | Some s => assoc s d
  | None => None
  end.

(** [s.map(d)] for a dict [d]: a key that is absent gives NaN. *)
Definition map_dict (d : list (string * string)) (s : Series) : result Series :=
  match s with
  | ObjectS xs => Ok (ObjectS (map (lookup_text d) xs))
  | _ => unsupported "map"
  end.

(** [s.fillna(v)] for a text [v]. *)
Definition fillna_str (v : string) (s : Series) : result Series :=
  match s with
  | ObjectS xs => Ok (ObjectS (map (fill v) xs))
  | _ => unsupported "fillna"
  end.

(** The float64 that [to_numeric] reads in a text, if any. *)
Definition parse_float (s : string) : option float :=
  option_map to_float (parse_number pd s).

Definition float_of_text (o : option string) : float :=
  match o with
  | Some s =>
      match parse_float s with
      | Some x => x
      | None => nan
      end
  | None => nan
  end.

Definition int_of_text (o : option string) : option Z :=
  match o with
  | Some s =>
      match parse_number pd s with
      | Some (IntN z) => Some z
      | _ => None
      end
  | None => None
  end.

(** The integers of a column of text in which every cell is an integer. *)
Fixpoint all_ints (xs : list (option string)) : option (list Z) :=
  match xs with
  | [] => Some []
  | o :: r =>
      match int_of_text o, all_ints r with
      | Some z, Some zs => Some (z :: zs)
      | _, _ => None
      end
  end.

(** [pd.to_numeric(s, errors='coerce')]: a numeric column is returned as it
    is; a column of text becomes int64 when every cell is an integer, else
    float64 with NaN where nothing was read. *)
Definition to_numeric_coerce (s : Series) : result Series :=
  match s with
  | ObjectS xs =>
      match all_ints xs with
      | Some zs => Ok (Int64S zs)
      | None => Ok (Float64S (map float_of_text xs))
      end
  | Int64S xs => Ok (Int64S xs)
  | Float64S xs => Ok (Float64S xs)
  | BoolS xs => Ok (BoolS xs)
  | _ => unsupported "to_numeric"
  end.

Definition fill_nan (v x : float) : float := if is_nan x then v else x.

(** [s.fillna(v)] for a float [v]: an int64 or bool column has nothing to
    fill. *)
Definition fillna_float (v : float) (s : Series) : result Series :=
  match s with
  | Float64S xs => Ok (Float64S (map (fill_nan v) xs))
  | Int64S xs => Ok (Int64S xs)
  | BoolS xs => Ok (BoolS xs)
  | _ => unsupported "fillna"
  end.

(** [x > v] on float64. *)
Definition float_gt (v x : float) : bool := PrimFloat.ltb v x.

(** [s > v]: integers and booleans are compared as float64. *)
Definition gt_scalar (v : float) (s : Series) : result Series :=
  match s with
  | Float64S xs => Ok (BoolS (map (float_gt v) xs))
  | Int64S xs => Ok (BoolS (map (fun z => float_gt v (float_of_Z z)) xs))
  | BoolS xs => Ok (BoolS (map (fun b => float_gt v (float_of_bool b)) xs))
  | _ => Raise (mk_exn TypeError "'>' not supported between these operands" [])
  end.

(** *** The transformation, statement by statement *)

Definition update_col (name : string) (f : Series -> result Series) (df : DataFrame)
  : result DataFrame :=
  rbind (get_col name df) (fun s =>
  rbind (f s) (fun s' => Ok (set_col name s' df))).

(** line 97 *)
Definition parse_timestamps (df : DataFrame) : result DataFrame :=
  update_col "event_timestamp" (to_datetime true) df.

(** line 103 *)
Definition fill_timestamps (current_utc_for_fill : Z) (df : DataFrame) : result DataFrame :=
  update_col "event_timestamp" (fillna_datetime current_utc_for_fill) df.

(** line 107 *)
Definition retype_timestamps (df : DataFrame) : result DataFrame :=
  update_col "event_timestamp" (to_datetime false) df.

(** line 118 *)
Definition add_country_code (df : DataFrame) : result DataFrame :=
  rbind (get_col "country" df) (fun s =>
  rbind (astype_str s) (fun s1 =>
  rbind (str_upper s1) (fun s2 =>
  rbind (map_dict country_mapping s2) (fun s3 =>
  rbind (fillna_str "OT" s3) (fun s4 =>
  Ok (set_col "country_code" s4 df)))))).

(** line 122 *)
Definition coerce_value (df : DataFrame) : result DataFrame :=
  rbind (get_col "value" df) (fun s =>
  rbind (to_numeric_coerce s) (fun s1 =>
  rbind (fillna_float 0%float s1) (fun s2 =>
  Ok (set_col "value" s2 df)))).

(** line 123 *)
Definition add_is_high_value (df : DataFrame) : result DataFrame :=
  rbind (get_col "value" df) (fun s =>
  rbind (gt_scalar 100%float s) (fun s1 =>
  Ok (set_col "is_high_value" s1 df))).

(** line 128: [df.loc[:, 'processing_datetime'] = utcnow], a scalar, which
    is broadcast to every row; pandas refuses to add a column from a scalar
    to a frame that has no row. *)
Definition add_processing_datetime (utcnow : Z) (df : DataFrame) : result DataFrame :=
  if (nrows df =? 0)%nat && negb (has_column "processing_datetime" df) then
    Raise (mk_exn ValueError "cannot set a frame with no defined index and a scalar" [])
  else
    Ok (set_col "processing_datetime" (DatetimeS (repeat (Some utcnow) (nrows df))) df).

Definition target_columns : list string :=
  ["user_id"; "event_timestamp"; "country_code"; "value"; "is_high_value";
   "processing_datetime"].

(** line 134 *)
Definition project (df : DataFrame) : result DataFrame :=
  select target_columns df.

End Columns.

(** ** The invocation and its environment *)

Inductive WriteDisposition := WRITE_APPEND | WRITE_TRUNCATE | WRITE_EMPTY.

Record LoadJobConfig := mk_config { write_disposition : WriteDisposition }.

Record LoadJob := mk_job {
  job_id : string;
  job_error : option exn;
  output_rows : nat
}.

(** The payload of the trigger: [cloud_event['id']], [cloud_event['type']],
    [cloud_event.data['bucket']], [cloud_event.data['name']]. *)
Record CloudEvent := mk_event {
  ce_id : string;
  ce_type : string;
  ce_bucket : string;
  ce_name : string
}.

(** What an invocation does to the outside, in program order. *)
Inductive event :=
| Print (line : string)
| PrintHead (label : string) (df : DataFrame)
| PrintDtypes (label : string) (df : DataFrame)
| PrintTraceback
| BlobExists (bucket name : string)
| BlobDownload (bucket name : string)
| LoadSubmit (table_id : string) (config : LoadJobConfig) (df : DataFrame)
| JobWait (id : string)
| GetTable (table_id : string).

(** The collaborators: the wall clock (its successive readings, in
    microseconds UTC), the object store, the warehouse's verdicts, and the
    instant at which the platform started the invocation. *)
Record World := mk_world {
  clock : nat -> Z;
  blob_exists : string -> string -> result bool;
  blob_download_as_text : string -> string -> result string;
  load_job_created : string -> DataFrame -> result string;
  load_job_outcome : string -> DataFrame -> option exn;
  get_table_error : string -> option exn;
  invoked_at : Z
}.

(** What changes during an invocation: how often the clock was read, and
    the rows of each warehouse table. *)
Record State := mk_state {
  clock_reads : nat;
  warehouse : string -> list row
}.

(** A computation: from a state to a result or an exception, the new state
    and the events emitted. *)
Definition M (A : Type) : Type := State -> result A * State * list event.

Definition ret {A} (a : A) : M A := fun st => (Ok a, st, []).

Definition raise {A} (e : exn) : M A := fun st => (Raise e, st, []).

Definition bind {A B} (m : M A) (k : A -> M B) : M B :=
  fun st =>
    match m st with
    | (Ok a, st1, ev1) =>
        match k a st1 with
        | (r, st2, ev2) => (r, st2, (ev1 ++ ev2)%list)
        end
    | (Raise e, st1, ev1) => (Raise e, st1, ev1)
    end.

Declare Scope monad_scope.
Delimit Scope monad_scope with monad.
Notation "x <- m ;; k" := (bind m (fun x => k))
  (at level 61, m at next level, right associativity) : monad_scope.
Notation "m ;;; k" := (bind m (fun _ => k))
  (at level 61, right associativity) : monad_scope.
Open Scope monad_scope.

Definition lift {A} (r : result A) : M A := fun st => (r, st, []).

Definition emit (e : event) : M unit := fun st => (Ok tt, st, [e]).

Definition print (line : string) : M unit := emit (Print line).

(** [try: m  except Exception as e: h e; raise] *)
Definition try_reraise {A} (m : M A) (h : exn -> M unit) : M A :=
  fun st =>
    match m st with
    | (Ok a, st1, ev1) => (Ok a, st1, ev1)
    | (Raise e, st1, ev1) =>
        match h e st1 with
        | (Ok _, st2, ev2) => (Raise e, st2, (ev1 ++ ev2)%list)
        | (Raise e', st2, ev2) => (Raise e', st2, (ev1 ++ ev2)%list)
        end
    end.

Definition write_rows (d : WriteDisposition) (old new : list row) : result (list row) :=
  match d with
  | WRITE_APPEND => Ok (old ++ new)%list
  | WRITE_TRUNCATE => Ok new
  | WRITE_EMPTY =>
      match old with
      | [] => Ok new
      | _ => Raise (mk_exn OtherException "Already Exists: table is not empty" [])
      end
  end.

Definition set_table (id : string) (rs : list row) (st : State) : State :=
  mk_state (clock_reads st)
           (fun id' => if String.eqb id' id then rs else warehouse st id').

Definition TARGET_BIGQUERY_PROJECT_ID : string := "annular-net-386720".
Definition TARGET_BIGQUERY_DATASET_ID : string := "mp2_pipeline_output".
Definition TARGET_BIGQUERY_TABLE_ID : string := "transformed_user_events".

Section Invocation.

Variable pd : Pandas.
Variable w : World.

(** [datetime.now(timezone.utc)] and [datetime.utcnow()]: one reading of the
    wall clock. *)
Definition now : M Z :=
  fun st => (Ok (clock w (clock_reads st)),
             mk_state (S (clock_reads st)) (warehouse st), []).

(** *** 1. Download *)

Definition download (bucket_name file_name : string) : M string :=
  (if PyStr.is_empty bucket_name || PyStr.is_empty file_name then
     print ("Error: Invalid bucket_name ('" ++ bucket_name ++ "') or file_name ('"
            ++ file_name ++ "') received.") ;;;
     raise (mk_exn ValueError "Bucket name or file name is empty." [])
   else ret tt) ;;;
  emit (BlobExists bucket_name file_name) ;;;
  found <- lift (blob_exists w bucket_name file_name) ;;
  (if negb found then
     print ("Error: File '" ++ file_name ++ "' does not exist in bucket '"
            ++ bucket_name ++ "'.") ;;;
     raise (mk_exn FileNotFoundError
              ("File gs://" ++ bucket_name ++ "/" ++ file_name ++ " not found.") [])
   else ret tt) ;;;
  emit (BlobDownload bucket_name file_name) ;;;
  csv_data_string <- lift (blob_download_as_text w bucket_name file_name) ;;
  print ("Successfully downloaded content of " ++ file_name ++ " from GCS.") ;;;
  ret csv_data_string.

Definition download_failed (bucket_name file_name : string) (e : exn) : M unit :=
  match exn_cls e with
  | ValueError => print ("ValueError during GCS operation: " ++ exn_msg e)
  | FileNotFoundError => print ("FileNotFoundError during GCS operation: " ++ exn_msg e)
  | _ =>
      print ("Error downloading '" ++ file_name ++ "' from GCS bucket '"
             ++ bucket_name ++ "': " ++ exn_msg e) ;;;
      print "Full traceback for GCS download error:" ;;;
      emit PrintTraceback
  end.

(** *** 2. Transform *)

(** Lines 97 to 134, on the frame that [read_csv] built. *)
Definition transform_frame (df : DataFrame) : M DataFrame :=
  df1 <- lift (parse_timestamps pd df) ;;
  current_utc_for_fill <- now ;;
  df2 <- lift (fill_timestamps current_utc_for_fill df1) ;;
  df3 <- lift (retype_timestamps pd df2) ;;
  df4 <- lift (add_country_code pd df3) ;;
  df5 <- lift (coerce_value pd df4) ;;
  df6 <- lift (add_is_high_value df5) ;;
  utcnow <- now ;;
  df7 <- lift (add_processing_datetime utcnow df6) ;;
  lift (project df7).

Definition transform (csv_data_string : string) : M DataFrame :=
  df <- lift (read_csv pd csv_data_string) ;;
  emit (PrintHead "Original DataFrame (first 3 rows):" df) ;;;
  emit (PrintDtypes "Original DataFrame dtypes:" df) ;;;
  final_df <- transform_frame df ;;
  emit (PrintHead "Transformed DataFrame (first 3 rows):" final_df) ;;;
  emit (PrintDtypes "Data types of final_df columns to be loaded:" final_df) ;;;
  ret final_df.

(** The handler of lines 141 to 146.  [traceback] is a local name of the
    function, because of the [import traceback] statements of lines 80 and
    150, and nothing has bound it when line 145 runs: the call raises
    UnboundLocalError (in the wording of CPython 3.11), which leaves the
    function in place of the exception that was caught. *)
Definition transform_failed (e : exn) : M unit :=
  print ("Error transforming data with pandas: " ++ exn_msg e) ;;;
  print "Full traceback for pandas transformation error:" ;;;
  raise (mk_exn UnboundLocalError
           "cannot access local variable 'traceback' where it is not associated with a value"
           []).

(** *** 3. Load *)

(** [bigquery_client.load_table_from_dataframe]: the client serialises the
    frame and creates the load job, which the warehouse runs; a job that
    succeeds writes its rows as the write disposition says, a job that fails
    writes none. *)
Definition load_table_from_dataframe (df : DataFrame) (table_id : string)
    (job_config : LoadJobConfig) : M LoadJob :=
  emit (LoadSubmit table_id job_config df) ;;;
  id <- lift (load_job_created w table_id df) ;;
  match load_job_outcome w table_id df with
  | Some e => ret (mk_job id (Some e) 0)
  | None =>
      fun st =>
        match write_rows (write_disposition job_config) (warehouse st table_id) (rows df) with
        | Ok rs => (Ok (mk_job id None (List.length (rows df))), set_table table_id rs st, [])
        | Raise e => (Ok (mk_job id (Some e) 0), st, [])
        end
  end.

(** [job.result()]: wait for the job to end; raise if it failed. *)
Definition job_result (job : LoadJob) : M unit :=
  emit (JobWait (job_id job)) ;;;
  match job_error job with
  | Some e => raise e
  | None => ret tt
  end.

(** [bigquery_client.get_table(table_id).num_rows] *)
Definition get_table_num_rows (table_id : string) : M nat :=
  emit (GetTable table_id) ;;;
  match get_table_error w table_id with
  | Some e => raise e
  | None => fun st => (Ok (List.length (warehouse st table_id)), st, [])
  end.

Definition table_id_full : string :=
  TARGET_BIGQUERY_PROJECT_ID ++ "." ++ TARGET_BIGQUERY_DATASET_ID ++ "."
  ++ TARGET_BIGQUERY_TABLE_ID.

Definition load (final_df : DataFrame) : M unit :=
  let job_config := mk_config WRITE_APPEND in
  print ("Loading " ++ PyStr.of_nat (nrows final_df) ++ " rows into BigQuery table: "
         ++ table_id_full) ;;;
  job <- load_table_from_dataframe final_df table_id_full job_config ;;
  job_result job ;;;
  num_rows <- get_table_num_rows table_id_full ;;
  print ("Load job " ++ job_id job ++ " completed successfully. "
         ++ "Output rows: " ++ PyStr.of_nat (output_rows job) ++ ". "
         ++ "Total rows in table '" ++ TARGET_BIGQUERY_TABLE_ID ++ "': "
         ++ PyStr.of_nat num_rows).

(** [for error_detail in e.errors: print(... error_detail['message'])]: an
    entry without that key raises KeyError. *)
Fixpoint print_details (errors : list (list (string * string))) : M unit :=
  match errors with
  | [] => ret tt
  | error_detail :: r =>
      match assoc "message" error_detail with
      | Some m => print ("  BigQuery Error Detail: " ++ m) ;;; print_details r
      | None => raise (mk_exn KeyError (quoted "message") [])
      end
  end.

Definition load_failed (e : exn) : M unit :=
  print ("Error loading data to BigQuery: " ++ exn_msg e) ;;;
  print_details (exn_errors e).

(** *** The function *)

Definition is_csv (file_name : string) : bool :=
  PyStr.endswith (PyStr.lower file_name) ".csv".

Definition process_gcs_csv_to_bq (cloud_event : CloudEvent) : M unit :=
  let bucket_name := ce_bucket cloud_event in
  let file_name := ce_name cloud_event in
  print ("Function triggered for file: gs://" ++ bucket_name ++ "/" ++ file_name) ;;;
  print ("Event ID: " ++ ce_id cloud_event ++ ", Event Type: " ++ ce_type cloud_event) ;;;
  if negb (is_csv file_name) then
    print ("Skipping file " ++ file_name ++ " as it is not a CSV.")
  else
    print ("Attempting to access bucket: '" ++ bucket_name ++ "' and file: '"
           ++ file_name ++ "'") ;;;
    csv_data_string <- try_reraise (download bucket_name file_name)
                                   (download_failed bucket_name file_name) ;;
    final_df <- try_reraise (transform csv_data_string) transform_failed ;;
    try_reraise (load final_df) load_failed.

End Invocation.


(** ** The transformation as a function of the two clock readings *)

(** Lines 97 to 123, with the reading that fills the timestamps given. *)
Definition rules (pd : Pandas) (t_fill : Z) (df : DataFrame) : result DataFrame :=
  rbind (parse_timestamps pd df) (fun df1 =>
  rbind (fill_timestamps t_fill df1) (fun df2 =>
  rbind (retype_timestamps pd df2) (fun df3 =>
  rbind (add_country_code pd df3) (fun df4 =>
  rbind (coerce_value pd df4) (fun df5 =>
  add_is_high_value df5))))).

(** The statements of [transform_frame] with the clock readings given. *)
Definition transform_columns (pd : Pandas) (t_fill t_proc : Z) (df : DataFrame)
  : result DataFrame :=
  rbind (rules pd t_fill df) (fun df6 =>
  rbind (add_processing_datetime t_proc df6) (fun df7 =>
  project df7)).

(** *** The rules, cell by cell *)

(** Country coding: line 118 on one cell of text. *)
Definition country_rule (o : option string) : option string :=
  fill "OT" (lookup_text country_mapping
               (option_map PyStr.unicode_upper (Some (str_of_text o)))).

(** Value coercion: line 122 on one cell of a float column read from text. *)
Definition value_rule (pd : Pandas) (o : option string) : float :=
  fill_nan 0%float (float_of_text pd o).

(** High-value flag: line 123 on that cell. *)
Definition flag_rule (pd : Pandas) (o : option string) : bool :=
  float_gt 100%float (value_rule pd o).

(** [str(c)] for a cell of a frame that [read_csv] built. *)
Definition cell_text (pd : Pandas) (c : cell) : string :=
  match c with
  | CObj o => str_of_text o
  | CInt z => PyStr.of_Z z
  | CFloat x => float_text pd x
  | CBool b => str_of_bool b
  | CTimestampUTC _ | CDatetime _ => EmptyString
  end.

(** A number as float64, the way [>] compares it with [100.0]. *)
Definition float_view (c : cell) : float :=
  match c with
  | CInt z => float_of_Z z
  | CFloat x => x
  | CBool b => float_of_bool b
  | _ => nan
  end.

(** *** The columns of the result *)

Definition or_else {A} (d : A) (r : result A) : A :=
  match r with
  | Ok a => a
  | Raise _ => d
  end.

(** The column under a name; an empty column when there is none. *)
Definition column (name : string) (df : DataFrame) : Series :=
  or_else (ObjectS []) (get_col name df).

(** Lines 97 to 107 on the timestamp column. *)
Definition timestamp_series (pd : Pandas) (t_fill : Z) (s : Series) : Series :=
  or_else s
    (rbind (to_datetime pd true s) (fun s1 =>
     rbind (fillna_datetime t_fill s1) (fun s2 =>
     to_datetime pd false s2))).

(** Line 118 on the country column. *)
Definition country_series (pd : Pandas) (s : Series) : Series :=
  or_else s
    (rbind (astype_str pd s) (fun s1 =>
     rbind (str_upper s1) (fun s2 =>
     rbind (map_dict country_mapping s2) (fun s3 =>
     fillna_str "OT" s3)))).

(** Line 122 on the value column. *)
Definition value_series (pd : Pandas) (s : Series) : Series :=
  or_else s (rbind (to_numeric_coerce pd s) (fun s1 => fillna_float 0%float s1)).

(** Line 123 on the coerced value column. *)
Definition flag_series (s : Series) : Series :=
  or_else s (gt_scalar 100%float s).

(** The frame that the transformation returns when it returns one. *)
Definition target_frame (pd : Pandas) (t_fill t_proc : Z) (t : DataFrame) : DataFrame :=
  mk_frame (nrows t)
    [("user_id", column "user_id" t);
     ("event_timestamp", timestamp_series pd t_fill (column "event_timestamp" t));
     ("country_code", country_series pd (column "country" t));
     ("value", value_series pd (column "value" t));
     ("is_high_value", flag_series (value_series pd (column "value" t)));
     ("processing_datetime", DatetimeS (repeat (Some t_proc) (nrows t)))].

(** What [to_datetime] reads at position [i] of the timestamp column [s]:
    nothing for a missing cell or when the library could read nothing. *)
Definition read_instant (pd : Pandas) (s : Series) (i : nat) : option Z :=
  match to_datetime_utc pd true s with
  | Ok f => instant_at s f i
  | Raise _ => None
  end.

(** Row [i] of the result, from row [i] of the frame [t], the timestamp
    column and the value column of [t], and the two clock readings. *)
Definition target_row (pd : Pandas) (t_fill t_proc : Z) (t : DataFrame) (i : nat) : row :=
  [("user_id", field "user_id" (row_at t i));
   ("event_timestamp",
    CTimestampUTC (fill t_fill (read_instant pd (column "event_timestamp" t) i)));
   ("country_code", CObj (country_rule (Some (cell_text pd (field "country" (row_at t i))))));
   ("value", cell_at (value_series pd (column "value" t)) i);
   ("is_high_value",
    CBool (PrimFloat.ltb 100%float
             (float_view (cell_at (value_series pd (column "value" t)) i))));
   ("processing_datetime", CDatetime (Some t_proc))].

(** *** When the transformation succeeds *)

(** The frame has the four columns that the transformation reads. *)
Definition accepted (t : DataFrame) : bool :=
  has_column "event_timestamp" t && has_column "country" t
  && has_column "value" t && has_column "user_id" t.

(** [to_datetime] raises nothing on the timestamp column. *)
Definition timestamps_readable (pd : Pandas) (t : DataFrame) : bool :=
  is_ok (to_datetime_utc pd true (column "event_timestamp" t)).

(** Line 128 can broadcast its scalar: the frame has a row, or already a
    column of that name. *)
Definition can_broadcast (t : DataFrame) : bool :=
  negb (nrows t =? 0)%nat || has_column "processing_datetime" t.

(** A frame that [read_csv] built and on which every statement of the
    transformation succeeds. *)
Definition transformable (pd : Pandas) (t : DataFrame) : bool :=
  csv_frame t && accepted t && timestamps_readable pd t && can_broadcast t.

(** ** Sample collaborators, for the examples *)

Module Sample.

Definition digit_value (c : ascii) : option Z :=
  let n := nat_of_ascii c in
  if (48 <=? n)%nat && (n <=? 57)%nat then Some (Z.of_nat (n - 48)) else None.

Fixpoint digits_from (acc : Z) (s : string) : option Z :=
  match s with
  | EmptyString => Some acc
  | String c r =>
      match digit_value c with
      | Some d => digits_from (10 * acc + d) r
      | None => None
      end
  end.

(** A non-empty run of decimal digits. *)
Definition digits (s : string) : option Z :=
  match s with
  | EmptyString => None
  | _ => digits_from 0 s
  end.

(** Reads an unsigned decimal integer. *)
Definition parse_number (s : string) : option number :=
  match digits s with
  | Some z => Some (IntN z)
  | None => None
  end.

Definition days_from_civil (y m d : Z) : Z :=
  let y' := if (m <=? 2)%Z then (y - 1)%Z else y in
  let era := (y' / 400)%Z in
  let yoe := (y' - era * 400)%Z in
  let mp := ((m + 9) mod 12)%Z in
  let doy := ((153 * mp + 2) / 5 + d - 1)%Z in
  let doe := (yoe * 365 + yoe / 4 - yoe / 100 + doy)%Z in
  (era * 146097 + doe - 719468)%Z.

Definition between (lo x hi : Z) : bool := ((lo <=? x) && (x <=? hi))%Z.

Definition instant (y m d hh mm ss : Z) : option Z :=
  if between 1 m 12 && between 1 d 31 && between 0 hh 23 && between 0 mm 59
     && between 0 ss 59
  then Some ((((days_from_civil y m d * 24 + hh) * 60 + mm) * 60 + ss) * 1000000)%Z
  else None.

(** Reads [YYYY-MM-DDTHH:MM:SSZ] as microseconds since the epoch. *)
Definition parse_iso (s : string) : option Z :=
  if negb (String.length s =? 20)%nat then None else
  if negb (String.eqb (substring 4 1 s) "-" && String.eqb (substring 7 1 s) "-"
           && String.eqb (substring 10 1 s) "T" && String.eqb (substring 13 1 s) ":"
           && String.eqb (substring 16 1 s) ":" && String.eqb (substring 19 1 s) "Z")
  then None else
  match digits (substring 0 4 s), digits (substring 5 2 s), digits (substring 8 2 s),
        digits (substring 11 2 s), digits (substring 14 2 s), digits (substring 17 2 s) with
  | Some y, Some m, Some d, Some hh, Some mm, Some ss => instant y m d hh mm ss
  | _, _, _, _, _, _ => None
  end.

(** Reads [MM/DD/YYYY], midnight UTC. *)
Definition parse_us (s : string) : option Z :=
  if negb (String.length s =? 10)%nat then None else
  if negb (String.eqb (substring 2 1 s) "/" && String.eqb (substring 5 1 s) "/")
  then None else
  match digits (substring 6 4 s), digits (substring 0 2 s), digits (substring 3 2 s) with
  | Some y, Some m, Some d => instant y m d 0 0 0
  | _, _, _ => None
  end.

Definition parse_any (s : string) : option Z :=
  match parse_iso s with
  | Some t => Some t
  | None => parse_us s
  end.

(** The first text of a column. *)
Fixpoint first_text (xs : list (option string)) : option string :=
  match xs with
  | [] => None
  | Some s :: _ => Some s
  | None :: r => first_text r
  end.

(** The parser for a column: the format of its first text when that text
    has one of the two formats, else each text is read by itself, the way
    pandas 2 infers a format. *)
Definition column_parser (xs : list (option string)) : string -> option Z :=
  match first_text xs with
  | None => parse_any
  | Some s =>
      match parse_iso s with
      | Some _ => parse_iso
      | None =>
          match parse_us s with
          | Some _ => parse_us
          | None => parse_any
          end
      end
  end.

Definition text_at (xs : list (option string)) (i : nat) : string :=
  match nth i xs None with
  | Some s => s
  | None => EmptyString
  end.

Definition unreadable (xs : list (option string)) (o : option string) : bool :=
  match o with
  | Some s => match column_parser xs s with Some _ => false | None => true end
  | None => false
  end.

(** [to_datetime] on a column: text by the parser of the column, integers
    as nanoseconds since the epoch, floats as nothing; booleans are refused,
    and so is a text that cannot be read when errors are not coerced. *)
Definition to_datetime_utc (coerce : bool) (s : Series) : result (nat -> option Z) :=
  match s with
  | ObjectS xs =>
      if negb coerce && existsb (unreadable xs) xs
      then Raise (mk_exn ValueError "time data doesn't match format" [])
      else Ok (fun i => column_parser xs (text_at xs i))
  | Int64S zs => Ok (fun i => Some (nth i zs 0 / 1000)%Z)
  | Float64S _ => Ok (fun _ => None)
  | _ => Raise (mk_exn TypeError "<class 'bool'> is not convertible to datetime" [])
  end.

(** Tells NaN from the other floats only. *)
Definition str_of_float (x : float) : string :=
  if is_nan x then "nan" else "a float".

(** A [read_csv] that knows one text. *)
Definition read_csv (text : string) (t : DataFrame) (s : string) : result DataFrame :=
  if String.eqb s text then Ok t
  else Raise (mk_exn OtherException "No columns to parse from file" []).

Definition pandas (text : string) (t : DataFrame) : Pandas :=
  mk_pandas (read_csv text t) parse_number to_datetime_utc str_of_float.

(** A clock that starts at [t0] and advances by [step] between readings. *)
Definition ticking (t0 step : Z) (n : nat) : Z := (t0 + step * Z.of_nat n)%Z.

(** A world with one object in the store and a warehouse that accepts every
    load; the invocation starts at the instant 7. *)
Definition world (bucket name text : string) (clk : nat -> Z) : World :=
  mk_world clk
    (fun b n => Ok (String.eqb b bucket && String.eqb n name))
    (fun b n => if String.eqb b bucket && String.eqb n name then Ok text
                else Raise (mk_exn OtherException "404 No such object" []))
    (fun _ _ => Ok "job_1")
    (fun _ _ => None)
    (fun _ => None)
    7.

Definition empty_warehouse : State := mk_state 0 (fun _ => []).

(** The two scenario rows of the specification, as [read_csv] reads them:
    four columns of text. *)
Definition scenario : DataFrame :=
  mk_frame 2
    [("user_id", ObjectS [Some "u1"; Some "u2"]);
     ("event_timestamp", ObjectS [Some "not-a-date"; Some "2024-01-01T00:00:00Z"]);
     ("country", ObjectS [Some "malaysia"; Some "Vietnam"]);
     ("value", ObjectS [Some "150"; Some "abc"])].

Definition newline : string := String (ascii_of_nat 10) EmptyString.

Definition csv_text : string :=
  "user_id,event_timestamp,country,value" ++ newline
  ++ "u1,not-a-date,malaysia,150" ++ newline
  ++ "u2,2024-01-01T00:00:00Z,Vietnam,abc" ++ newline.

Definition pd : Pandas := pandas csv_text scenario.

(** The object [gs://uploads/events.csv] holds the scenario; the clock reads
    10, 15, 20, ... *)
Definition w : World := world "uploads" "events.csv" csv_text (ticking 10 5).

Definition finalized (bucket name : string) : CloudEvent :=
  mk_event "evt-1" "google.cloud.storage.object.v1.finalized" bucket name.

End Sample.

(** ** Frames: lookup after assignment *)

Lemma assoc_replace_same (name : string) (s : Series) (l : list (string * Series)) :
  assoc name (replace_col name s l) = Some s.
Proof.
  induction l as [|[k v] r IH]; simpl.
  - now rewrite String.eqb_refl.
  - destruct (String.eqb name k) eqn:E; simpl; rewrite E; auto.
Qed.

Lemma assoc_replace_other (name k : string) (s : Series) (l : list (string * Series)) :
  String.eqb name k = false ->
  assoc name (replace_col k s l) = assoc name l.
Proof.
  intros Hne. induction l as [|[k' v] r IH]; simpl.
  - now rewrite Hne.
  - destruct (String.eqb k k') eqn:E; simpl.
    + apply String.eqb_eq in E. subst k'. now rewrite Hne.
    + now rewrite IH.
Qed.

Lemma columns_set_same (name : string) (s : Series) (df : DataFrame) :
  assoc name (columns (set_col name s df)) = Some s.
Proof. apply assoc_replace_same. Qed.

Lemma columns_set_other (name k : string) (s : Series) (df : DataFrame) :
  String.eqb name k = false ->
  assoc name (columns (set_col k s df)) = assoc name (columns df).
Proof. apply assoc_replace_other. Qed.

Lemma has_column_set_other (name k : string) (s : Series) (df : DataFrame) :
  String.eqb name k = false ->
  has_column name (set_col k s df) = has_column name df.
Proof. intros H. unfold has_column. now rewrite columns_set_other. Qed.

Lemma column_present (name : string) (df : DataFrame) (s : Series) :
  assoc name (columns df) = Some s -> column name df = s.
Proof. intros H. unfold column, get_col. now rewrite H. Qed.

Lemma has_column_present (name : string) (df : DataFrame) :
  has_column name df = true -> exists s, assoc name (columns df) = Some s.
Proof.
  unfold has_column. destruct (assoc name (columns df)) as [s|]; [eauto|discriminate].
Qed.

(** ** The transformation returns [target_frame] *)

Ltac innermost r :=
  match r with
  | rbind ?r' _ => innermost r'
  | _ => r
  end.

Ltac bind_case H E :=
  match type of H with
  | rbind ?r _ = Ok _ =>
      let r0 := innermost r in
      destruct r0 eqn:E; cbn [rbind] in H; [|discriminate H]
  end.

(** Whenever the statements return a frame, the frame has the four columns
    and the result is [target_frame]. *)
Lemma transform_columns_ok (pd : Pandas) (t_fill t_proc : Z) (df out : DataFrame) :
  transform_columns pd t_fill t_proc df = Ok out ->
  accepted df = true /\ out = target_frame pd t_fill t_proc df.
Proof.
  intros H.
  unfold transform_columns, rules, parse_timestamps, fill_timestamps,
    retype_timestamps, update_col, get_col in H.
  destruct (assoc "event_timestamp" (columns df)) as [ts|] eqn:Ets; [|discriminate H].
  cbn [rbind] in H. bind_case H E1.
  rewrite columns_set_same in H. cbn [rbind] in H. bind_case H E2.
  rewrite columns_set_same in H. cbn [rbind] in H. bind_case H E3.
  unfold add_country_code, get_col in H.
  rewrite !columns_set_other in H by reflexivity.
  destruct (assoc "country" (columns df)) as [c|] eqn:Ec; [|discriminate H].
  cbn [rbind] in H. bind_case H E4. bind_case H E5. bind_case H E6. bind_case H E7.
  unfold coerce_value, get_col in H.
  rewrite !columns_set_other in H by reflexivity.
  destruct (assoc "value" (columns df)) as [v|] eqn:Ev; [|discriminate H].
  cbn [rbind] in H. bind_case H E8. bind_case H E9.
  unfold add_is_high_value, get_col in H.
  rewrite columns_set_same in H. cbn [rbind] in H. bind_case H E10.
  unfold add_processing_datetime in H.
  match type of H with
  | rbind (if ?c then _ else _) _ = _ => destruct c; [discriminate H|cbn [rbind] in H]
  end.
  unfold project, select, target_columns, select_cols in H.
  rewrite columns_set_same in H.
  repeat (rewrite columns_set_other in H by reflexivity;
          try rewrite columns_set_same in H).
  destruct (assoc "user_id" (columns df)) as [u|] eqn:Eu; [|discriminate H].
  cbn [rbind nrows set_col] in H. injection H as <-.
  split.
  - unfold accepted, has_column. now rewrite Ets, Ec, Ev, Eu.
  - unfold target_frame, column, get_col, timestamp_series, country_series,
      value_series, flag_series.
    rewrite Ets, Ec, Ev, Eu. cbn [or_else].
    rewrite E1. cbn [rbind]. rewrite E2. cbn [rbind]. rewrite E3.
    rewrite E4. cbn [rbind]. rewrite E5. cbn [rbind]. rewrite E6. cbn [rbind].
    rewrite E7, E8. cbn [rbind]. rewrite E9. cbn [or_else]. rewrite E10.
    reflexivity.
Qed.

(** *** Frames built by [read_csv] *)

Lemma csv_frame_column (df : DataFrame) (name : string) (s : Series) :
  csv_frame df = true ->
  assoc name (columns df) = Some s ->
  csv_dtype s = true /\ series_length s = nrows df.
Proof.
  unfold csv_frame, well_formed. intros H Hs.
  apply andb_true_iff in H. destruct H as [Hw Hd].
  rewrite forallb_forall in Hw, Hd.
  assert (Hin : In (name, s) (columns df) \/ False).
  { left. revert Hs. generalize (columns df) as l.
    induction l as [|[k v] r IH]; simpl; [discriminate|].
    destruct (String.eqb name k) eqn:E.
    - intros Hs. injection Hs as ->. apply String.eqb_eq in E. subst k. now left.
    - intros Hs. right. auto. }
  destruct Hin as [Hin|[]].
  split.
  - exact (Hd _ Hin).
  - apply Nat.eqb_eq. exact (Hw _ Hin).
Qed.

Definition numeric (s : Series) : bool :=
  match s with
  | Int64S _ | Float64S _ | BoolS _ => true
  | _ => false
  end.

Lemma all_ints_length (pd : Pandas) (xs : list (option string)) :
  forall zs, all_ints pd xs = Some zs -> List.length zs = List.length xs.
Proof.
  induction xs as [|o r IH]; simpl; intros zs H.
  - now injection H as <-.
  - destruct (int_of_text pd o); [|discriminate H].
    destruct (all_ints pd r) as [zs'|]; [|discriminate H].
    injection H as <-. simpl. f_equal. now apply IH.
Qed.

(** Line 122 on a column that [read_csv] built gives a column of numbers of
    the same length. *)
Lemma value_series_csv (pd : Pandas) (s : Series) :
  csv_dtype s = true ->
  rbind (to_numeric_coerce pd s) (fun s1 => fillna_float 0%float s1)
  = Ok (value_series pd s)
  /\ numeric (value_series pd s) = true
  /\ series_length (value_series pd s) = series_length s.
Proof.
  unfold value_series.
  destruct s as [xs|xs|xs|xs|xs|xs]; try discriminate; intros _; cbn.
  - destruct (all_ints pd xs) as [zs|] eqn:E; cbn.
    + repeat split. now apply (all_ints_length pd).
    + repeat split. now rewrite !length_map.
  - repeat split.
  - repeat split. now rewrite length_map.
  - repeat split.
Qed.

Lemma flag_series_numeric (s : Series) :
  numeric s = true -> gt_scalar 100%float s = Ok (flag_series s).
Proof.
  unfold flag_series. destruct s; try discriminate; reflexivity.
Qed.

Lemma country_series_csv (pd : Pandas) (s : Series) :
  csv_dtype s = true ->
  rbind (astype_str pd s) (fun s1 =>
  rbind (str_upper s1) (fun s2 =>
  rbind (map_dict country_mapping s2) (fun s3 =>
  fillna_str "OT" s3)))
  = Ok (country_series pd s).
Proof.
  unfold country_series. destruct s; try discriminate; reflexivity.
Qed.

Lemma country_chain_csv {B} (pd : Pandas) (s : Series) (k : Series -> result B) :
  csv_dtype s = true ->
  rbind (astype_str pd s) (fun s1 =>
  rbind (str_upper s1) (fun s2 =>
  rbind (map_dict country_mapping s2) (fun s3 =>
  rbind (fillna_str "OT" s3) k)))
  = k (country_series pd s).
Proof.
  unfold country_series. destruct s; try discriminate; reflexivity.
Qed.

Lemma value_chain_csv {B} (pd : Pandas) (s : Series) (k : Series -> result B) :
  csv_dtype s = true ->
  rbind (to_numeric_coerce pd s) (fun s1 => rbind (fillna_float 0%float s1) k)
  = k (value_series pd s).
Proof.
  unfold value_series.
  destruct s as [xs|xs|xs|xs|xs|xs]; try discriminate; intros _; cbn; try reflexivity.
  destruct (all_ints pd xs); reflexivity.
Qed.

Lemma to_datetime_csv (pd : Pandas) (coerce : bool) (s : Series) :
  csv_dtype s = true ->
  to_datetime pd coerce s =
  rbind (to_datetime_utc pd coerce s) (fun f =>
  Ok (DatetimeUTCS (map (instant_at s f) (seq 0 (series_length s))))).
Proof.
  destruct s; try discriminate; reflexivity.
Qed.

Lemma timestamp_series_csv (pd : Pandas) (t_fill : Z) (s : Series) (f : nat -> option Z) :
  csv_dtype s = true ->
  to_datetime_utc pd true s = Ok f ->
  rbind (to_datetime pd true s) (fun s1 =>
  rbind (fillna_datetime t_fill s1) (fun s2 =>
  to_datetime pd false s2))
  = Ok (timestamp_series pd t_fill s)
  /\ timestamp_series pd t_fill s
     = DatetimeUTCS (map (fun i => fill t_fill (instant_at s f i)) (seq 0 (series_length s))).
Proof.
  intros Hd Hf. unfold timestamp_series.
  rewrite (to_datetime_csv pd true s Hd), Hf. cbn. rewrite map_map. auto.
Qed.

(** When the transformation succeeds on a frame that [read_csv] built: it
    needs the four columns, a timestamp column that [to_datetime] accepts,
    and a row or a column for line 128. *)
Lemma transform_columns_is_ok (pd : Pandas) (t_fill t_proc : Z) (df : DataFrame) :
  csv_frame df = true ->
  is_ok (transform_columns pd t_fill t_proc df)
  = accepted df && timestamps_readable pd df && can_broadcast df.
Proof.
  intros Hcsv.
  unfold transform_columns, rules, parse_timestamps, fill_timestamps,
    retype_timestamps, update_col, get_col, accepted, timestamps_readable,
    can_broadcast, has_column, column, get_col.
  destruct (assoc "event_timestamp" (columns df)) as [ts|] eqn:Ets; [|reflexivity].
  destruct (csv_frame_column df _ ts Hcsv Ets) as [Hts _].
  cbn [rbind or_else andb].
  rewrite (to_datetime_csv pd true ts Hts).
  destruct (to_datetime_utc pd true ts) as [f|e] eqn:Ef; cbn [rbind is_ok];
    [|now rewrite andb_false_r].
  rewrite columns_set_same. cbn [rbind fillna_datetime].
  rewrite columns_set_same. cbn [rbind to_datetime].
  unfold add_country_code, get_col.
  rewrite !columns_set_other by reflexivity.
  destruct (assoc "country" (columns df)) as [c|] eqn:Ec; [|reflexivity].
  destruct (csv_frame_column df _ c Hcsv Ec) as [Hc _].
  cbn [rbind]. rewrite (country_chain_csv pd c _ Hc). cbn [rbind].
  unfold coerce_value, get_col.
  rewrite !columns_set_other by reflexivity.
  destruct (assoc "value" (columns df)) as [v|] eqn:Ev; [|reflexivity].
  destruct (csv_frame_column df _ v Hcsv Ev) as [Hv _].
  destruct (value_series_csv pd v Hv) as (_ & Hnum & _).
  cbn [rbind]. rewrite (value_chain_csv pd v _ Hv). cbn [rbind].
  unfold add_is_high_value, get_col.
  rewrite columns_set_same. cbn [rbind].
  rewrite (flag_series_numeric _ Hnum). cbn [rbind].
  unfold add_processing_datetime, has_column.
  rewrite !columns_set_other by reflexivity. cbn [nrows set_col andb].
  destruct (negb (nrows df =? 0)%nat || match assoc "processing_datetime" (columns df) with
                                         | Some _ => true | None => false end) eqn:Hb.
  - assert (Hc0 : (nrows df =? 0)%nat
                  && negb match assoc "processing_datetime" (columns df) with
                          | Some _ => true | None => false end = false).
    { destruct (nrows df =? 0)%nat; [|reflexivity].
      destruct (assoc "processing_datetime" (columns df)); [reflexivity|discriminate Hb]. }
    rewrite Hc0. cbn [rbind].
    unfold project, select, target_columns, select_cols.
    rewrite columns_set_same.
    repeat (rewrite columns_set_other by reflexivity; try rewrite columns_set_same).
    destruct (assoc "user_id" (columns df)); reflexivity.
  - assert (Hc0 : (nrows df =? 0)%nat
                  && negb match assoc "processing_datetime" (columns df) with
                          | Some _ => true | None => false end = true).
    { destruct (nrows df =? 0)%nat; [|discriminate Hb].
      destruct (assoc "processing_datetime" (columns df)); [discriminate Hb|reflexivity]. }
    rewrite Hc0. cbn [rbind is_ok]. now rewrite andb_false_r.
Qed.

(** On a transformable frame the statements return [target_frame]. *)
Lemma transform_columns_transformable (pd : Pandas) (t_fill t_proc : Z) (df : DataFrame) :
  transformable pd df = true ->
  transform_columns pd t_fill t_proc df = Ok (target_frame pd t_fill t_proc df).
Proof.
  unfold transformable. intros H.
  apply andb_true_iff in H. destruct H as [H Hb].
  apply andb_true_iff in H. destruct H as [H Ht].
  apply andb_true_iff in H. destruct H as [Hcsv Ha].
  pose proof (transform_columns_is_ok pd t_fill t_proc df Hcsv) as Hok.
  rewrite Ha, Ht, Hb in Hok.
  destruct (transform_columns pd t_fill t_proc df) as [out|e] eqn:E; [|discriminate Hok].
  destruct (transform_columns_ok pd t_fill t_proc df out E) as [_ ->]. reflexivity.
Qed.

Lemma transformable_parts (pd : Pandas) (df : DataFrame) :
  transformable pd df = true ->
  csv_frame df = true /\ accepted df = true
  /\ timestamps_readable pd df = true /\ can_broadcast df = true.
Proof.
  unfold transformable. intros H.
  apply andb_true_iff in H. destruct H as [H Hb].
  apply andb_true_iff in H. destruct H as [H Ht].
  apply andb_true_iff in H. destruct H as [Hcsv Ha]. auto.
Qed.

Lemma accepted_columns (df : DataFrame) :
  accepted df = true ->
  has_column "event_timestamp" df = true /\ has_column "country" df = true
  /\ has_column "value" df = true /\ has_column "user_id" df = true.
Proof.
  unfold accepted. intros H.
  repeat (apply andb_true_iff in H; destruct H as [H ?]). auto.
Qed.

(** ** Rows of the frames *)

Lemma nth_map_lt {A B} (f : A -> B) (l : list A) (i : nat) (d : B) (d' : A) :
  i < List.length l -> nth i (map f l) d = f (nth i l d').
Proof.
  revert i. induction l as [|x r IH]; intros i Hi; simpl in *; [lia|].
  destruct i; [reflexivity|]. apply IH. lia.
Qed.

Lemma nth_repeat_lt {A} (x d : A) (n i : nat) :
  i < n -> nth i (repeat x n) d = x.
Proof.
  revert i. induction n as [|n IH]; intros i Hi; simpl; [lia|].
  destruct i; [reflexivity|]. apply IH. lia.
Qed.

Lemma nth_map_seq {B} (g : nat -> B) (n i : nat) (d : B) :
  i < n -> nth i (map g (seq 0 n)) d = g i.
Proof.
  intros Hi. rewrite (nth_map_lt g (seq 0 n) i d 0) by now rewrite length_seq.
  now rewrite seq_nth.
Qed.

Lemma assoc_row_at (name : string) (df : DataFrame) (i : nat) :
  assoc name (row_at df i) = option_map (fun s => cell_at s i) (assoc name (columns df)).
Proof.
  unfold row_at. induction (columns df) as [|[k v] r IH]; simpl; [reflexivity|].
  destruct (String.eqb name k); [reflexivity|exact IH].
Qed.

(** The cell of row [i] under a column name is cell [i] of the column. *)
Lemma field_row_at (name : string) (df : DataFrame) (s : Series) (i : nat) :
  assoc name (columns df) = Some s ->
  field name (row_at df i) = cell_at s i.
Proof.
  intros H. unfold field. now rewrite assoc_row_at, H.
Qed.

Lemma cell_at_timestamp (pd : Pandas) (t_fill : Z) (s : Series) (i : nat) :
  csv_dtype s = true ->
  is_ok (to_datetime_utc pd true s) = true ->
  i < series_length s ->
  cell_at (timestamp_series pd t_fill s) i
  = CTimestampUTC (fill t_fill (read_instant pd s i)).
Proof.
  intros Hd Hok Hi. unfold read_instant.
  destruct (to_datetime_utc pd true s) as [f|e] eqn:Hf; [|discriminate Hok].
  destruct (timestamp_series_csv pd t_fill s f Hd Hf) as [_ ->].
  cbn [cell_at]. now rewrite nth_map_seq.
Qed.

Lemma cell_at_country (pd : Pandas) (s : Series) (i : nat) :
  csv_dtype s = true ->
  i < series_length s ->
  cell_at (country_series pd s) i
  = CObj (country_rule (Some (cell_text pd (cell_at s i)))).
Proof.
  intros Hd Hi. unfold country_series.
  destruct s as [xs|xs|xs|xs|xs|xs]; try discriminate Hd;
    cbn [astype_str str_upper map_dict fillna_str rbind or_else cell_at series_length] in *;
    rewrite !map_map.
  - now rewrite (nth_map_lt _ xs i None None Hi).
  - now rewrite (nth_map_lt _ xs i None 0%Z Hi).
  - now rewrite (nth_map_lt _ xs i None nan Hi).
  - now rewrite (nth_map_lt _ xs i None false Hi).
Qed.

Lemma cell_at_flag (s : Series) (i : nat) :
  numeric s = true ->
  i < series_length s ->
  cell_at (flag_series s) i = CBool (PrimFloat.ltb 100%float (float_view (cell_at s i))).
Proof.
  intros Hn Hi. unfold flag_series.
  destruct s as [xs|xs|xs|xs|xs|xs]; try discriminate Hn;
    cbn [gt_scalar or_else cell_at series_length float_view] in *.
  - now rewrite (nth_map_lt _ xs i false 0%Z Hi).
  - now rewrite (nth_map_lt _ xs i false nan Hi).
  - now rewrite (nth_map_lt _ xs i false false Hi).
Qed.

(** Row [i] of the result is [target_row] at [i]. *)
Lemma row_at_target_frame (pd : Pandas) (t_fill t_proc : Z) (df : DataFrame) (i : nat) :
  transformable pd df = true ->
  i < nrows df ->
  row_at (target_frame pd t_fill t_proc df) i = target_row pd t_fill t_proc df i.
Proof.
  intros Ht Hi. destruct (transformable_parts pd df Ht) as (Hcsv & Ha & Hr & _).
  destruct (accepted_columns df Ha) as (Hts & Hc & Hv & Hu).
  apply has_column_present in Hts, Hc, Hv, Hu.
  destruct Hts as [ts Ets]. destruct Hc as [c Ec].
  destruct Hv as [v Ev]. destruct Hu as [u Eu].
  destruct (csv_frame_column df _ ts Hcsv Ets) as [Dts Lts].
  destruct (csv_frame_column df _ c Hcsv Ec) as [Dc Lc].
  destruct (csv_frame_column df _ v Hcsv Ev) as [Dv Lv].
  destruct (value_series_csv pd v Dv) as (_ & Hnum & Hlen).
  unfold timestamps_readable in Hr.
  unfold row_at, target_frame, target_row. cbn [columns map fst snd].
  rewrite (field_row_at _ df u i Eu), (field_row_at _ df c i Ec).
  rewrite (column_present _ df u Eu), (column_present _ df ts Ets) in *.
  rewrite (column_present _ df c Ec), (column_present _ df v Ev).
  rewrite (cell_at_timestamp pd t_fill ts i Dts Hr) by lia.
  rewrite (cell_at_country pd c i Dc) by lia.
  rewrite (cell_at_flag _ i Hnum) by lia.
  cbn [cell_at]. now rewrite (nth_repeat_lt _ _ _ _ Hi).
Qed.

(** The rows of the result are [target_row] at 0, 1, ... in this order. *)
Lemma rows_target_frame (pd : Pandas) (t_fill t_proc : Z) (df : DataFrame) :
  transformable pd df = true ->
  rows (target_frame pd t_fill t_proc df)
  = map (target_row pd t_fill t_proc df) (seq 0 (nrows df)).
Proof.
  intros Ht. unfold rows. cbn [nrows target_frame].
  apply map_ext_in. intros i Hi. apply in_seq in Hi.
  apply row_at_target_frame; [exact Ht|lia].
Qed.

(** ** Running the transformation *)

(** How often [transform_frame] reads the clock: not at all when line 97
    fails, once when a later statement up to line 123 fails, twice when all
    of them succeed. *)
Definition reads_taken (pd : Pandas) (t_fill : Z) (df : DataFrame) : nat :=
  if is_ok (parse_timestamps pd df)
  then if is_ok (rules pd t_fill df) then 2 else 1
  else 0.

(** [transform_frame] emits nothing, leaves the warehouse alone, and returns
    what [transform_columns] returns for the two readings. *)
Lemma transform_frame_run (pd : Pandas) (w : World) (df : DataFrame) (st : State) :
  transform_frame pd w df st =
  (transform_columns pd (clock w (clock_reads st)) (clock w (S (clock_reads st))) df,
   mk_state (reads_taken pd (clock w (clock_reads st)) df + clock_reads st) (warehouse st),
   []).
Proof.
  destruct st as [n wh].
  unfold transform_frame, transform_columns, reads_taken, rules, bind, lift, now.
  cbn [clock_reads warehouse].
  destruct (parse_timestamps pd df) as [df1|e]; cbn [rbind is_ok]; [|reflexivity].
  destruct (fill_timestamps (clock w n) df1) as [df2|e]; cbn [rbind is_ok]; [|reflexivity].
  destruct (retype_timestamps pd df2) as [df3|e]; cbn [rbind is_ok]; [|reflexivity].
  destruct (add_country_code pd df3) as [df4|e]; cbn [rbind is_ok]; [|reflexivity].
  destruct (coerce_value pd df4) as [df5|e]; cbn [rbind is_ok]; [|reflexivity].
  destruct (add_is_high_value df5) as [df6|e]; cbn [rbind is_ok]; [|reflexivity].
  destruct (add_processing_datetime (clock w (S n)) df6) as [df7|e]; cbn [rbind];
    [|reflexivity].
  destruct (project df7); reflexivity.
Qed.

Lemma rules_ok_of_transform (pd : Pandas) (t_fill t_proc : Z) (df : DataFrame) :
  is_ok (transform_columns pd t_fill t_proc df) = true ->
  is_ok (rules pd t_fill df) = true /\ is_ok (parse_timestamps pd df) = true.
Proof.
  unfold transform_columns, rules.
  destruct (parse_timestamps pd df); cbn [rbind is_ok]; [|discriminate].
  match goal with
  | |- is_ok (rbind ?r _) = true -> _ => destruct r; cbn [rbind is_ok]; [auto|discriminate]
  end.
Qed.

(** On a transformable frame the transformation reads the clock twice and
    returns [target_frame] of the two readings. *)
Lemma transform_frame_transformable (pd : Pandas) (w : World) (df : DataFrame) (st : State) :
  transformable pd df = true ->
  transform_frame pd w df st =
  (Ok (target_frame pd (clock w (clock_reads st)) (clock w (S (clock_reads st))) df),
   mk_state (2 + clock_reads st) (warehouse st), []).
Proof.
  intros H. rewrite transform_frame_run.
  pose proof (transform_columns_transformable pd (clock w (clock_reads st))
                (clock w (S (clock_reads st))) df H) as Hok.
  destruct (rules_ok_of_transform pd (clock w (clock_reads st))
              (clock w (S (clock_reads st))) df) as [Hr Hp];
    [now rewrite Hok|].
  unfold reads_taken. now rewrite Hok, Hr, Hp.
Qed.

(** On a transformable frame the transformation returns a frame with as
    many rows, row [i] being [target_row] at [i]. *)
Lemma transform_frame_rows (pd : Pandas) (w : World) (df : DataFrame) (st : State) :
  transformable pd df = true ->
  exists out,
    transform_frame pd w df st
    = (Ok out, mk_state (2 + clock_reads st) (warehouse st), [])
    /\ out = target_frame pd (clock w (clock_reads st)) (clock w (S (clock_reads st))) df
    /\ nrows out = nrows df
    /\ forall i, i < nrows df ->
         row_at out i
         = target_row pd (clock w (clock_reads st)) (clock w (S (clock_reads st))) df i.
Proof.
  intros H. eexists. split; [apply transform_frame_transformable; exact H|].
  split; [reflexivity|]. split; [reflexivity|].
  intros i Hi. now apply row_at_target_frame.
Qed.

(** The cell of row [i] under one of the four columns of an accepted frame
    that [read_csv] built. *)
Lemma raw_cell (df : DataFrame) (name : string) (i : nat) :
  csv_frame df = true ->
  has_column name df = true ->
  i < nrows df ->
  field name (row_at df i) = cell_at (column name df) i
  /\ csv_dtype (column name df) = true
  /\ i < series_length (column name df).
Proof.
  intros Hcsv Hc Hi. apply has_column_present in Hc. destruct Hc as [s Es].
  destruct (csv_frame_column df name s Hcsv Es) as [Hd Hl].
  rewrite (field_row_at name df s i Es), (column_present name df s Es).
  repeat split; [exact Hd|lia].
Qed.

(** ** The value rule and the high-value flag *)




(** The coerced cell at position [i] of a column of text. *)
Lemma value_cell_text (pd : Pandas) (xs : list (option string)) (i : nat) :
  i < List.length xs ->
  cell_at (value_series pd (ObjectS xs)) i
  = match all_ints pd xs with
    | Some zs => CInt (nth i zs 0%Z)
    | None => CFloat (value_rule pd (nth i xs None))
    end.
Proof.
  intros Hi. unfold value_series. cbn [to_numeric_coerce].
  destruct (all_ints pd xs) as [zs|]; cbn [rbind fillna_float or_else cell_at];
    [reflexivity|].
  rewrite map_map. now rewrite (nth_map_lt _ xs i nan None Hi).
Qed.



Lemma fill_nan_not_nan (x : float) : is_nan (fill_nan 0%float x) = false.
Proof.
  unfold fill_nan. destruct (is_nan x) eqn:E; [reflexivity|exact E].
Qed.

Lemma value_cell_not_missing (pd : Pandas) (s : Series) (i : nat) :
  csv_dtype s = true ->
  i < series_length s ->
  is_missing (cell_at (value_series pd s) i) = false.
Proof.
  intros Hd Hi. destruct s as [xs|xs|xs|xs|xs|xs]; try discriminate Hd;
    cbn [series_length] in Hi.
  - rewrite value_cell_text by exact Hi.
    destruct (all_ints pd xs); [reflexivity|]. apply fill_nan_not_nan.
  - reflexivity.
  - unfold value_series. cbn [to_numeric_coerce rbind fillna_float or_else cell_at].
    rewrite (nth_map_lt _ xs i nan nan Hi). apply fill_nan_not_nan.
  - reflexivity.
Qed.



(** The scenario rows of the specification: 150 is a high value, abc is
    coerced to 0.0 and is not. *)
Example scenario_values :
  exists out st',
    transform_frame Sample.pd Sample.w Sample.scenario Sample.empty_warehouse
    = (Ok out, st', [])
    /\ map (fun r => (field "value" r, field "is_high_value" r)) (rows out)
       = [(CFloat 150, CBool true); (CFloat 0, CBool false)].
Proof. eexists. eexists. split; reflexivity. Qed.



(** ** The country rule *)

Definition country_codes : list string := ["MY"; "SG"; "TH"; "ID"; "OT"].

(** The lookup table in the words of the specification. *)
Definition spec_lookup (upper_cased : string) : string :=
  if String.eqb upper_cased "MALAYSIA" then "MY"
  else if String.eqb upper_cased "SINGAPORE" then "SG"
  else if String.eqb upper_cased "THAILAND" then "TH"
  else if String.eqb upper_cased "INDONESIA" then "ID"
  else "OT".

(** The country rule in the words of the specification: upper-case, look up
    in the table, and the sentinel for anything else. *)
Definition spec_country_code (raw : string) : string :=
  spec_lookup (PyStr.unicode_upper raw).

Lemma country_rule_spec (raw : string) :
  country_rule (Some raw) = Some (spec_country_code raw).
Proof.
  unfold country_rule, spec_country_code, spec_lookup, lookup_text, country_mapping.
  cbn [option_map str_of_text assoc].
  repeat match goal with
         | |- context [String.eqb ?a ?b] => destruct (String.eqb a b)
         end; reflexivity.
Qed.

Lemma spec_country_code_in (raw : string) : In (spec_country_code raw) country_codes.
Proof.
  unfold spec_country_code, spec_lookup, country_codes.
  repeat match goal with
         | |- context [String.eqb ?a ?b] => destruct (String.eqb a b)
         end; simpl; tauto.
Qed.

(** A code is given back unchanged only if the raw text is the sentinel. *)
Lemma spec_country_code_fixpoint (s : string) :
  spec_country_code s = s -> s = "OT".
Proof.
  intros H. pose proof (spec_country_code_in s) as Hin.
  rewrite H in Hin. unfold country_codes in Hin. simpl in Hin.
  destruct Hin as [<-|[<-|[<-|[<-|[<-|[]]]]]]; try reflexivity; discriminate H.
Qed.

Lemma missing_cell_text (pd : Pandas) (c : cell) :
  is_missing c = true -> spec_country_code (cell_text pd c) = "OT".
Proof.
  destruct c as [[s|]|z|x|b|[t|]|[t|]]; cbn [is_missing cell_text str_of_text];
    try discriminate; try reflexivity.
  intros H. unfold float_text. now rewrite H.
Qed.

(** What holds of [country_code] in the output row [r] made from a row
    whose country cell is [raw]. *)
Definition country_code_row (pd : Pandas) (raw : cell) (r : row) : Prop :=
  exists code,
    field "country_code" r = CObj (Some code)
    /\ code = spec_country_code (cell_text pd raw)
    /\ In code country_codes
    /\ code <> EmptyString
    /\ (is_missing raw = true -> code = "OT")
    /\ (cell_text pd raw = code -> code = "OT").

(** C2, amended: the country code of every row is the table's code for the
    upper-cased text of the raw country and OT for anything else, a missing
    country included; it is one of MY, SG, TH, ID, OT, never empty, and it
    is the raw input string only when that string is OT. *)
Theorem country_code_in_table_or_sentinel (pd : Pandas) (w : World) (df : DataFrame)
    (st : State) :
  transformable pd df = true ->
  exists out st',
    transform_frame pd w df st = (Ok out, st', [])
    /\ nrows out = nrows df
    /\ forall i, i < nrows df ->
         country_code_row pd (field "country" (row_at df i)) (row_at out i).
Proof.
  intros H. destruct (transform_frame_rows pd w df st H) as (out & Hrun & _ & Hn & Hrows).
  exists out. eexists. split; [exact Hrun|]. split; [exact Hn|].
  intros i Hi. rewrite (Hrows i Hi).
  set (raw := field "country" (row_at df i)).
  exists (spec_country_code (cell_text pd raw)).
  split; [|split; [reflexivity|split; [apply spec_country_code_in|split; [|split]]]].
  - unfold target_row, field. cbn [assoc String.eqb Ascii.eqb Bool.eqb].
    fold (field "country" (row_at df i)). fold raw. now rewrite country_rule_spec.
  - pose proof (spec_country_code_in (cell_text pd raw)) as Hin.
    intros E. rewrite E in Hin. simpl in Hin.
    repeat (destruct Hin as [Hin|Hin]; [discriminate Hin|]). exact Hin.
  - apply missing_cell_text.
  - intros E. symmetry in E. rewrite E. now apply spec_country_code_fixpoint.
Qed.

Lemma country_code_in_table_or_sentinel_witness :
  transformable Sample.pd Sample.scenario = true
  /\ exists out st',
       transform_frame Sample.pd Sample.w Sample.scenario Sample.empty_warehouse
       = (Ok out, st', [])
       /\ nrows out = nrows Sample.scenario
       /\ forall i, i < nrows Sample.scenario ->
            country_code_row Sample.pd (field "country" (row_at Sample.scenario i))
              (row_at out i).
Proof.
  split; [reflexivity|].
  apply (country_code_in_table_or_sentinel Sample.pd Sample.w Sample.scenario
           Sample.empty_warehouse).
  reflexivity.
Defined.

(** Two rows, the second of which names the country OT. *)
Definition sentinel_country : DataFrame :=
  mk_frame 2
    [("user_id", ObjectS [Some "u3"; Some "u4"]);
     ("event_timestamp", ObjectS [Some "2024-01-01T00:00:00Z"; Some "2024-01-02T00:00:00Z"]);
     ("country", ObjectS [Some "Singapore"; Some "OT"]);
     ("value", Int64S [5; 6]%Z)].

(** C2 as stated fails: the raw country OT comes out as the country code OT,
    the raw input string. *)
Lemma country_code_equals_raw_input :
  exists out st',
    transform_frame Sample.pd Sample.w sentinel_country Sample.empty_warehouse
    = (Ok out, st', [])
    /\ map (field "country") (rows sentinel_country)
       = [CObj (Some "Singapore"); CObj (Some "OT")]
    /\ map (field "country_code") (rows out)
       = [CObj (Some "SG"); CObj (Some "OT")].
Proof.
  eexists. eexists. split; [reflexivity|]. split; reflexivity.
Qed.

(** ** The timestamp rule *)






(** The scenario rows: not-a-date is replaced with the reading 10 of the
    clock, the other timestamp is the first instant of 2024. *)
Example scenario_timestamps :
  exists out st',
    transform_frame Sample.pd Sample.w Sample.scenario Sample.empty_warehouse
    = (Ok out, st', [])
    /\ map (field "event_timestamp") (rows out)
       = [CTimestampUTC (Some 10%Z); CTimestampUTC (Some 1704067200000000%Z)].
Proof. eexists. eexists. split; reflexivity. Qed.



(** ** The processing timestamp *)

(** C5, amended: every row of one invocation receives the same
    [processing_datetime], a naive timestamp read from the wall clock once.
    It is the second reading of the transformation, not the reading at its
    start, which fills the missing event timestamps: the second reading is
    taken only when every statement of lines 97 to 123 has succeeded, and
    before the projection. *)
Theorem processing_datetime_same_for_all_rows (pd : Pandas) (w : World) (df : DataFrame)
    (st : State) :
  transformable pd df = true ->
  (exists out st',
     transform_frame pd w df st = (Ok out, st', [])
     /\ clock_reads st' = 2 + clock_reads st
     /\ nrows out = nrows df
     /\ forall i, i < nrows df ->
          field "processing_datetime" (row_at out i)
          = CDatetime (Some (clock w (S (clock_reads st)))))
  /\ (forall df',
        clock_reads (snd (fst (transform_frame pd w df' st)))
        = (if is_ok (parse_timestamps pd df')
           then if is_ok (rules pd (clock w (clock_reads st)) df') then 2 else 1
           else 0) + clock_reads st).
Proof.
  intros H. split.
  - destruct (transform_frame_rows pd w df st H) as (out & Hrun & _ & Hn & Hrows).
    exists out. eexists. split; [exact Hrun|]. split; [reflexivity|]. split; [exact Hn|].
    intros i Hi. rewrite (Hrows i Hi). reflexivity.
  - intros df'. rewrite transform_frame_run. reflexivity.
Qed.

Lemma processing_datetime_same_for_all_rows_witness :
  transformable Sample.pd Sample.scenario = true
  /\ (exists out st',
        transform_frame Sample.pd Sample.w Sample.scenario Sample.empty_warehouse
        = (Ok out, st', [])
        /\ clock_reads st' = 2 + clock_reads Sample.empty_warehouse
        /\ nrows out = nrows Sample.scenario
        /\ forall i, i < nrows Sample.scenario ->
             field "processing_datetime" (row_at out i)
             = CDatetime (Some (clock Sample.w (S (clock_reads Sample.empty_warehouse)))))
  /\ (forall df',
        clock_reads (snd (fst (transform_frame Sample.pd Sample.w df' Sample.empty_warehouse)))
        = (if is_ok (parse_timestamps Sample.pd df')
           then if is_ok (rules Sample.pd
                            (clock Sample.w (clock_reads Sample.empty_warehouse)) df')
                then 2 else 1
           else 0) + clock_reads Sample.empty_warehouse).
Proof.
  split; [reflexivity|].
  apply (processing_datetime_same_for_all_rows Sample.pd Sample.w Sample.scenario
           Sample.empty_warehouse).
  reflexivity.
Defined.

(** C5 as stated fails: with a clock that reads 10 when the transformation
    starts and 15 at its next reading, the rows carry 15, not the reading at
    the start, which went to the timestamp fill. *)
Lemma processing_datetime_not_read_at_start :
  exists out st',
    transform_frame Sample.pd Sample.w Sample.scenario Sample.empty_warehouse
    = (Ok out, st', [])
    /\ clock Sample.w (clock_reads Sample.empty_warehouse) = 10%Z
    /\ map (field "processing_datetime") (rows out)
       = [CDatetime (Some 15%Z); CDatetime (Some 15%Z)]
    /\ ~ Forall (fun r => field "processing_datetime" r
                          = CDatetime (Some (clock Sample.w
                                               (clock_reads Sample.empty_warehouse))))
                (rows out).
Proof.
  eexists. eexists. split; [reflexivity|].
  split; [reflexivity|]. split; [reflexivity|].
  intros HF. inversion HF as [|r l Hr Hl E]. discriminate Hr.
Qed.

(** A frame without a value column: the transformation stops at line 122,
    after the first reading of the clock and before the second. *)
Example one_reading_when_a_rule_fails :
  let df := mk_frame 1 [("user_id", ObjectS [Some "u1"]);
                        ("event_timestamp", ObjectS [Some "not-a-date"]);
                        ("country", ObjectS [Some "malaysia"])] in
  exists e st',
    transform_frame Sample.pd Sample.w df Sample.empty_warehouse = (Raise e, st', [])
    /\ exn_cls e = KeyError /\ exn_msg e = "'value'"
    /\ clock_reads st' = 1.
Proof. eexists. eexists. split; [reflexivity|]. repeat split. Qed.

(** ** The shape of the target table *)

(** What holds of the output row [r] made from the row [raw]: the six
    columns in order, [user_id] as it came, and a value in each of the
    other five. *)
Definition target_shape_row (raw r : row) : Prop :=
  map fst r = ["user_id"; "event_timestamp"; "country_code"; "value"; "is_high_value";
               "processing_datetime"]
  /\ field "user_id" r = field "user_id" raw
  /\ (forall name c, In (name, c) r -> name <> "user_id" -> is_missing c = false).

(** C6, amended: every row of the target table has exactly the six columns
    user_id, event_timestamp, country_code, value, is_high_value,
    processing_datetime, in that order, every other input column being
    dropped; the five columns after user_id hold no missing value, and
    user_id is passed through as [read_csv] read it, missing when it was
    missing. *)
Theorem target_rows_have_six_columns (pd : Pandas) (w : World) (df : DataFrame)
    (st : State) :
  transformable pd df = true ->
  exists out st',
    transform_frame pd w df st = (Ok out, st', [])
    /\ map fst (columns out)
       = ["user_id"; "event_timestamp"; "country_code"; "value"; "is_high_value";
          "processing_datetime"]
    /\ nrows out = nrows df
    /\ forall i, i < nrows df -> target_shape_row (row_at df i) (row_at out i).
Proof.
  intros H.
  destruct (transform_frame_rows pd w df st H) as (out & Hrun & Hout & Hn & Hrows).
  exists out. eexists. split; [exact Hrun|].
  split; [rewrite Hout; reflexivity|]. split; [exact Hn|].
  intros i Hi. rewrite (Hrows i Hi).
  destruct (transformable_parts pd df H) as (Hcsv & Ha & _ & _).
  destruct (accepted_columns df Ha) as (_ & _ & Hv & _).
  destruct (raw_cell df "value" i Hcsv Hv Hi) as (_ & Hd & Hl).
  split; [reflexivity|]. split; [reflexivity|].
  intros name c Hin Hname. unfold target_row in Hin. simpl in Hin.
  destruct Hin as [E|[E|[E|[E|[E|[E|[]]]]]]]; injection E as <- <-.
  - now elim Hname.
  - now destruct (read_instant pd _ i).
  - now rewrite country_rule_spec.
  - now apply value_cell_not_missing.
  - reflexivity.
  - reflexivity.
Qed.

Lemma target_rows_have_six_columns_witness :
  transformable Sample.pd Sample.scenario = true
  /\ exists out st',
       transform_frame Sample.pd Sample.w Sample.scenario Sample.empty_warehouse
       = (Ok out, st', [])
       /\ map fst (columns out)
       = ["user_id"; "event_timestamp"; "country_code"; "value"; "is_high_value";
          "processing_datetime"]
       /\ nrows out = nrows Sample.scenario
       /\ forall i, i < nrows Sample.scenario ->
            target_shape_row (row_at Sample.scenario i) (row_at out i).
Proof.
  split; [reflexivity|].
  apply (target_rows_have_six_columns Sample.pd Sample.w Sample.scenario
           Sample.empty_warehouse).
  reflexivity.
Defined.

(** Two rows with a fifth column; the second row has no user id. *)
Definition anonymous_row : DataFrame :=
  mk_frame 2
    [("user_id", ObjectS [Some "u5"; None]);
     ("event_timestamp", ObjectS [Some "2024-01-01T00:00:00Z"; Some "2024-01-02T00:00:00Z"]);
     ("country", ObjectS [Some "Thailand"; Some "Indonesia"]);
     ("value", Int64S [7; 8]%Z);
     ("note", ObjectS [Some "x"; Some "y"])].

(** C6 as stated fails: a row that comes without a user id leaves without
    one, so the target table has a missing value. *)
Lemma target_row_with_missing_user_id :
  exists out st',
    transform_frame Sample.pd Sample.w anonymous_row Sample.empty_warehouse
    = (Ok out, st', [])
    /\ map (field "user_id") (rows out) = [CObj (Some "u5"); CObj None]
    /\ Exists (fun r => exists name c, In (name, c) r /\ is_missing c = true) (rows out).
Proof.
  eexists. eexists. split; [reflexivity|].
  split; [reflexivity|].
  apply Exists_cons_tl, Exists_cons_hd. exists "user_id", (CObj None).
  split; [|reflexivity]. left. reflexivity.
Qed.

(** ** Determinism *)

(** C7: the transformation is a function of the table and of the two clock
    readings it takes: two runs on the same frame whose clocks read the same
    return the same frame, or raise the same exception. *)
Theorem transform_deterministic (pd : Pandas) (w w' : World) (st st' : State)
    (df : DataFrame) :
  clock w (clock_reads st) = clock w' (clock_reads st') ->
  clock w (S (clock_reads st)) = clock w' (S (clock_reads st')) ->
  fst (fst (transform_frame pd w df st)) = fst (fst (transform_frame pd w' df st')).
Proof.
  intros H1 H2. rewrite !transform_frame_run. cbn [fst]. now rewrite H1, H2.
Qed.

(** A second world whose store is empty and whose warehouse rejects every
    load, with the same clock. *)
Definition other_world : World :=
  mk_world (Sample.ticking 10 5)
    (fun _ _ => Ok false)
    (fun _ _ => Raise (mk_exn OtherException "404 No such object" []))
    (fun _ _ => Raise (mk_exn OtherException "403 Quota exceeded" []))
    (fun _ _ => Some (mk_exn OtherException "400 Schema mismatch"
                        [[("reason", "invalid"); ("message", "no such field")]]))
    (fun _ => None)
    7.

Lemma transform_deterministic_witness :
  clock Sample.w (clock_reads Sample.empty_warehouse)
  = clock other_world (clock_reads Sample.empty_warehouse)
  /\ clock Sample.w (S (clock_reads Sample.empty_warehouse))
     = clock other_world (S (clock_reads Sample.empty_warehouse))
  /\ fst (fst (transform_frame Sample.pd Sample.w Sample.scenario Sample.empty_warehouse))
     = fst (fst (transform_frame Sample.pd other_world Sample.scenario
                   Sample.empty_warehouse)).
Proof.
  split; [reflexivity|]. split; [reflexivity|].
  apply (transform_deterministic Sample.pd Sample.w other_world
           Sample.empty_warehouse Sample.empty_warehouse Sample.scenario);
    reflexivity.
Defined.

(** ** Rows are transformed in place *)

(** C10, amended: on a frame on which the transformation succeeds (the four
    columns are there and the frame has a row) the result has one row for
    each input row, in the same order: row [i] is [target_row] at [i], made
    from row [i] of the input, from what [to_datetime] reads at position [i]
    of the timestamp column, from the coerced value column at [i], and from
    the two clock readings.  Nothing else of the other rows is looked at;
    the timestamp and the value of a row may depend on the other cells of
    their columns, through the format and the type that pandas infers for
    the column. *)
Theorem transform_preserves_rows (pd : Pandas) (w : World) (df : DataFrame) (st : State) :
  transformable pd df = true ->
  exists out st',
    transform_frame pd w df st = (Ok out, st', [])
    /\ nrows out = nrows df
    /\ List.length (rows out) = List.length (rows df)
    /\ rows out = map (target_row pd (clock w (clock_reads st)) (clock w (S (clock_reads st))) df)
                      (seq 0 (nrows df))
    /\ (forall i, i < nrows df ->
          field "user_id" (nth i (rows out) []) = field "user_id" (nth i (rows df) []))
    /\ forall df' i,
         row_at df' i = row_at df i ->
         column "event_timestamp" df' = column "event_timestamp" df ->
         column "value" df' = column "value" df ->
         target_row pd (clock w (clock_reads st)) (clock w (S (clock_reads st))) df' i
         = target_row pd (clock w (clock_reads st)) (clock w (S (clock_reads st))) df i.
Proof.
  intros H.
  destruct (transform_frame_rows pd w df st H) as (out & Hrun & Hout & Hn & Hrows).
  exists out. eexists. split; [exact Hrun|]. split; [exact Hn|].
  split; [unfold rows; now rewrite !length_map, !length_seq|].
  split; [rewrite Hout; now apply rows_target_frame|].
  split.
  - intros i Hi. unfold rows. rewrite !nth_map_seq by lia.
    rewrite (Hrows i Hi). reflexivity.
  - intros df' i Hr Hts Hv. unfold target_row. now rewrite Hr, Hts, Hv.
Qed.

Lemma transform_preserves_rows_witness :
  transformable Sample.pd Sample.scenario = true
  /\ exists out st',
       transform_frame Sample.pd Sample.w Sample.scenario Sample.empty_warehouse
       = (Ok out, st', [])
       /\ nrows out = nrows Sample.scenario
       /\ List.length (rows out) = List.length (rows Sample.scenario)
       /\ rows out
          = map (target_row Sample.pd (clock Sample.w (clock_reads Sample.empty_warehouse))
                   (clock Sample.w (S (clock_reads Sample.empty_warehouse))) Sample.scenario)
                (seq 0 (nrows Sample.scenario))
       /\ (forall i, i < nrows Sample.scenario ->
             field "user_id" (nth i (rows out) [])
             = field "user_id" (nth i (rows Sample.scenario) []))
       /\ forall df' i,
            row_at df' i = row_at Sample.scenario i ->
            column "event_timestamp" df' = column "event_timestamp" Sample.scenario ->
            column "value" df' = column "value" Sample.scenario ->
            target_row Sample.pd (clock Sample.w (clock_reads Sample.empty_warehouse))
              (clock Sample.w (S (clock_reads Sample.empty_warehouse))) df' i
            = target_row Sample.pd (clock Sample.w (clock_reads Sample.empty_warehouse))
                (clock Sample.w (S (clock_reads Sample.empty_warehouse))) Sample.scenario i.
Proof.
  split; [reflexivity|].
  apply (transform_preserves_rows Sample.pd Sample.w Sample.scenario Sample.empty_warehouse).
  reflexivity.
Defined.

(** Two frames with the same second row; the first rows write their dates
    in two formats. *)
Definition iso_first : DataFrame :=
  mk_frame 2
    [("user_id", ObjectS [Some "u6"; Some "u7"]);
     ("event_timestamp", ObjectS [Some "2024-01-01T00:00:00Z"; Some "01/02/2024"]);
     ("country", ObjectS [Some "Malaysia"; Some "Thailand"]);
     ("value", Int64S [1; 2]%Z)].

Definition us_first : DataFrame :=
  mk_frame 2
    [("user_id", ObjectS [Some "u6"; Some "u7"]);
     ("event_timestamp", ObjectS [Some "03/04/2024"; Some "01/02/2024"]);
     ("country", ObjectS [Some "Malaysia"; Some "Thailand"]);
     ("value", Int64S [1; 2]%Z)].

(** C10 as stated fails where [to_datetime] infers one format for the
    column from its first text, as pandas 2 does: the same second row
    keeps its date after a first row in the same format and loses it, for
    the clock reading, after a first row in another format. *)
Lemma output_row_depends_on_first_row :
  row_at iso_first 1 = row_at us_first 1
  /\ exists out out' st1 st2,
       transform_frame Sample.pd Sample.w iso_first Sample.empty_warehouse
       = (Ok out, st1, [])
       /\ transform_frame Sample.pd Sample.w us_first Sample.empty_warehouse
          = (Ok out', st2, [])
       /\ field "event_timestamp" (row_at out 1) = CTimestampUTC (Some 10%Z)
       /\ field "event_timestamp" (row_at out' 1)
          = CTimestampUTC (Some 1704153600000000%Z)
       /\ row_at out 1 <> row_at out' 1.
Proof.
  split; [reflexivity|].
  eexists. eexists. eexists. eexists.
  split; [reflexivity|]. split; [reflexivity|].
  split; [reflexivity|]. split; [reflexivity|].
  discriminate.
Qed.

(** ** The extension filter and the validation of the event *)

(** An object whose name does not end in .csv is skipped: three lines are
    printed and nothing else happens. *)
Lemma process_skips (pd : Pandas) (w : World) (ev : CloudEvent) (st : State) :
  is_csv (ce_name ev) = false ->
  process_gcs_csv_to_bq pd w ev st =
  (Ok tt, st,
   [Print ("Function triggered for file: gs://" ++ ce_bucket ev ++ "/" ++ ce_name ev);
    Print ("Event ID: " ++ ce_id ev ++ ", Event Type: " ++ ce_type ev);
    Print ("Skipping file " ++ ce_name ev ++ " as it is not a CSV.")]).
Proof.
  intros H. unfold process_gcs_csv_to_bq. rewrite H. reflexivity.
Qed.

(** C8: for an event whose object key does not end in .csv, compared without
    regard to case, the invocation returns normally; the state is unchanged
    (no clock reading, no warehouse write) and the only events are the three
    printed lines: no fetch, no transformation, no load, no exception. *)
Theorem non_csv_is_noop (pd : Pandas) (w : World) (ev : CloudEvent) (st : State) :
  PyStr.endswith (PyStr.lower (ce_name ev)) ".csv" = false ->
  process_gcs_csv_to_bq pd w ev st =
  (Ok tt, st,
   [Print ("Function triggered for file: gs://" ++ ce_bucket ev ++ "/" ++ ce_name ev);
    Print ("Event ID: " ++ ce_id ev ++ ", Event Type: " ++ ce_type ev);
    Print ("Skipping file " ++ ce_name ev ++ " as it is not a CSV.")]).
Proof.
  intros H. now apply process_skips.
Qed.

Lemma non_csv_is_noop_witness :
  PyStr.endswith (PyStr.lower (ce_name (Sample.finalized "uploads" "report.CSV.bak"))) ".csv"
  = false
  /\ process_gcs_csv_to_bq Sample.pd Sample.w (Sample.finalized "uploads" "report.CSV.bak")
       Sample.empty_warehouse
     = (Ok tt, Sample.empty_warehouse,
        [Print "Function triggered for file: gs://uploads/report.CSV.bak";
         Print "Event ID: evt-1, Event Type: google.cloud.storage.object.v1.finalized";
         Print "Skipping file report.CSV.bak as it is not a CSV."]).
Proof.
  split; [reflexivity|].
  apply (non_csv_is_noop Sample.pd Sample.w (Sample.finalized "uploads" "report.CSV.bak")
           Sample.empty_warehouse).
  reflexivity.
Defined.

Example upper_case_extension_is_csv : is_csv "EVENTS.CSV" = true.
Proof. reflexivity. Qed.

Example empty_name_is_not_csv : is_csv EmptyString = false.
Proof. reflexivity. Qed.

(** C3, amended: for an event whose container name is empty, the invocation
    fails with the validation error (a ValueError) before any fetch when the
    object key ends in .csv; when it does not, the extension filter, which
    runs first, ends the invocation normally. *)
Theorem empty_bucket_checked_after_extension_filter (pd : Pandas) (w : World)
    (ev : CloudEvent) (st : State) :
  ce_bucket ev = EmptyString ->
  (is_csv (ce_name ev) = true ->
   process_gcs_csv_to_bq pd w ev st =
   (Raise (mk_exn ValueError "Bucket name or file name is empty." []), st,
    [Print ("Function triggered for file: gs:///" ++ ce_name ev);
     Print ("Event ID: " ++ ce_id ev ++ ", Event Type: " ++ ce_type ev);
     Print ("Attempting to access bucket: '' and file: '" ++ ce_name ev ++ "'");
     Print ("Error: Invalid bucket_name ('') or file_name ('" ++ ce_name ev ++ "') received.");
     Print "ValueError during GCS operation: Bucket name or file name is empty."]))
  /\ (is_csv (ce_name ev) = false ->
      exists evs, process_gcs_csv_to_bq pd w ev st = (Ok tt, st, evs)).
Proof.
  intros Hb. split; intros Hcsv.
  - unfold process_gcs_csv_to_bq. rewrite Hcsv, Hb. reflexivity.
  - eexists. now apply process_skips.
Qed.

Lemma empty_bucket_checked_after_extension_filter_witness :
  ce_bucket (Sample.finalized EmptyString "events.csv") = EmptyString
  /\ is_csv (ce_name (Sample.finalized EmptyString "events.csv")) = true
  /\ process_gcs_csv_to_bq Sample.pd Sample.w (Sample.finalized EmptyString "events.csv")
       Sample.empty_warehouse
     = (Raise (mk_exn ValueError "Bucket name or file name is empty." []),
        Sample.empty_warehouse,
        [Print "Function triggered for file: gs:///events.csv";
         Print "Event ID: evt-1, Event Type: google.cloud.storage.object.v1.finalized";
         Print "Attempting to access bucket: '' and file: 'events.csv'";
         Print "Error: Invalid bucket_name ('') or file_name ('events.csv') received.";
         Print "ValueError during GCS operation: Bucket name or file name is empty."]).
Proof.
  split; [reflexivity|]. split; [reflexivity|].
  apply (proj1 (empty_bucket_checked_after_extension_filter Sample.pd Sample.w
                  (Sample.finalized EmptyString "events.csv") Sample.empty_warehouse
                  eq_refl)).
  reflexivity.
Defined.

(** C3 as stated fails: an event with an empty container name and the key
    notes.txt ends normally, with no exception. *)
Lemma empty_bucket_not_reported :
  ce_bucket (Sample.finalized EmptyString "notes.txt") = EmptyString
  /\ process_gcs_csv_to_bq Sample.pd Sample.w (Sample.finalized EmptyString "notes.txt")
       Sample.empty_warehouse
     = (Ok tt, Sample.empty_warehouse,
        [Print "Function triggered for file: gs:///notes.txt";
         Print "Event ID: evt-1, Event Type: google.cloud.storage.object.v1.finalized";
         Print "Skipping file notes.txt as it is not a CSV."]).
Proof.
  split; reflexivity.
Qed.

(** ** The load *)

Definition is_submit (e : event) : bool :=
  match e with
  | LoadSubmit _ _ _ => true
  | _ => false
  end.

(** A computation that leaves the warehouse as it is and submits no load. *)
Definition quiet {A} (m : M A) : Prop :=
  forall st r st' evs,
    m st = (r, st', evs) ->
    warehouse st' = warehouse st /\ existsb is_submit evs = false.

Lemma quiet_ret {A} (a : A) : quiet (ret a).
Proof. intros st r st' evs E. injection E as <- <- <-. auto. Qed.

Lemma quiet_raise {A} (e : exn) : quiet (@raise A e).
Proof. intros st r st' evs E. injection E as <- <- <-. auto. Qed.

Lemma quiet_lift {A} (x : result A) : quiet (lift x).
Proof. intros st r st' evs E. injection E as <- <- <-. auto. Qed.

Lemma quiet_emit (e : event) : is_submit e = false -> quiet (emit e).
Proof.
  intros He st r st' evs E. injection E as <- <- <-. simpl. now rewrite He.
Qed.

Lemma quiet_print (line : string) : quiet (print line).
Proof. now apply quiet_emit. Qed.

Lemma quiet_bind {A B} (m : M A) (k : A -> M B) :
  quiet m -> (forall a, quiet (k a)) -> quiet (bind m k).
Proof.
  intros Hm Hk st r st' evs. unfold bind.
  destruct (m st) as [[r1 st1] ev1] eqn:E1. destruct (Hm _ _ _ _ E1) as [W1 S1].
  destruct r1 as [a|e].
  - destruct (k a st1) as [[r2 st2] ev2] eqn:E2. destruct (Hk _ _ _ _ _ E2) as [W2 S2].
    intros E. injection E as <- <- <-. rewrite existsb_app, S1, S2.
    split; [congruence|reflexivity].
  - intros E. injection E as <- <- <-. auto.
Qed.

Lemma quiet_try_reraise {A} (m : M A) (h : exn -> M unit) :
  quiet m -> (forall e, quiet (h e)) -> quiet (try_reraise m h).
Proof.
  intros Hm Hh st r st' evs. unfold try_reraise.
  destruct (m st) as [[r1 st1] ev1] eqn:E1. destruct (Hm _ _ _ _ E1) as [W1 S1].
  destruct r1 as [a|e].
  - intros E. injection E as <- <- <-. auto.
  - destruct (h e st1) as [[r2 st2] ev2] eqn:E2. destruct (Hh _ _ _ _ _ E2) as [W2 S2].
    destruct r2; intros E; injection E as <- <- <-; rewrite existsb_app, S1, S2;
      (split; [congruence|reflexivity]).
Qed.

Lemma quiet_print_details (errors : list (list (string * string))) :
  quiet (print_details errors).
Proof.
  induction errors as [|d r IH]; cbn [print_details].
  - apply quiet_ret.
  - destruct (assoc "message" d); [|apply quiet_raise].
    apply quiet_bind; [apply quiet_print|intros _; exact IH].
Qed.

Lemma quiet_download (w : World) (bucket_name file_name : string) :
  quiet (download w bucket_name file_name).
Proof.
  unfold download.
  repeat first
    [ apply quiet_bind; [|intros ?]
    | apply quiet_print | apply quiet_raise | apply quiet_ret | apply quiet_lift
    | apply quiet_emit; reflexivity
    | match goal with |- quiet (if ?c then _ else _) => destruct c end ].
Qed.

Lemma quiet_download_failed (bucket_name file_name : string) (e : exn) :
  quiet (download_failed bucket_name file_name e).
Proof.
  unfold download_failed.
  destruct (exn_cls e);
    repeat first
      [ apply quiet_bind; [|intros ?]
      | apply quiet_print | apply quiet_emit; reflexivity ].
Qed.

Lemma quiet_transform_frame (pd : Pandas) (w : World) (df : DataFrame) :
  quiet (transform_frame pd w df).
Proof.
  intros st r st' evs E.
  rewrite transform_frame_run in E. injection E as <- <- <-. auto.
Qed.

Lemma quiet_transform (pd : Pandas) (w : World) (csv_data_string : string) :
  quiet (transform pd w csv_data_string).
Proof.
  unfold transform.
  repeat first
    [ apply quiet_transform_frame
    | apply quiet_bind; [|intros ?]
    | apply quiet_ret | apply quiet_lift
    | apply quiet_emit; reflexivity
    | progress cbv zeta ].
Qed.

Lemma quiet_transform_failed (e : exn) : quiet (transform_failed e).
Proof.
  unfold transform_failed.
  repeat first
    [ apply quiet_bind; [|intros ?]
    | apply quiet_print | apply quiet_raise ].
Qed.

Lemma quiet_load_failed (e : exn) : quiet (load_failed e).
Proof.
  unfold load_failed. apply quiet_bind; [apply quiet_print|intros _; apply quiet_print_details].
Qed.

Lemma warehouse_set_table (id : string) (rs : list row) (st : State) (id' : string) :
  warehouse (set_table id rs st) id' = if String.eqb id' id then rs else warehouse st id'.
Proof. reflexivity. Qed.

(** Rows are only ever added at the end of a table. *)
Definition extends (old new : string -> list row) : Prop :=
  forall id, exists added, new id = (old id ++ added)%list.

Lemma extends_refl (wh : string -> list row) : extends wh wh.
Proof. intros id. exists []. now rewrite app_nil_r. Qed.

Lemma extends_eq (old new : string -> list row) : new = old -> extends old new.
Proof. intros ->. apply extends_refl. Qed.

Lemma extends_append (st : State) (id : string) (rs : list row) :
  extends (warehouse st) (warehouse (set_table id (warehouse st id ++ rs)%list st)).
Proof.
  intros id'. rewrite warehouse_set_table.
  destruct (String.eqb id' id) eqn:E.
  - apply String.eqb_eq in E. subst id'. now exists rs.
  - exists []. now rewrite app_nil_r.
Qed.

(** What one run of [load] does: it prints, submits one load job with the
    append disposition, and then waits for it; it returns normally only after
    the wait, with the rows of the frame added after the old rows. *)
Lemma load_run (w : World) (df : DataFrame) (st : State) :
  exists r st' line tail,
    load w df st = (r, st', Print line :: LoadSubmit table_id_full (mk_config WRITE_APPEND) df :: tail)
    /\ existsb is_submit tail = false
    /\ extends (warehouse st) (warehouse st')
    /\ (r = Ok tt ->
        exists job tail',
          tail = JobWait job :: tail'
          /\ warehouse st' table_id_full = (warehouse st table_id_full ++ rows df)%list).
Proof.
  unfold load, load_table_from_dataframe, job_result, get_table_num_rows,
    bind, print, emit, lift, raise, ret.
  cbn [write_disposition write_rows].
  destruct (load_job_created w table_id_full df) as [id|e].
  2:{ do 4 eexists. split; [reflexivity|]. split; [reflexivity|].
      split; [apply extends_refl|discriminate]. }
  destruct (load_job_outcome w table_id_full df) as [e|]; cbn [job_id job_error output_rows].
  { do 4 eexists. split; [reflexivity|]. split; [reflexivity|].
    split; [apply extends_refl|discriminate]. }
  destruct (get_table_error w table_id_full) as [e|].
  { do 4 eexists. split; [reflexivity|]. split; [reflexivity|].
    split; [apply extends_append|discriminate]. }
  do 4 eexists. split; [reflexivity|]. split; [reflexivity|].
  split; [apply extends_append|]. intros _. do 2 eexists. split; [reflexivity|].
  rewrite warehouse_set_table. now rewrite String.eqb_refl.
Qed.

Lemma try_load_run (w : World) (df : DataFrame) (st : State) :
  exists r st' line tail,
    try_reraise (load w df) load_failed st =
    (r, st', Print line :: LoadSubmit table_id_full (mk_config WRITE_APPEND) df :: tail)
    /\ existsb is_submit tail = false
    /\ extends (warehouse st) (warehouse st')
    /\ (r = Ok tt ->
        exists job tail',
          tail = JobWait job :: tail'
          /\ warehouse st' table_id_full = (warehouse st table_id_full ++ rows df)%list).
Proof.
  destruct (load_run w df st) as (r & st1 & line & tail & Hrun & Htail & Hext & Hok).
  unfold try_reraise. rewrite Hrun. destruct r as [[]|e].
  - exists (Ok tt), st1, line, tail. auto.
  - destruct (load_failed e st1) as [[r2 st2] ev2] eqn:E2.
    destruct (quiet_load_failed e _ _ _ _ E2) as [W2 S2].
    assert (Hext2 : extends (warehouse st) (warehouse st2)) by now rewrite W2.
    destruct r2 as [[]|e'].
    + exists (Raise e), st2, line, (tail ++ ev2)%list.
      split; [reflexivity|]. rewrite existsb_app, Htail, S2.
      split; [reflexivity|]. split; [exact Hext2|discriminate].
    + exists (Raise e'), st2, line, (tail ++ ev2)%list.
      split; [reflexivity|]. rewrite existsb_app, Htail, S2.
      split; [reflexivity|]. split; [exact Hext2|discriminate].
Qed.

Lemma no_submit_in (evs : list event) (id : string) (cfg : LoadJobConfig) (df : DataFrame) :
  existsb is_submit evs = false -> ~ In (LoadSubmit id cfg df) evs.
Proof.
  intros H Hin. assert (existsb is_submit evs = true); [|congruence].
  apply existsb_exists. exists (LoadSubmit id cfg df). auto.
Qed.

(** What one invocation does to the warehouse: rows are only added after the
    rows that were there; every load it submits goes to the target table with
    the append disposition; and when it returns normally for a CSV object, a
    load was submitted, the wait for the job came next, and the rows of the
    submitted frame stand after the old rows of the target table. *)
Definition append_only (ev : CloudEvent) (st : State)
    (out : result unit * State * list event) : Prop :=
  let '(r, st', evs) := out in
  (forall id, exists added, warehouse st' id = (warehouse st id ++ added)%list)
  /\ (forall id cfg df, In (LoadSubmit id cfg df) evs ->
        id = table_id_full /\ write_disposition cfg = WRITE_APPEND)
  /\ (r = Ok tt -> is_csv (ce_name ev) = true ->
      exists df job pre post,
        evs = (pre ++ LoadSubmit table_id_full (mk_config WRITE_APPEND) df
                   :: JobWait job :: post)%list
        /\ warehouse st' table_id_full = (warehouse st table_id_full ++ rows df)%list).

Lemma append_only_quiet (ev : CloudEvent) (st st' : State) (e : exn) (evs : list event) :
  warehouse st' = warehouse st ->
  existsb is_submit evs = false ->
  append_only ev st (Raise e, st', evs).
Proof.
  intros W S. unfold append_only. split; [|split].
  - apply extends_eq, W.
  - intros id cfg df Hin. now apply no_submit_in in Hin.
  - discriminate.
Qed.

(** The three statements of the function after the extension filter. *)
Lemma pipeline_append_only (pd : Pandas) (w : World) (ev : CloudEvent) (st : State) :
  append_only ev st
    (bind (try_reraise (download w (ce_bucket ev) (ce_name ev))
                       (download_failed (ce_bucket ev) (ce_name ev)))
          (fun csv_data_string =>
             bind (try_reraise (transform pd w csv_data_string) transform_failed)
                  (fun final_df => try_reraise (load w final_df) load_failed)) st).
Proof.
  unfold bind.
  destruct (try_reraise (download w _ _) _ st) as [[r1 st1] ev1] eqn:E1.
  destruct (quiet_try_reraise _ _ (quiet_download w _ _)
              (quiet_download_failed _ _) _ _ _ _ E1) as [W1 S1].
  destruct r1 as [csv|e]; [|now apply append_only_quiet].
  destruct (try_reraise (transform pd w csv) _ st1) as [[r2 st2] ev2] eqn:E2.
  destruct (quiet_try_reraise _ _ (quiet_transform pd w csv)
              quiet_transform_failed _ _ _ _ E2) as [W2 S2].
  destruct r2 as [df|e].
  2:{ apply append_only_quiet; [congruence|]. now rewrite existsb_app, S1, S2. }
  destruct (try_load_run w df st2) as (r & st3 & line & tail & Hrun & Htail & Hext & Hok).
  rewrite Hrun. unfold append_only. split; [|split].
  - intros id. destruct (Hext id) as [added Hadd]. exists added. congruence.
  - intros id cfg df' Hin.
    rewrite !in_app_iff in Hin. destruct Hin as [Hin|[Hin|Hin]].
    + now apply no_submit_in in Hin.
    + now apply no_submit_in in Hin.
    + destruct Hin as [Hin|[Hin|Hin]]; [discriminate Hin| |now apply no_submit_in in Hin].
      injection Hin as <- <- <-. auto.
  - intros Hr _. destruct (Hok Hr) as (job & tail' & -> & Hwh).
    exists df, job, (ev1 ++ ev2 ++ [Print line])%list, tail'. split.
    + rewrite <- !app_assoc. reflexivity.
    + congruence.
Qed.

Lemma append_only_print (ev : CloudEvent) (st : State) (line : string)
    (out : result unit * State * list event) :
  append_only ev st out ->
  append_only ev st (let '(r, st', evs) := out in (r, st', Print line :: evs)).
Proof.
  destruct out as [[r st'] evs]. unfold append_only. intros (Hext & Hsub & Hok).
  split; [exact Hext|]. split.
  - intros id cfg df [Hin|Hin]; [discriminate Hin|]. eauto.
  - intros Hr Hcsv. destruct (Hok Hr Hcsv) as (df & job & pre & post & -> & Hwh).
    exists df, job, (Print line :: pre), post. auto.
Qed.

Lemma bind_print {B} (line : string) (k : unit -> M B) (st : State) :
  bind (print line) k st = (let '(r, st', evs) := k tt st in (r, st', Print line :: evs)).
Proof.
  unfold bind, print, emit. destruct (k tt st) as [[r st'] evs]. reflexivity.
Qed.

(** C9: the load that an invocation submits is append-only: whatever the
    event and the collaborators do, every warehouse table ends with the rows
    it had, unchanged and in place, followed by the rows added; the load is
    submitted with the append disposition; and the invocation returns
    normally only after it has waited for the load job, whose rows then stand
    after the old ones. *)
Theorem load_is_append_only (pd : Pandas) (w : World) (ev : CloudEvent) (st : State) :
  append_only ev st (process_gcs_csv_to_bq pd w ev st).
Proof.
  destruct (is_csv (ce_name ev)) eqn:Hcsv.
  - unfold process_gcs_csv_to_bq. rewrite Hcsv. cbn [negb].
    rewrite bind_print. apply append_only_print.
    rewrite bind_print. apply append_only_print.
    rewrite bind_print. apply append_only_print.
    apply pipeline_append_only.
  - rewrite process_skips by assumption. unfold append_only. split; [|split].
    + apply extends_refl.
    + intros id cfg df Hin. simpl in Hin.
      destruct Hin as [Hin|[Hin|[Hin|[]]]]; discriminate Hin.
    + intros _ Hc. rewrite Hcsv in Hc. discriminate Hc.
Qed.

(** The sample invocation: the two scenario rows are appended to a table
    that already holds a row. *)
Example sample_load_appends :
  let old := [[("user_id", CObj (Some "u0"))]] in
  let st := mk_state 0 (fun id => if String.eqb id table_id_full then old else []) in
  let '(r, st', evs) :=
    process_gcs_csv_to_bq Sample.pd Sample.w (Sample.finalized "uploads" "events.csv") st in
  r = Ok tt
  /\ warehouse st' table_id_full
     = (old ++ map (target_row Sample.pd 10 15 Sample.scenario) [0; 1])%list.
Proof. split; reflexivity. Qed.

(** ** Further examples *)

(** The threshold is strict: 100 is not a high value, 101 is. *)
Example threshold_is_strict :
  flag_rule Sample.pd (Some "100") = false /\ flag_rule Sample.pd (Some "101") = true.
Proof. split; reflexivity. Qed.

Example country_codes_of_samples :
  map spec_country_code
      ["malaysia"; "Singapore"; "THAILAND"; "indonesia";
       "Vietnam"; " malaysia"; "MY"; EmptyString; "nan"]
  = ["MY"; "SG"; "TH"; "ID"; "OT"; "OT"; "OT"; "OT"; "OT"].
Proof. reflexivity. Qed.

(** [str.upper] is Unicode's: the dotless i and the long s have the capitals
    I and S, the sharp s has the capital SS. *)
Example country_codes_beyond_ascii :
  map spec_country_code ["ındonesia"; "malayſia"; "straße"] = ["ID"; "MY"; "OT"]
  /\ PyStr.unicode_upper "straße" = "STRASSE".
Proof. split; reflexivity. Qed.

Example csv_extension_samples :
  map is_csv ["a.csv"; ".csv"; "A.CsV"; "csv"; "a.csv.gz"; "dir/b.csv"]
  = [true; true; true; false; false; true].
Proof. reflexivity. Qed.

(** A missing source object: the invocation fails with FileNotFoundError and
    the warehouse receives nothing. *)
Example missing_object_fails :
  let '(r, st', evs) :=
    process_gcs_csv_to_bq Sample.pd Sample.w (Sample.finalized "uploads" "absent.csv")
      Sample.empty_warehouse in
  r = Raise (mk_exn FileNotFoundError "File gs://uploads/absent.csv not found." [])
  /\ warehouse st' table_id_full = []
  /\ existsb is_submit evs = false.
Proof. repeat split. Qed.

(** A table without the country column is refused before any load. *)
Example missing_column_fails :
  transform_columns Sample.pd 10 15
    (mk_frame 1 [("user_id", ObjectS [Some "u1"]);
                 ("event_timestamp", ObjectS [Some "not-a-date"]);
                 ("value", Int64S [150%Z])])
  = Raise (mk_exn KeyError "'country'" []).
Proof. reflexivity. Qed.

(** ** Running the three phases *)

Lemma bind_emit {B} (e : event) (k : unit -> M B) (st : State) :
  bind (emit e) k st = (let '(r, st', evs) := k tt st in (r, st', e :: evs)).
Proof.
  unfold bind, emit. destruct (k tt st) as [[r st'] evs]. reflexivity.
Qed.

Lemma bind_ok {A B} (m : M A) (k : A -> M B) (st st1 : State) (a : A) (ev1 : list event) :
  m st = (Ok a, st1, ev1) ->
  bind m k st = (let '(r, st2, ev2) := k a st1 in (r, st2, (ev1 ++ ev2)%list)).
Proof.
  intros E. unfold bind. rewrite E. reflexivity.
Qed.

Lemma bind_raise {A B} (m : M A) (k : A -> M B) (st st1 : State) (e : exn)
    (ev1 : list event) :
  m st = (Raise e, st1, ev1) -> bind m k st = (Raise e, st1, ev1).
Proof.
  intros E. unfold bind. rewrite E. reflexivity.
Qed.

Lemma try_reraise_ok {A} (m : M A) (h : exn -> M unit) (st st1 : State) (a : A)
    (ev1 : list event) :
  m st = (Ok a, st1, ev1) -> try_reraise m h st = (Ok a, st1, ev1).
Proof.
  intros E. unfold try_reraise. rewrite E. reflexivity.
Qed.

Lemma try_reraise_raise {A} (m : M A) (h : exn -> M unit) (st st1 st2 : State) (e : exn)
    (ev1 ev2 : list event) :
  m st = (Raise e, st1, ev1) ->
  h e st1 = (Ok tt, st2, ev2) ->
  try_reraise m h st = (@Raise A e, st2, (ev1 ++ ev2)%list).
Proof.
  intros E1 E2. unfold try_reraise. rewrite E1, E2. reflexivity.
Qed.

(** An exception raised by the handler replaces the one that was caught. *)
Lemma try_reraise_replaced {A} (m : M A) (h : exn -> M unit) (st st1 st2 : State)
    (e e' : exn) (ev1 ev2 : list event) :
  m st = (Raise e, st1, ev1) ->
  h e st1 = (Raise e', st2, ev2) ->
  try_reraise m h st = (@Raise A e', st2, (ev1 ++ ev2)%list).
Proof.
  intros E1 E2. unfold try_reraise. rewrite E1, E2. reflexivity.
Qed.

(** The messages of the error details that [print_details] prints, up to
    the first entry that has none, and whether every entry has one. *)
Fixpoint messages (errors : list (list (string * string))) : list string * bool :=
  match errors with
  | [] => ([], true)
  | error_detail :: r =>
      match assoc "message" error_detail with
      | Some m => (m :: fst (messages r), snd (messages r))
      | None => ([], false)
      end
  end.

Definition detail_line (m : string) : event := Print ("  BigQuery Error Detail: " ++ m).

Lemma print_details_run (errors : list (list (string * string))) (st : State) :
  print_details errors st
  = (if snd (messages errors) then Ok tt
     else Raise (mk_exn KeyError "'message'" []),
     st, map detail_line (fst (messages errors))).
Proof.
  induction errors as [|d r IH]; cbn [print_details messages]; [reflexivity|].
  destruct (assoc "message" d) as [m|]; cbn [fst snd map]; [|reflexivity].
  rewrite bind_print, IH. reflexivity.
Qed.

(** The statements of the function after the extension filter. *)
Definition pipeline (pd : Pandas) (w : World) (cloud_event : CloudEvent) : M unit :=
  csv_data_string <- try_reraise (download w (ce_bucket cloud_event) (ce_name cloud_event))
                       (download_failed (ce_bucket cloud_event) (ce_name cloud_event)) ;;
  final_df <- try_reraise (transform pd w csv_data_string) transform_failed ;;
  try_reraise (load w final_df) load_failed.

Definition preamble (cloud_event : CloudEvent) : list event :=
  [Print ("Function triggered for file: gs://" ++ ce_bucket cloud_event ++ "/"
          ++ ce_name cloud_event);
   Print ("Event ID: " ++ ce_id cloud_event ++ ", Event Type: " ++ ce_type cloud_event);
   Print ("Attempting to access bucket: '" ++ ce_bucket cloud_event ++ "' and file: '"
          ++ ce_name cloud_event ++ "'")].

Lemma process_csv_run (pd : Pandas) (w : World) (ev : CloudEvent) (st : State) :
  is_csv (ce_name ev) = true ->
  process_gcs_csv_to_bq pd w ev st =
  (let '(r, st', evs) := pipeline pd w ev st in (r, st', (preamble ev ++ evs)%list)).
Proof.
  intros H. unfold process_gcs_csv_to_bq. rewrite H. cbn [negb].
  rewrite !bind_print. fold (pipeline pd w ev).
  destruct (pipeline pd w ev st) as [[r st'] evs]. reflexivity.
Qed.

(** A name that passes the extension filter is not empty. *)
Lemma is_csv_not_empty (file_name : string) :
  is_csv file_name = true -> PyStr.is_empty file_name = false.
Proof.
  destruct file_name; [discriminate|reflexivity].
Qed.

Lemma not_empty_string (s : string) : s <> EmptyString -> PyStr.is_empty s = false.
Proof.
  destruct s; [intros H; now elim H|reflexivity].
Qed.

(** [download] by cases on what the store answers. *)
Lemma download_run (w : World) (bucket_name file_name : string) (st : State) :
  PyStr.is_empty bucket_name = false ->
  PyStr.is_empty file_name = false ->
  download w bucket_name file_name st =
  match blob_exists w bucket_name file_name with
  | Raise e => (Raise e, st, [BlobExists bucket_name file_name])
  | Ok false =>
      (Raise (mk_exn FileNotFoundError
                ("File gs://" ++ bucket_name ++ "/" ++ file_name ++ " not found.") []),
       st,
       [BlobExists bucket_name file_name;
        Print ("Error: File '" ++ file_name ++ "' does not exist in bucket '"
               ++ bucket_name ++ "'.")])
  | Ok true =>
      match blob_download_as_text w bucket_name file_name with
      | Raise e =>
          (Raise e, st, [BlobExists bucket_name file_name; BlobDownload bucket_name file_name])
      | Ok text =>
          (Ok text, st,
           [BlobExists bucket_name file_name; BlobDownload bucket_name file_name;
            Print ("Successfully downloaded content of " ++ file_name ++ " from GCS.")])
      end
  end.
Proof.
  intros Hb Hn. unfold download. rewrite Hb, Hn. cbn [orb].
  unfold bind, ret, emit, lift, print, raise. cbn [app].
  destruct (blob_exists w bucket_name file_name) as [[|]|e]; cbn [negb app]; try reflexivity.
  destruct (blob_download_as_text w bucket_name file_name) as [text|e]; reflexivity.
Qed.

Definition is_download (e : event) : bool :=
  match e with
  | BlobDownload _ _ => true
  | _ => false
  end.

(** The handler of the download block only prints. *)
Lemma download_failed_run (bucket_name file_name : string) (e : exn) (st : State) :
  exists lines,
    download_failed bucket_name file_name e st = (Ok tt, st, lines)
    /\ existsb is_submit lines = false
    /\ existsb is_download lines = false.
Proof.
  unfold download_failed, bind, print, emit.
  destruct (exn_cls e); eexists; (split; [reflexivity|split; reflexivity]).
Qed.

(** The exception that line 145 raises. *)
Definition unbound_traceback : exn :=
  mk_exn UnboundLocalError
    "cannot access local variable 'traceback' where it is not associated with a value" [].

(** What the handler of the transformation prints before line 145. *)
Definition handler_lines (e : exn) : list event :=
  [Print ("Error transforming data with pandas: " ++ exn_msg e);
   Print "Full traceback for pandas transformation error:"].

Lemma transform_failed_run (e : exn) (st : State) :
  transform_failed e st = (Raise unbound_traceback, st, handler_lines e).
Proof. reflexivity. Qed.

Lemma load_failed_run (e : exn) (st : State) :
  load_failed e st =
  (if snd (messages (exn_errors e)) then Ok tt
   else Raise (mk_exn KeyError "'message'" []),
   st,
   Print ("Error loading data to BigQuery: " ++ exn_msg e)
   :: map detail_line (fst (messages (exn_errors e)))).
Proof.
  unfold load_failed. rewrite bind_print, print_details_run. reflexivity.
Qed.

(** The events of a transformation that succeeds. *)
Definition transform_events (df final_df : DataFrame) : list event :=
  [PrintHead "Original DataFrame (first 3 rows):" df;
   PrintDtypes "Original DataFrame dtypes:" df;
   PrintHead "Transformed DataFrame (first 3 rows):" final_df;
   PrintDtypes "Data types of final_df columns to be loaded:" final_df].

(** What is printed of the frame before the statements run. *)
Definition original_lines (df : DataFrame) : list event :=
  [PrintHead "Original DataFrame (first 3 rows):" df;
   PrintDtypes "Original DataFrame dtypes:" df].

(** The try block of the transformation on a text that [read_csv] reads. *)
Lemma transform_run (pd : Pandas) (w : World) (text : string) (df : DataFrame) (st : State) :
  read_csv pd text = Ok df ->
  transform pd w text st =
  match transform_columns pd (clock w (clock_reads st)) (clock w (S (clock_reads st))) df with
  | Ok final_df =>
      (Ok final_df, mk_state (2 + clock_reads st) (warehouse st),
       transform_events df final_df)
  | Raise e =>
      (Raise e,
       mk_state (reads_taken pd (clock w (clock_reads st)) df + clock_reads st) (warehouse st),
       original_lines df)
  end.
Proof.
  intros Hread. unfold transform. rewrite Hread.
  rewrite (bind_ok _ _ st st df [] eq_refl). cbv zeta.
  rewrite !bind_emit.
  pose proof (transform_frame_run pd w df st) as Hrun.
  destruct (transform_columns pd (clock w (clock_reads st)) (clock w (S (clock_reads st))) df)
    as [final_df|e] eqn:E.
  - destruct (rules_ok_of_transform pd (clock w (clock_reads st))
                (clock w (S (clock_reads st))) df) as [Hr Hp]; [now rewrite E|].
    unfold reads_taken in Hrun. rewrite Hr, Hp in Hrun.
    rewrite (bind_ok _ _ _ _ _ _ Hrun). rewrite !bind_emit. reflexivity.
  - rewrite (bind_raise _ _ _ _ _ _ Hrun). reflexivity.
Qed.

Lemma transform_run_ok (pd : Pandas) (w : World) (text : string) (t : DataFrame) (st : State) :
  read_csv pd text = Ok t ->
  transformable pd t = true ->
  let final_df := target_frame pd (clock w (clock_reads st)) (clock w (S (clock_reads st))) t in
  transform pd w text st =
  (Ok final_df, mk_state (2 + clock_reads st) (warehouse st),
   transform_events t final_df).
Proof.
  intros Hread Hacc final_df. rewrite (transform_run pd w text t st Hread).
  now rewrite (transform_columns_transformable pd _ _ t Hacc).
Qed.

Lemma transform_run_unreadable (pd : Pandas) (w : World) (text : string) (e : exn)
    (st : State) :
  read_csv pd text = Raise e ->
  transform pd w text st = (Raise e, st, []).
Proof.
  intros Hread. unfold transform. rewrite Hread. reflexivity.
Qed.

(** The transformation with its handler, by cases: a frame, or the
    UnboundLocalError of line 145 after the two lines of the handler. *)
Lemma try_transform_run (pd : Pandas) (w : World) (text : string) (st : State) :
  try_reraise (transform pd w text) transform_failed st =
  match read_csv pd text with
  | Raise e => (Raise unbound_traceback, st, handler_lines e)
  | Ok df =>
      match transform_columns pd (clock w (clock_reads st)) (clock w (S (clock_reads st))) df
      with
      | Ok final_df =>
          (Ok final_df, mk_state (2 + clock_reads st) (warehouse st),
           transform_events df final_df)
      | Raise e =>
          (Raise unbound_traceback,
           mk_state (reads_taken pd (clock w (clock_reads st)) df + clock_reads st)
                    (warehouse st),
           (original_lines df ++ handler_lines e)%list)
      end
  end.
Proof.
  destruct (read_csv pd text) as [df|e] eqn:Hread.
  - pose proof (transform_run pd w text df st Hread) as Hrun.
    destruct (transform_columns pd (clock w (clock_reads st))
                (clock w (S (clock_reads st))) df) as [final_df|e].
    + now apply try_reraise_ok.
    + eapply try_reraise_replaced; [exact Hrun|apply transform_failed_run].
  - apply (try_reraise_replaced _ _ st st st e unbound_traceback [] (handler_lines e)).
    + now apply transform_run_unreadable.
    + apply transform_failed_run.
Qed.

(** *** What the statements return on a frame that [read_csv] built *)

(** The first statement that fails, if any, and what it raises. *)
Definition transform_outcome (pd : Pandas) (t_fill t_proc : Z) (df : DataFrame)
  : result DataFrame :=
  if negb (has_column "event_timestamp" df) then key_error "'event_timestamp'"
  else
    match to_datetime_utc pd true (column "event_timestamp" df) with
    | Raise e => Raise e
    | Ok _ =>
        if negb (has_column "country" df) then key_error "'country'"
        else if negb (has_column "value" df) then key_error "'value'"
        else if negb (can_broadcast df) then
          Raise (mk_exn ValueError "cannot set a frame with no defined index and a scalar" [])
        else if negb (has_column "user_id" df) then
          key_error (PyStr.dquote ++ "['user_id'] not in index" ++ PyStr.dquote)
        else Ok (target_frame pd t_fill t_proc df)
    end.

Lemma transform_columns_csv (pd : Pandas) (t_fill t_proc : Z) (df : DataFrame) :
  csv_frame df = true ->
  transform_columns pd t_fill t_proc df = transform_outcome pd t_fill t_proc df.
Proof.
  intros Hcsv.
  destruct (transform_columns pd t_fill t_proc df) as [out|e] eqn:E.
  - destruct (transform_columns_ok pd t_fill t_proc df out E) as [Ha ->].
    pose proof (transform_columns_is_ok pd t_fill t_proc df Hcsv) as Hok.
    rewrite E, Ha in Hok. cbn [is_ok andb] in Hok. symmetry in Hok.
    apply andb_true_iff in Hok. destruct Hok as [Hr Hb].
    destruct (accepted_columns df Ha) as (Hts & Hc & Hv & Hu).
    unfold transform_outcome. rewrite Hts, Hc, Hv, Hu, Hb. cbn [negb].
    unfold timestamps_readable in Hr.
    destruct (to_datetime_utc pd true (column "event_timestamp" df));
      [reflexivity|discriminate Hr].
  - revert E.
    unfold transform_outcome, transform_columns, rules, parse_timestamps, fill_timestamps,
      retype_timestamps, update_col, get_col, can_broadcast, has_column, column, get_col.
    destruct (assoc "event_timestamp" (columns df)) as [ts|] eqn:Ets;
      [|cbn [rbind negb or_else]; intros E; now injection E as <-].
    destruct (csv_frame_column df _ ts Hcsv Ets) as [Hts _].
    cbn [rbind or_else negb].
    rewrite (to_datetime_csv pd true ts Hts).
    destruct (to_datetime_utc pd true ts) as [f|e0] eqn:Ef; cbn [rbind];
      [|intros E; now injection E as <-].
    rewrite columns_set_same. cbn [rbind fillna_datetime].
    rewrite columns_set_same. cbn [rbind to_datetime].
    unfold add_country_code, get_col.
    rewrite !columns_set_other by reflexivity.
    destruct (assoc "country" (columns df)) as [c|] eqn:Ec;
      [|cbn [rbind negb]; intros E; now injection E as <-].
    destruct (csv_frame_column df _ c Hcsv Ec) as [Hc _].
    cbn [rbind negb]. rewrite (country_chain_csv pd c _ Hc). cbn [rbind].
    unfold coerce_value, get_col.
    rewrite !columns_set_other by reflexivity.
    destruct (assoc "value" (columns df)) as [v|] eqn:Ev;
      [|cbn [rbind negb]; intros E; now injection E as <-].
    destruct (csv_frame_column df _ v Hcsv Ev) as [Hv _].
    destruct (value_series_csv pd v Hv) as (_ & Hnum & _).
    cbn [rbind negb]. rewrite (value_chain_csv pd v _ Hv). cbn [rbind].
    unfold add_is_high_value, get_col.
    rewrite columns_set_same. cbn [rbind].
    rewrite (flag_series_numeric _ Hnum). cbn [rbind].
    unfold add_processing_datetime, has_column.
    rewrite !columns_set_other by reflexivity. cbn [nrows set_col].
    destruct (nrows df =? 0)%nat; cbn [negb andb orb].
    + destruct (assoc "processing_datetime" (columns df)); cbn [negb rbind];
        [|intros E; now injection E as <-].
      unfold project, select, target_columns, select_cols.
      rewrite columns_set_same.
      repeat (rewrite columns_set_other by reflexivity; try rewrite columns_set_same).
      destruct (assoc "user_id" (columns df)); cbn [rbind negb];
        [discriminate|intros E; now injection E as <-].
    + cbn [rbind].
      unfold project, select, target_columns, select_cols.
      rewrite columns_set_same.
      repeat (rewrite columns_set_other by reflexivity; try rewrite columns_set_same).
      destruct (assoc "user_id" (columns df)); cbn [rbind negb];
        [discriminate|intros E; now injection E as <-].
Qed.


(** ** Failures of the download *)

(** The store holds the object of the event and hands out its text. *)
Definition object_delivered (w : World) (ev : CloudEvent) (text : string) : Prop :=
  is_csv (ce_name ev) = true
  /\ ce_bucket ev <> EmptyString
  /\ blob_exists w (ce_bucket ev) (ce_name ev) = Ok true
  /\ blob_download_as_text w (ce_bucket ev) (ce_name ev) = Ok text.

Definition download_events (ev : CloudEvent) : list event :=
  [BlobExists (ce_bucket ev) (ce_name ev);
   BlobDownload (ce_bucket ev) (ce_name ev);
   Print ("Successfully downloaded content of " ++ ce_name ev ++ " from GCS.")].

Lemma try_download_ok (w : World) (ev : CloudEvent) (text : string) (st : State) :
  object_delivered w ev text ->
  try_reraise (download w (ce_bucket ev) (ce_name ev))
              (download_failed (ce_bucket ev) (ce_name ev)) st
  = (Ok text, st, download_events ev).
Proof.
  intros (Hcsv & Hb & Hex & Hdl). apply try_reraise_ok.
  rewrite download_run by auto using is_csv_not_empty, not_empty_string.
  now rewrite Hex, Hdl.
Qed.

(** X1: The object is not in the bucket: the invocation raises FileNotFoundError
    after the existence check; it downloads nothing, reads no clock and
    leaves the warehouse alone. *)
Theorem missing_object_raises_FileNotFoundError (pd : Pandas) (w : World)
    (ev : CloudEvent) (st : State) :
  is_csv (ce_name ev) = true ->
  ce_bucket ev <> EmptyString ->
  blob_exists w (ce_bucket ev) (ce_name ev) = Ok false ->
  process_gcs_csv_to_bq pd w ev st =
  (Raise (mk_exn FileNotFoundError
            ("File gs://" ++ ce_bucket ev ++ "/" ++ ce_name ev ++ " not found.") []),
   st,
   (preamble ev ++
    [BlobExists (ce_bucket ev) (ce_name ev);
     Print ("Error: File '" ++ ce_name ev ++ "' does not exist in bucket '"
            ++ ce_bucket ev ++ "'.");
     Print ("FileNotFoundError during GCS operation: File gs://" ++ ce_bucket ev ++ "/"
            ++ ce_name ev ++ " not found.")])%list).
Proof.
  intros Hcsv Hb Hex. rewrite process_csv_run by assumption. unfold pipeline.
  erewrite bind_raise; [reflexivity|].
  eapply (try_reraise_raise _ _ st st st _
            [BlobExists (ce_bucket ev) (ce_name ev);
             Print ("Error: File '" ++ ce_name ev ++ "' does not exist in bucket '"
                    ++ ce_bucket ev ++ "'.")]).
  - rewrite download_run by auto using is_csv_not_empty, not_empty_string.
    rewrite Hex. reflexivity.
  - reflexivity.
Qed.

Lemma missing_object_raises_FileNotFoundError_witness :
  let ev := Sample.finalized "uploads" "absent.csv" in
  is_csv (ce_name ev) = true
  /\ ce_bucket ev <> EmptyString
  /\ blob_exists Sample.w (ce_bucket ev) (ce_name ev) = Ok false
  /\ fst (fst (process_gcs_csv_to_bq Sample.pd Sample.w ev Sample.empty_warehouse))
     = Raise (mk_exn FileNotFoundError "File gs://uploads/absent.csv not found." []).
Proof.
  cbv zeta. split; [reflexivity|]. split; [discriminate|]. split; [reflexivity|].
  rewrite (missing_object_raises_FileNotFoundError Sample.pd Sample.w
             (Sample.finalized "uploads" "absent.csv") Sample.empty_warehouse);
    [reflexivity|reflexivity|discriminate|reflexivity].
Defined.

(** X2: An exception of the object store, raised by the existence check or by
    the download, leaves the function as it is, not wrapped; the state is
    unchanged and nothing is submitted to the warehouse. *)
Theorem storage_exception_is_reraised (pd : Pandas) (w : World) (ev : CloudEvent)
    (st : State) (e : exn) :
  is_csv (ce_name ev) = true ->
  ce_bucket ev <> EmptyString ->
  blob_exists w (ce_bucket ev) (ce_name ev) = Raise e
  \/ (blob_exists w (ce_bucket ev) (ce_name ev) = Ok true
      /\ blob_download_as_text w (ce_bucket ev) (ce_name ev) = Raise e) ->
  exists evs,
    process_gcs_csv_to_bq pd w ev st = (Raise e, st, evs)
    /\ existsb is_submit evs = false.
Proof.
  intros Hcsv Hb Hfail. rewrite process_csv_run by assumption. unfold pipeline.
  destruct (download_failed_run (ce_bucket ev) (ce_name ev) e st)
    as (lines & Hh & Hsub & _).
  assert (Hd : exists ev1,
             download w (ce_bucket ev) (ce_name ev) st = (Raise e, st, ev1)
             /\ existsb is_submit ev1 = false).
  { rewrite download_run by auto using is_csv_not_empty, not_empty_string.
    destruct Hfail as [Hex|[Hex Hdl]].
    - rewrite Hex. eexists. split; reflexivity.
    - rewrite Hex, Hdl. eexists. split; reflexivity. }
  destruct Hd as (ev1 & Hd & Hsub1).
  erewrite bind_raise by (eapply try_reraise_raise; [exact Hd|exact Hh]).
  eexists. split; [reflexivity|].
  rewrite !existsb_app, Hsub1, Hsub. reflexivity.
Qed.


(** A store whose existence check fails with a permission error. *)
Definition forbidden_store : World :=
  mk_world (Sample.ticking 10 5)
    (fun _ _ => Raise (mk_exn OtherException "403 Forbidden" []))
    (fun _ _ => Raise (mk_exn OtherException "403 Forbidden" []))
    (fun _ _ => Ok "job_1")
    (fun _ _ => None)
    (fun _ => None)
    7.

Lemma storage_exception_is_reraised_witness :
  let ev := Sample.finalized "uploads" "events.csv" in
  let e := mk_exn OtherException "403 Forbidden" [] in
  is_csv (ce_name ev) = true
  /\ ce_bucket ev <> EmptyString
  /\ (blob_exists forbidden_store (ce_bucket ev) (ce_name ev) = Raise e
      \/ (blob_exists forbidden_store (ce_bucket ev) (ce_name ev) = Ok true
          /\ blob_download_as_text forbidden_store (ce_bucket ev) (ce_name ev) = Raise e))
  /\ exists evs,
       process_gcs_csv_to_bq Sample.pd forbidden_store ev Sample.empty_warehouse
       = (Raise e, Sample.empty_warehouse, evs)
       /\ existsb is_submit evs = false.
Proof.
  cbv zeta. split; [reflexivity|]. split; [discriminate|]. split; [left; reflexivity|].
  apply (storage_exception_is_reraised Sample.pd forbidden_store
           (Sample.finalized "uploads" "events.csv") Sample.empty_warehouse
           (mk_exn OtherException "403 Forbidden" []));
    [reflexivity|discriminate|left; reflexivity].
Defined.


(** ** Failures of the transformation *)

Lemma process_after_download (pd : Pandas) (w : World) (ev : CloudEvent) (st : State)
    (text : string) :
  object_delivered w ev text ->
  process_gcs_csv_to_bq pd w ev st =
  (let '(r, st', evs) :=
     bind (try_reraise (transform pd w text) transform_failed)
          (fun final_df => try_reraise (load w final_df) load_failed) st in
   (r, st', (preamble ev ++ download_events ev ++ evs)%list)).
Proof.
  intros Hobj. rewrite process_csv_run by apply Hobj. unfold pipeline.
  rewrite (bind_ok _ _ _ _ _ _ (try_download_ok w ev text st Hobj)).
  destruct (bind _ _ st) as [[r st'] evs]. reflexivity.
Qed.

(** X3: [read_csv] raises: the handler prints its two lines, the first with
    the message of the exception, and line 145 then raises
    UnboundLocalError, [traceback] being a local name that nothing has
    bound; this is the exception that leaves the function.  No clock was
    read and nothing is submitted to the warehouse. *)
Theorem unreadable_csv_raises_UnboundLocalError (pd : Pandas) (w : World) (ev : CloudEvent)
    (st : State) (text : string) (e : exn) :
  object_delivered w ev text ->
  read_csv pd text = Raise e ->
  process_gcs_csv_to_bq pd w ev st =
  (Raise (mk_exn UnboundLocalError
            "cannot access local variable 'traceback' where it is not associated with a value"
            []),
   st,
   (preamble ev ++ download_events ev ++
    [Print ("Error transforming data with pandas: " ++ exn_msg e);
     Print "Full traceback for pandas transformation error:"])%list).
Proof.
  intros Hobj Hread. rewrite (process_after_download pd w ev st text Hobj).
  pose proof (try_transform_run pd w text st) as Hrun. rewrite Hread in Hrun.
  rewrite (bind_raise _ _ _ _ _ _ Hrun). reflexivity.
Qed.

Lemma sample_delivered :
  object_delivered Sample.w (Sample.finalized "uploads" "events.csv") Sample.csv_text.
Proof.
  split; [reflexivity|]. split; [discriminate|]. split; reflexivity.
Qed.

Lemma unreadable_csv_raises_UnboundLocalError_witness :
  let ev := Sample.finalized "uploads" "events.csv" in
  let pd := Sample.pandas "another text" Sample.scenario in
  let e := mk_exn OtherException "No columns to parse from file" [] in
  object_delivered Sample.w ev Sample.csv_text
  /\ read_csv pd Sample.csv_text = Raise e
  /\ exn_cls (match fst (fst (process_gcs_csv_to_bq pd Sample.w ev Sample.empty_warehouse))
              with Raise e' => e' | Ok _ => e end) = UnboundLocalError.
Proof.
  cbv zeta. split; [exact sample_delivered|]. split; [reflexivity|].
  rewrite (unreadable_csv_raises_UnboundLocalError
             (Sample.pandas "another text" Sample.scenario)
             Sample.w (Sample.finalized "uploads" "events.csv") Sample.empty_warehouse
             Sample.csv_text (mk_exn OtherException "No columns to parse from file" [])
             sample_delivered eq_refl).
  reflexivity.
Defined.

(** The KeyError for the first of the four columns that a frame lacks, in
    the order in which the statements ask for them. *)
Definition missing_column_error (df : DataFrame) : exn :=
  if negb (has_column "event_timestamp" df) then mk_exn KeyError "'event_timestamp'" []
  else if negb (has_column "country" df) then mk_exn KeyError "'country'" []
  else if negb (has_column "value" df) then mk_exn KeyError "'value'" []
  else mk_exn KeyError (PyStr.dquote ++ "['user_id'] not in index" ++ PyStr.dquote) [].

Lemma transform_columns_missing (pd : Pandas) (t_fill t_proc : Z) (df : DataFrame) :
  csv_frame df = true ->
  accepted df = false ->
  (has_column "event_timestamp" df = true -> timestamps_readable pd df = true) ->
  can_broadcast df = true ->
  transform_columns pd t_fill t_proc df = Raise (missing_column_error df).
Proof.
  intros Hcsv Hacc Hts Hb. rewrite (transform_columns_csv pd t_fill t_proc df Hcsv).
  unfold transform_outcome, missing_column_error, key_error.
  unfold accepted in Hacc.
  destruct (has_column "event_timestamp" df); cbn [negb]; [|reflexivity].
  specialize (Hts eq_refl). unfold timestamps_readable in Hts.
  destruct (to_datetime_utc pd true (column "event_timestamp" df)); [|discriminate Hts].
  destruct (has_column "country" df); cbn [negb]; [|reflexivity].
  destruct (has_column "value" df); cbn [negb]; [|reflexivity].
  rewrite Hb. cbn [negb].
  destruct (has_column "user_id" df); [discriminate Hacc|reflexivity].
Qed.

(** X4: The frame read from the CSV lacks one of the columns
    event_timestamp, country, value, user_id, while [to_datetime] accepts
    the timestamp column if there is one and line 128 can broadcast: the
    statements raise a KeyError for the first column that is missing, the
    handler prints its message, and the invocation then raises the
    UnboundLocalError of line 145 in its place.  No load is submitted and
    the warehouse is as it was. *)
Theorem missing_column_fails_before_load (pd : Pandas) (w : World) (ev : CloudEvent)
    (st : State) (text : string) (t : DataFrame) :
  object_delivered w ev text ->
  read_csv pd text = Ok t ->
  csv_frame t = true ->
  accepted t = false ->
  (has_column "event_timestamp" t = true -> timestamps_readable pd t = true) ->
  can_broadcast t = true ->
  transform_columns pd (clock w (clock_reads st)) (clock w (S (clock_reads st))) t
  = Raise (missing_column_error t)
  /\ exn_cls (missing_column_error t) = KeyError
  /\ exists st',
       process_gcs_csv_to_bq pd w ev st =
       (Raise (mk_exn UnboundLocalError
                 "cannot access local variable 'traceback' where it is not associated with a value"
                 []),
        st',
        (preamble ev ++ download_events ev ++
         [PrintHead "Original DataFrame (first 3 rows):" t;
          PrintDtypes "Original DataFrame dtypes:" t;
          Print ("Error transforming data with pandas: "
                 ++ exn_msg (missing_column_error t));
          Print "Full traceback for pandas transformation error:"])%list)
       /\ warehouse st' = warehouse st.
Proof.
  intros Hobj Hread Hcsv Hacc Hts Hb.
  pose proof (transform_columns_missing pd (clock w (clock_reads st))
                (clock w (S (clock_reads st))) t Hcsv Hacc Hts Hb) as Hraise.
  split; [exact Hraise|]. split.
  { unfold missing_column_error.
    repeat match goal with |- context [if ?c then _ else _] => destruct c end;
      reflexivity. }
  rewrite (process_after_download pd w ev st text Hobj).
  pose proof (try_transform_run pd w text st) as Hrun. rewrite Hread, Hraise in Hrun.
  rewrite (bind_raise _ _ _ _ _ _ Hrun).
  eexists. split; reflexivity.
Qed.

(** A CSV without the country column. *)
Definition no_country : DataFrame :=
  mk_frame 1
    [("user_id", ObjectS [Some "u1"]);
     ("event_timestamp", ObjectS [Some "2024-01-01T00:00:00Z"]);
     ("value", Int64S [150%Z])].

Lemma missing_column_fails_before_load_witness :
  let ev := Sample.finalized "uploads" "events.csv" in
  let pd := Sample.pandas Sample.csv_text no_country in
  object_delivered Sample.w ev Sample.csv_text
  /\ read_csv pd Sample.csv_text = Ok no_country
  /\ csv_frame no_country = true
  /\ accepted no_country = false
  /\ can_broadcast no_country = true
  /\ transform_columns pd 10 15 no_country = Raise (mk_exn KeyError "'country'" [])
  /\ exists st' evs,
       process_gcs_csv_to_bq pd Sample.w ev Sample.empty_warehouse
       = (Raise (mk_exn UnboundLocalError
                   "cannot access local variable 'traceback' where it is not associated with a value"
                   []), st', evs)
       /\ In (Print "Error transforming data with pandas: 'country'") evs
       /\ warehouse st' = warehouse Sample.empty_warehouse.
Proof.
  cbv zeta. split; [exact sample_delivered|]. split; [reflexivity|].
  split; [reflexivity|]. split; [reflexivity|]. split; [reflexivity|].
  destruct (missing_column_fails_before_load (Sample.pandas Sample.csv_text no_country)
              Sample.w (Sample.finalized "uploads" "events.csv") Sample.empty_warehouse
              Sample.csv_text no_country sample_delivered eq_refl eq_refl eq_refl
              (fun _ => eq_refl) eq_refl) as (Hraise & _ & st' & Hrun & Hwh).
  split; [exact Hraise|].
  exists st'. eexists. split; [exact Hrun|]. split; [|exact Hwh].
  simpl. tauto.
Defined.

(** X5: On a frame that [read_csv] built, the statements of the
    transformation return a frame exactly when the frame has the four
    columns, [to_datetime] raises nothing on the timestamp column, and the
    frame has a row or already a processing_datetime column; the frame
    returned is then [target_frame]. *)
Theorem transform_succeeds_exactly_when_transformable (pd : Pandas) (t_fill t_proc : Z)
    (t : DataFrame) :
  csv_frame t = true ->
  is_ok (transform_columns pd t_fill t_proc t)
  = accepted t && timestamps_readable pd t && can_broadcast t
  /\ (forall out, transform_columns pd t_fill t_proc t = Ok out ->
                  out = target_frame pd t_fill t_proc t).
Proof.
  intros Hcsv. split; [now apply transform_columns_is_ok|].
  intros out E. now destruct (transform_columns_ok pd t_fill t_proc t out E).
Qed.

Lemma transform_succeeds_exactly_when_transformable_witness :
  csv_frame no_country = true
  /\ is_ok (transform_columns Sample.pd 10 15 no_country)
     = accepted no_country && timestamps_readable Sample.pd no_country
       && can_broadcast no_country
  /\ (forall out, transform_columns Sample.pd 10 15 no_country = Ok out ->
                  out = target_frame Sample.pd 10 15 no_country).
Proof.
  split; [reflexivity|].
  apply (transform_succeeds_exactly_when_transformable Sample.pd 10 15 no_country).
  reflexivity.
Defined.



(** ** Outcomes of the load *)

Definition loading_line (df : DataFrame) : event :=
  Print ("Loading " ++ PyStr.of_nat (nrows df) ++ " rows into BigQuery table: "
         ++ table_id_full).

Definition completed_line (id : string) (written total : nat) : event :=
  Print ("Load job " ++ id ++ " completed successfully. "
         ++ "Output rows: " ++ PyStr.of_nat written ++ ". "
         ++ "Total rows in table '" ++ TARGET_BIGQUERY_TABLE_ID ++ "': "
         ++ PyStr.of_nat total).

(** [load] by cases on what the warehouse answers. *)
Lemma load_run_cases (w : World) (df : DataFrame) (st : State) :
  let submit := LoadSubmit table_id_full (mk_config WRITE_APPEND) df in
  let new_rows := (warehouse st table_id_full ++ rows df)%list in
  load w df st =
  match load_job_created w table_id_full df with
  | Raise e => (Raise e, st, [loading_line df; submit])
  | Ok id =>
      match load_job_outcome w table_id_full df with
      | Some e => (Raise e, st, [loading_line df; submit; JobWait id])
      | None =>
          match get_table_error w table_id_full with
          | Some e =>
              (Raise e, set_table table_id_full new_rows st,
               [loading_line df; submit; JobWait id; GetTable table_id_full])
          | None =>
              (Ok tt, set_table table_id_full new_rows st,
               [loading_line df; submit; JobWait id; GetTable table_id_full;
                completed_line id (List.length (rows df)) (List.length new_rows)])
          end
      end
  end.
Proof.
  cbv zeta.
  unfold load, load_table_from_dataframe, job_result, get_table_num_rows,
    bind, print, emit, lift, raise, ret, loading_line, completed_line.
  cbn [write_disposition write_rows].
  destruct (load_job_created w table_id_full df) as [id|e]; [|reflexivity].
  destruct (load_job_outcome w table_id_full df) as [e|];
    cbn [job_id job_error output_rows]; [reflexivity|].
  destruct (get_table_error w table_id_full) as [e|]; [reflexivity|].
  cbn [app]. rewrite warehouse_set_table, String.eqb_refl. reflexivity.
Qed.

(** The object is delivered, parsed and accepted by the transformation. *)
Definition transformed (pd : Pandas) (w : World) (ev : CloudEvent) (t : DataFrame) : Prop :=
  exists text,
    object_delivered w ev text /\ read_csv pd text = Ok t /\ accepted t = true.

(** The object is delivered and parsed, and every statement of the
    transformation succeeds on the frame. *)
Definition loadable (pd : Pandas) (w : World) (ev : CloudEvent) (t : DataFrame) : Prop :=
  exists text,
    object_delivered w ev text /\ read_csv pd text = Ok t /\ transformable pd t = true.

(** The run up to the load, and then the load on the transformed frame. *)
Lemma process_run_to_load (pd : Pandas) (w : World) (ev : CloudEvent) (st : State)
    (t : DataFrame) :
  loadable pd w ev t ->
  let final_df := target_frame pd (clock w (clock_reads st)) (clock w (S (clock_reads st))) t in
  process_gcs_csv_to_bq pd w ev st =
  (let '(r, st', evs) :=
     try_reraise (load w final_df) load_failed
       (mk_state (2 + clock_reads st) (warehouse st)) in
   (r, st',
    (preamble ev ++ download_events ev ++ transform_events t final_df
     ++ evs)%list)).
Proof.
  intros (text & Hobj & Hread & Hacc) final_df.
  rewrite process_csv_run by apply Hobj. unfold pipeline.
  rewrite (bind_ok _ _ _ _ _ _ (try_download_ok w ev text st Hobj)).
  rewrite (bind_ok _ _ _ _ _ _
             (try_reraise_ok _ _ _ _ _ _ (transform_run_ok pd w text t st Hread Hacc))).
  fold final_df.
  destruct (try_reraise (load w final_df) load_failed _) as [[r st'] evs].
  reflexivity.
Qed.

(** The exception that leaves the handler of the load: the one that was
    caught, or the KeyError of line 190 when an entry of its [errors] has no
    message. *)
Definition reported (e : exn) : exn :=
  if snd (messages (exn_errors e)) then e else mk_exn KeyError "'message'" [].

(** The lines of the handler of the load. *)
Definition load_failed_lines (e : exn) : list event :=
  Print ("Error loading data to BigQuery: " ++ exn_msg e)
  :: map detail_line (fst (messages (exn_errors e))).

Lemma try_load_failed (w : World) (df : DataFrame) (st st1 : State) (e : exn)
    (ev1 : list event) :
  load w df st = (Raise e, st1, ev1) ->
  try_reraise (load w df) load_failed st
  = (Raise (reported e), st1, (ev1 ++ load_failed_lines e)%list).
Proof.
  intros Hload. pose proof (load_failed_run e st1) as Hh. unfold reported.
  destruct (snd (messages (exn_errors e))).
  - exact (try_reraise_raise _ _ _ _ _ _ _ _ Hload Hh).
  - exact (try_reraise_replaced _ _ _ _ _ _ _ _ _ Hload Hh).
Qed.

(** X6: The warehouse rejects the load, when the job is created or when it
    runs: the handler prints a line with the message of the exception and
    then one line for each entry of its [errors]; the exception leaves the
    function as it is when every entry has a message, and a KeyError leaves
    in its place, after the lines of the entries before, when one has none.
    The warehouse is as it was. *)
Theorem rejected_load_is_reported (pd : Pandas) (w : World) (ev : CloudEvent) (st : State)
    (t : DataFrame) (e : exn) :
  loadable pd w ev t ->
  let final_df := target_frame pd (clock w (clock_reads st)) (clock w (S (clock_reads st))) t in
  load_job_created w table_id_full final_df = Raise e
  \/ (exists id, load_job_created w table_id_full final_df = Ok id
                 /\ load_job_outcome w table_id_full final_df = Some e) ->
  exists st' pre,
    process_gcs_csv_to_bq pd w ev st =
    (Raise (if snd (messages (exn_errors e)) then e else mk_exn KeyError "'message'" []),
     st',
     (pre ++ Print ("Error loading data to BigQuery: " ++ exn_msg e)
          :: map (fun m => Print ("  BigQuery Error Detail: " ++ m))
                 (fst (messages (exn_errors e))))%list)
    /\ warehouse st' = warehouse st.
Proof.
  intros Ht final_df Hrej. rewrite (process_run_to_load pd w ev st t Ht). fold final_df.
  set (st1 := mk_state (2 + clock_reads st) (warehouse st)).
  pose proof (load_run_cases w final_df st1) as Hload. cbv zeta in Hload.
  destruct Hrej as [Hc|(id & Hc & Ho)].
  - rewrite Hc in Hload. rewrite (try_load_failed _ _ _ _ _ _ Hload).
    do 2 eexists. split; [rewrite !app_assoc; reflexivity|reflexivity].
  - rewrite Hc, Ho in Hload. rewrite (try_load_failed _ _ _ _ _ _ Hload).
    do 2 eexists. split; [rewrite !app_assoc; reflexivity|reflexivity].
Qed.

Lemma sample_loadable (w : World) :
  blob_exists w "uploads" "events.csv" = Ok true ->
  blob_download_as_text w "uploads" "events.csv" = Ok Sample.csv_text ->
  loadable Sample.pd w (Sample.finalized "uploads" "events.csv") Sample.scenario.
Proof.
  intros Hex Hdl. exists Sample.csv_text. split; [|split; reflexivity].
  split; [reflexivity|]. split; [discriminate|]. split; assumption.
Qed.

(** The sample store with a warehouse whose jobs end with a schema error. *)
Definition strict_warehouse : World :=
  mk_world (Sample.ticking 10 5)
    (blob_exists Sample.w)
    (blob_download_as_text Sample.w)
    (fun _ _ => Ok "job_7")
    (fun _ _ => Some (mk_exn OtherException "400 Schema mismatch"
                        [[("reason", "invalid"); ("message", "no such field: note")];
                         [("message", "too many errors")]]))
    (fun _ => None)
    7.

Lemma rejected_load_is_reported_witness :
  let ev := Sample.finalized "uploads" "events.csv" in
  let e := mk_exn OtherException "400 Schema mismatch"
             [[("reason", "invalid"); ("message", "no such field: note")];
              [("message", "too many errors")]] in
  loadable Sample.pd strict_warehouse ev Sample.scenario
  /\ exists st' pre,
       process_gcs_csv_to_bq Sample.pd strict_warehouse ev Sample.empty_warehouse =
       (Raise e, st',
        (pre ++ [Print "Error loading data to BigQuery: 400 Schema mismatch";
                 Print "  BigQuery Error Detail: no such field: note";
                 Print "  BigQuery Error Detail: too many errors"])%list)
       /\ warehouse st' = warehouse Sample.empty_warehouse.
Proof.
  cbv zeta. split; [apply sample_loadable; reflexivity|].
  apply (rejected_load_is_reported Sample.pd strict_warehouse
           (Sample.finalized "uploads" "events.csv") Sample.empty_warehouse
           Sample.scenario
           (mk_exn OtherException "400 Schema mismatch"
              [[("reason", "invalid"); ("message", "no such field: note")];
               [("message", "too many errors")]])).
  - apply sample_loadable; reflexivity.
  - right. exists "job_7". split; reflexivity.
Defined.

(** An entry of [errors] without a message: the KeyError of line 190
    leaves the handler, after the line of the entry before it. *)
Example error_detail_without_message :
  let e := mk_exn OtherException "400 Schema mismatch"
             [[("message", "no such field: note")]; [("reason", "invalid")];
              [("message", "too many errors")]] in
  load_failed e Sample.empty_warehouse
  = (Raise (mk_exn KeyError "'message'" []), Sample.empty_warehouse,
     [Print "Error loading data to BigQuery: 400 Schema mismatch";
      Print "  BigQuery Error Detail: no such field: note"]).
Proof. reflexivity. Qed.

(** X7: The load job succeeds but the table cannot be read back for its row
    count: the invocation fails, with that exception when every entry of
    its [errors] has a message, although the rows are in the table. *)
Theorem get_table_failure_after_rows_written (pd : Pandas) (w : World) (ev : CloudEvent)
    (st : State) (t : DataFrame) (id : string) (e : exn) :
  loadable pd w ev t ->
  let final_df := target_frame pd (clock w (clock_reads st)) (clock w (S (clock_reads st))) t in
  load_job_created w table_id_full final_df = Ok id ->
  load_job_outcome w table_id_full final_df = None ->
  get_table_error w table_id_full = Some e ->
  exists st' evs,
    process_gcs_csv_to_bq pd w ev st
    = (Raise (if snd (messages (exn_errors e)) then e else mk_exn KeyError "'message'" []),
       st', evs)
    /\ warehouse st' table_id_full
       = (warehouse st table_id_full
          ++ map (target_row pd (clock w (clock_reads st)) (clock w (S (clock_reads st))) t)
                 (seq 0 (nrows t)))%list.
Proof.
  intros Ht final_df Hc Ho Hg. rewrite (process_run_to_load pd w ev st t Ht). fold final_df.
  set (st1 := mk_state (2 + clock_reads st) (warehouse st)).
  pose proof (load_run_cases w final_df st1) as Hload. cbv zeta in Hload.
  rewrite Hc, Ho, Hg in Hload. rewrite (try_load_failed _ _ _ _ _ _ Hload).
  eexists. eexists. split; [reflexivity|].
  rewrite warehouse_set_table, String.eqb_refl. unfold final_df.
  destruct Ht as (text & _ & _ & Htr). now rewrite rows_target_frame.
Qed.

(** The sample store with a warehouse that loads but cannot be read back. *)
Definition unreadable_warehouse : World :=
  mk_world (Sample.ticking 10 5)
    (blob_exists Sample.w)
    (blob_download_as_text Sample.w)
    (fun _ _ => Ok "job_8")
    (fun _ _ => None)
    (fun _ => Some (mk_exn OtherException "503 Service Unavailable" []))
    7.

Lemma get_table_failure_after_rows_written_witness :
  let ev := Sample.finalized "uploads" "events.csv" in
  let e := mk_exn OtherException "503 Service Unavailable" [] in
  loadable Sample.pd unreadable_warehouse ev Sample.scenario
  /\ exists st' evs,
       process_gcs_csv_to_bq Sample.pd unreadable_warehouse ev Sample.empty_warehouse
       = (Raise e, st', evs)
       /\ warehouse st' table_id_full
          = ([] ++ map (target_row Sample.pd 10 15 Sample.scenario) [0; 1])%list.
Proof.
  cbv zeta. split; [apply sample_loadable; reflexivity|].
  apply (get_table_failure_after_rows_written Sample.pd unreadable_warehouse
           (Sample.finalized "uploads" "events.csv") Sample.empty_warehouse
           Sample.scenario "job_8" (mk_exn OtherException "503 Service Unavailable" []));
    [apply sample_loadable; reflexivity|reflexivity|reflexivity|reflexivity].
Defined.

(** ** The successful invocation *)

Definition load_events (df : DataFrame) (id : string) (total : nat) : list event :=
  [loading_line df;
   LoadSubmit table_id_full (mk_config WRITE_APPEND) df;
   JobWait id;
   GetTable table_id_full;
   completed_line id (List.length (rows df)) total].

Lemma process_succeeds (pd : Pandas) (w : World) (ev : CloudEvent) (st : State)
    (t : DataFrame) (id : string) :
  loadable pd w ev t ->
  let final_df := target_frame pd (clock w (clock_reads st)) (clock w (S (clock_reads st))) t in
  let new_rows := (warehouse st table_id_full ++ rows final_df)%list in
  load_job_created w table_id_full final_df = Ok id ->
  load_job_outcome w table_id_full final_df = None ->
  get_table_error w table_id_full = None ->
  process_gcs_csv_to_bq pd w ev st =
  (Ok tt,
   set_table table_id_full new_rows (mk_state (2 + clock_reads st) (warehouse st)),
   (preamble ev ++ download_events ev ++ transform_events t final_df
    ++ load_events final_df id (List.length new_rows))%list).
Proof.
  intros Ht final_df new_rows Hc Ho Hg.
  rewrite (process_run_to_load pd w ev st t Ht). fold final_df.
  set (st1 := mk_state (2 + clock_reads st) (warehouse st)).
  pose proof (load_run_cases w final_df st1) as Hload. cbv zeta in Hload.
  rewrite Hc, Ho, Hg in Hload.
  rewrite (try_reraise_ok _ _ _ _ _ _ Hload). reflexivity.
Qed.

(** X8: When the object is delivered and parsed, every statement of the
    transformation succeeds on the frame, and the warehouse takes the load,
    the invocation returns normally; it has read the clock twice, the target
    table holds its old rows followed by one row for each row of the frame,
    and every other table is as it was.  The events are, in order: the
    preamble, the existence check and the download, the four frame dumps,
    and the load with its wait and its row count. *)
Theorem successful_invocation (pd : Pandas) (w : World) (ev : CloudEvent) (st : State)
    (t : DataFrame) (id : string) :
  loadable pd w ev t ->
  let t_fill := clock w (clock_reads st) in
  let t_proc := clock w (S (clock_reads st)) in
  let final_df := target_frame pd t_fill t_proc t in
  load_job_created w table_id_full final_df = Ok id ->
  load_job_outcome w table_id_full final_df = None ->
  get_table_error w table_id_full = None ->
  exists st',
    process_gcs_csv_to_bq pd w ev st =
    (Ok tt, st',
     (preamble ev ++ download_events ev ++ transform_events t final_df
      ++ load_events final_df id
           (List.length (warehouse st table_id_full) + nrows t))%list)
    /\ clock_reads st' = 2 + clock_reads st
    /\ warehouse st' table_id_full
       = (warehouse st table_id_full
          ++ map (target_row pd t_fill t_proc t) (seq 0 (nrows t)))%list
    /\ (forall other, String.eqb other table_id_full = false ->
                      warehouse st' other = warehouse st other).
Proof.
  intros Ht t_fill t_proc final_df Hc Ho Hg.
  assert (Htr : transformable pd t = true) by (destruct Ht as (text & _ & _ & H); exact H).
  assert (Hlen : List.length (warehouse st table_id_full ++ rows final_df)%list
                 = List.length (warehouse st table_id_full) + nrows t).
  { rewrite length_app. unfold final_df, rows. cbn [nrows target_frame].
    now rewrite length_map, length_seq. }
  pose proof (process_succeeds pd w ev st t id Ht Hc Ho Hg) as Hrun.
  cbv zeta in Hrun. fold t_fill t_proc final_df in Hrun. rewrite Hlen in Hrun.
  eexists. split; [exact Hrun|]. split; [reflexivity|]. split.
  - rewrite warehouse_set_table, String.eqb_refl. unfold final_df.
    now rewrite rows_target_frame.
  - intros other Hother. now rewrite warehouse_set_table, Hother.
Qed.

Lemma successful_invocation_witness :
  let ev := Sample.finalized "uploads" "events.csv" in
  loadable Sample.pd Sample.w ev Sample.scenario
  /\ exists st' evs,
       process_gcs_csv_to_bq Sample.pd Sample.w ev Sample.empty_warehouse = (Ok tt, st', evs)
       /\ clock_reads st' = 2
       /\ warehouse st' table_id_full
          = map (target_row Sample.pd 10 15 Sample.scenario) [0; 1].
Proof.
  cbv zeta. split; [apply sample_loadable; reflexivity|].
  destruct (successful_invocation Sample.pd Sample.w
              (Sample.finalized "uploads" "events.csv") Sample.empty_warehouse
              Sample.scenario "job_1" (sample_loadable Sample.w eq_refl eq_refl)
              eq_refl eq_refl eq_refl) as (st' & Hrun & Hreads & Hrows & _).
  exists st'. eexists. split; [exact Hrun|]. split; [exact Hreads|exact Hrows].
Defined.

(** The warehouse takes every load. *)
Definition warehouse_accepts (w : World) : Prop :=
  (forall df, exists id, load_job_created w table_id_full df = Ok id)
  /\ (forall df, load_job_outcome w table_id_full df = None)
  /\ get_table_error w table_id_full = None.

(** X9: The same event delivered twice is loaded twice: after the second
    invocation the target table holds the old rows, then the rows of the
    first run, then the rows of the second, which differ from the first only
    by the clock readings. *)
Theorem redelivery_appends_again (pd : Pandas) (w : World) (ev : CloudEvent) (st : State)
    (t : DataFrame) :
  loadable pd w ev t ->
  warehouse_accepts w ->
  exists st1 ev1 st2 ev2,
    process_gcs_csv_to_bq pd w ev st = (Ok tt, st1, ev1)
    /\ process_gcs_csv_to_bq pd w ev st1 = (Ok tt, st2, ev2)
    /\ warehouse st2 table_id_full
       = (warehouse st table_id_full
          ++ map (target_row pd (clock w (clock_reads st)) (clock w (1 + clock_reads st)) t)
                 (seq 0 (nrows t))
          ++ map (target_row pd (clock w (2 + clock_reads st)) (clock w (3 + clock_reads st)) t)
                 (seq 0 (nrows t)))%list.
Proof.
  intros Ht (Hc & Ho & Hg).
  assert (Htr : transformable pd t = true) by (destruct Ht as (text & _ & _ & H); exact H).
  set (df1 := target_frame pd (clock w (clock_reads st)) (clock w (S (clock_reads st))) t).
  destruct (Hc df1) as [id1 Hc1].
  pose proof (process_succeeds pd w ev st t id1 Ht Hc1 (Ho _) Hg) as Hrun1.
  cbv zeta in Hrun1. fold df1 in Hrun1.
  set (st1 := set_table table_id_full (warehouse st table_id_full ++ rows df1)%list
                (mk_state (2 + clock_reads st) (warehouse st))) in *.
  set (df2 := target_frame pd (clock w (clock_reads st1)) (clock w (S (clock_reads st1))) t).
  destruct (Hc df2) as [id2 Hc2].
  pose proof (process_succeeds pd w ev st1 t id2 Ht Hc2 (Ho _) Hg) as Hrun2.
  cbv zeta in Hrun2. fold df2 in Hrun2.
  do 4 eexists. split; [exact Hrun1|]. split; [exact Hrun2|].
  rewrite warehouse_set_table, String.eqb_refl.
  unfold st1 at 1. rewrite warehouse_set_table, String.eqb_refl.
  unfold df1, df2. rewrite !rows_target_frame by exact Htr.
  rewrite <- app_assoc. reflexivity.
Qed.

Lemma redelivery_appends_again_witness :
  let ev := Sample.finalized "uploads" "events.csv" in
  loadable Sample.pd Sample.w ev Sample.scenario
  /\ warehouse_accepts Sample.w
  /\ exists st1 ev1 st2 ev2,
       process_gcs_csv_to_bq Sample.pd Sample.w ev Sample.empty_warehouse = (Ok tt, st1, ev1)
       /\ process_gcs_csv_to_bq Sample.pd Sample.w ev st1 = (Ok tt, st2, ev2)
       /\ warehouse st2 table_id_full
          = ([] ++ map (target_row Sample.pd 10 15 Sample.scenario) [0; 1]
                ++ map (target_row Sample.pd 20 25 Sample.scenario) [0; 1])%list.
Proof.
  cbv zeta.
  assert (Hacc : warehouse_accepts Sample.w).
  { split; [intros df; exists "job_1"; reflexivity|]. split; [intros df|]; reflexivity. }
  split; [apply sample_loadable; reflexivity|]. split; [exact Hacc|].
  apply (redelivery_appends_again Sample.pd Sample.w
           (Sample.finalized "uploads" "events.csv") Sample.empty_warehouse
           Sample.scenario (sample_loadable Sample.w eq_refl eq_refl) Hacc).
Defined.


(** ** What an invocation never does *)

(** Every table but the target table is as it was. *)
Definition keeps_other_tables (st st' : State) : Prop :=
  forall other, String.eqb other table_id_full = false ->
                warehouse st' other = warehouse st other.

Definition stable {A} (m : M A) : Prop :=
  forall st r st' evs, m st = (r, st', evs) -> keeps_other_tables st st'.

Lemma stable_quiet {A} (m : M A) : quiet m -> stable m.
Proof.
  intros Hq st r st' evs E other _. destruct (Hq _ _ _ _ E) as [W _]. now rewrite W.
Qed.

Lemma stable_bind {A B} (m : M A) (k : A -> M B) :
  stable m -> (forall a, stable (k a)) -> stable (bind m k).
Proof.
  intros Hm Hk st r st' evs. unfold bind.
  destruct (m st) as [[r1 st1] ev1] eqn:E1. pose proof (Hm _ _ _ _ E1) as K1.
  destruct r1 as [a|e].
  - destruct (k a st1) as [[r2 st2] ev2] eqn:E2. pose proof (Hk _ _ _ _ _ E2) as K2.
    intros E. injection E as <- <- <-. intros other Ho.
    now rewrite (K2 other Ho), (K1 other Ho).
  - intros E. injection E as <- <- <-. exact K1.
Qed.

Lemma stable_try_reraise {A} (m : M A) (h : exn -> M unit) :
  stable m -> (forall e, quiet (h e)) -> stable (try_reraise m h).
Proof.
  intros Hm Hh st r st' evs. unfold try_reraise.
  destruct (m st) as [[r1 st1] ev1] eqn:E1. pose proof (Hm _ _ _ _ E1) as K1.
  destruct r1 as [a|e].
  - intros E. injection E as <- <- <-. exact K1.
  - destruct (h e st1) as [[r2 st2] ev2] eqn:E2. destruct (Hh _ _ _ _ _ E2) as [W2 _].
    destruct r2; intros E; injection E as <- <- <-; intros other Ho;
      now rewrite W2, (K1 other Ho).
Qed.

Lemma stable_load (w : World) (df : DataFrame) : stable (load w df).
Proof.
  intros st r st' evs E. pose proof (load_run_cases w df st) as Hload.
  cbv zeta in Hload. rewrite Hload in E. clear Hload.
  destruct (load_job_created w table_id_full df) as [id|e].
  2:{ injection E as <- <- <-. intros other _. reflexivity. }
  destruct (load_job_outcome w table_id_full df) as [e|].
  { injection E as <- <- <-. intros other _. reflexivity. }
  destruct (get_table_error w table_id_full) as [e|];
    injection E as <- <- <-; intros other Ho; now rewrite warehouse_set_table, Ho.
Qed.

Lemma stable_pipeline (pd : Pandas) (w : World) (ev : CloudEvent) :
  stable (pipeline pd w ev).
Proof.
  unfold pipeline. apply stable_bind.
  - apply stable_quiet, quiet_try_reraise;
      [apply quiet_download|apply quiet_download_failed].
  - intros csv. apply stable_bind.
    + apply stable_quiet, quiet_try_reraise;
        [apply quiet_transform|apply quiet_transform_failed].
    + intros df. apply stable_try_reraise; [apply stable_load|apply quiet_load_failed].
Qed.

(** X10: Whatever the event and the collaborators do, an invocation writes to no
    table but the configured target table. *)
Theorem only_target_table_is_written (pd : Pandas) (w : World) (ev : CloudEvent)
    (st : State) (other : string) :
  other <> table_id_full ->
  warehouse (snd (fst (process_gcs_csv_to_bq pd w ev st))) other = warehouse st other.
Proof.
  intros Hne. assert (Ho : String.eqb other table_id_full = false)
    by now apply String.eqb_neq.
  destruct (is_csv (ce_name ev)) eqn:Hcsv.
  - rewrite process_csv_run by assumption.
    destruct (pipeline pd w ev st) as [[r st'] evs] eqn:E. cbn [fst snd].
    exact (stable_pipeline pd w ev _ _ _ _ E other Ho).
  - rewrite process_skips by assumption. reflexivity.
Qed.

Lemma only_target_table_is_written_witness :
  let st := mk_state 0 (fun id => if String.eqb id "archive" then [[("k", CBool true)]] else []) in
  "archive" <> table_id_full
  /\ warehouse (snd (fst (process_gcs_csv_to_bq Sample.pd Sample.w
                            (Sample.finalized "uploads" "events.csv") st))) "archive"
     = warehouse st "archive".
Proof.
  cbv zeta. split; [discriminate|].
  apply (only_target_table_is_written Sample.pd Sample.w
           (Sample.finalized "uploads" "events.csv")
           (mk_state 0 (fun id => if String.eqb id "archive" then [[("k", CBool true)]] else []))
           "archive").
  discriminate.
Defined.

Lemma filter_no_submit (evs : list event) :
  existsb is_submit evs = false -> filter is_submit evs = [].
Proof.
  induction evs as [|e r IH]; simpl; [reflexivity|].
  destruct (is_submit e); [discriminate|]. exact IH.
Qed.

(** The events of one run of the statements after the filter: either no
    load is submitted, or exactly one, of the frame [df]. *)
Lemma pipeline_submits (pd : Pandas) (w : World) (ev : CloudEvent) (st : State) :
  filter is_submit (snd (pipeline pd w ev st)) = []
  \/ exists csv df st1 st2 ev1 ev2,
       try_reraise (download w (ce_bucket ev) (ce_name ev))
         (download_failed (ce_bucket ev) (ce_name ev)) st = (Ok csv, st1, ev1)
       /\ try_reraise (transform pd w csv) transform_failed st1 = (Ok df, st2, ev2)
       /\ filter is_submit (snd (pipeline pd w ev st))
          = [LoadSubmit table_id_full (mk_config WRITE_APPEND) df].
Proof.
  unfold pipeline, bind.
  destruct (try_reraise (download w _ _) _ st) as [[r1 st1] ev1] eqn:E1.
  destruct (quiet_try_reraise _ _ (quiet_download w _ _)
              (quiet_download_failed _ _) _ _ _ _ E1) as [_ S1].
  destruct r1 as [csv|e]; [|left; now apply filter_no_submit].
  destruct (try_reraise (transform pd w csv) _ st1) as [[r2 st2] ev2] eqn:E2.
  destruct (quiet_try_reraise _ _ (quiet_transform pd w csv)
              quiet_transform_failed _ _ _ _ E2) as [_ S2].
  destruct r2 as [df|e].
  2:{ left. cbn [snd]. rewrite filter_app, !filter_no_submit by assumption. reflexivity. }
  right. exists csv, df, st1, st2, ev1, ev2. split; [reflexivity|]. split; [exact E2|].
  destruct (try_load_run w df st2) as (r & st3 & line & tail & Hrun & Htail & _).
  rewrite Hrun. cbn [snd]. rewrite !filter_app, !filter_no_submit by assumption.
  cbn [filter is_submit app]. now rewrite filter_no_submit by assumption.
Qed.

Lemma filter_preamble (ev : CloudEvent) (evs : list event) :
  filter is_submit (preamble ev ++ evs) = filter is_submit evs.
Proof. reflexivity. Qed.

(** X11: Whatever the event and the collaborators do, an invocation submits at
    most one load, to the target table and with the append disposition. *)
Theorem at_most_one_load_is_submitted (pd : Pandas) (w : World) (ev : CloudEvent)
    (st : State) :
  let loads := filter is_submit (snd (process_gcs_csv_to_bq pd w ev st)) in
  loads = []
  \/ exists df, loads = [LoadSubmit table_id_full (mk_config WRITE_APPEND) df].
Proof.
  cbv zeta. destruct (is_csv (ce_name ev)) eqn:Hcsv.
  - rewrite process_csv_run by assumption.
    destruct (pipeline_submits pd w ev st) as [H|(csv & df & st1 & st2 & ev1 & ev2 & _ & _ & H)];
      destruct (pipeline pd w ev st) as [[r st'] evs]; cbn [snd] in *;
      rewrite filter_preamble; [left; exact H|right; exists df; exact H].
  - rewrite process_skips by assumption. left. reflexivity.
Qed.

(** ** What is loaded *)

Lemma download_empty_name (w : World) (bucket_name file_name : string) (st : State) :
  PyStr.is_empty bucket_name || PyStr.is_empty file_name = true ->
  exists evs,
    download w bucket_name file_name st
    = (Raise (mk_exn ValueError "Bucket name or file name is empty." []), st, evs).
Proof.
  intros H. unfold download. rewrite H. eexists. reflexivity.
Qed.

Lemma try_download_inv (w : World) (ev : CloudEvent) (st st1 : State) (csv : string)
    (ev1 : list event) :
  is_csv (ce_name ev) = true ->
  try_reraise (download w (ce_bucket ev) (ce_name ev))
    (download_failed (ce_bucket ev) (ce_name ev)) st = (Ok csv, st1, ev1) ->
  st1 = st /\ object_delivered w ev csv.
Proof.
  intros Hcsv. unfold try_reraise.
  destruct (PyStr.is_empty (ce_bucket ev)) eqn:Hb.
  - destruct (download_empty_name w (ce_bucket ev) (ce_name ev) st) as [evs ->];
      [now rewrite Hb|].
    destruct (download_failed_run (ce_bucket ev) (ce_name ev)
                (mk_exn ValueError "Bucket name or file name is empty." []) st)
      as (lines & -> & _). discriminate.
  - rewrite download_run by auto using is_csv_not_empty.
    assert (Hne : ce_bucket ev <> EmptyString) by (intros E; rewrite E in Hb; discriminate).
    destruct (blob_exists w (ce_bucket ev) (ce_name ev)) as [[|]|e] eqn:Hex.
    + destruct (blob_download_as_text w (ce_bucket ev) (ce_name ev)) as [text|e] eqn:Hdl.
      * intros E. injection E as <- <- <-. split; [reflexivity|].
        split; [exact Hcsv|]. split; [exact Hne|]. split; assumption.
      * destruct (download_failed_run (ce_bucket ev) (ce_name ev) e st)
          as (lines & -> & _). discriminate.
    + destruct (download_failed_run (ce_bucket ev) (ce_name ev)
                  (mk_exn FileNotFoundError
                     ("File gs://" ++ ce_bucket ev ++ "/" ++ ce_name ev ++ " not found.") [])
                  st) as (lines & -> & _). discriminate.
    + destruct (download_failed_run (ce_bucket ev) (ce_name ev) e st)
        as (lines & -> & _). discriminate.
Qed.

Lemma try_transform_inv (pd : Pandas) (w : World) (csv : string) (st st2 : State)
    (df : DataFrame) (ev2 : list event) :
  try_reraise (transform pd w csv) transform_failed st = (Ok df, st2, ev2) ->
  exists t,
    read_csv pd csv = Ok t /\ accepted t = true
    /\ df = target_frame pd (clock w (clock_reads st)) (clock w (S (clock_reads st))) t.
Proof.
  intros H. rewrite try_transform_run in H.
  destruct (read_csv pd csv) as [t|e] eqn:Hread; [|discriminate H].
  destruct (transform_columns pd (clock w (clock_reads st))
              (clock w (S (clock_reads st))) t) as [out|e] eqn:E; [|discriminate H].
  injection H as <- _ _.
  destruct (transform_columns_ok pd _ _ t out E) as [Hacc ->].
  exists t. auto.
Qed.

(** X12: Whatever the collaborators do, a frame that an invocation submits to the
    warehouse is the transformation of a table that [read_csv] read from the
    text of the event's own object, which has the four columns; nothing else
    is ever loaded. *)
Theorem submitted_frame_is_transformed_object (pd : Pandas) (w : World) (ev : CloudEvent)
    (st : State) (id : string) (cfg : LoadJobConfig) (df : DataFrame) :
  In (LoadSubmit id cfg df) (snd (process_gcs_csv_to_bq pd w ev st)) ->
  exists t,
    transformed pd w ev t
    /\ df = target_frame pd (clock w (clock_reads st)) (clock w (S (clock_reads st))) t.
Proof.
  intros Hin.
  assert (Hf : In (LoadSubmit id cfg df)
                  (filter is_submit (snd (process_gcs_csv_to_bq pd w ev st))))
    by (apply filter_In; auto).
  clear Hin. destruct (is_csv (ce_name ev)) eqn:Hcsv.
  2:{ rewrite process_skips in Hf by assumption. destruct Hf. }
  rewrite process_csv_run in Hf by assumption.
  destruct (pipeline_submits pd w ev st)
    as [H|(csv & df' & st1 & st2 & ev1 & ev2 & E1 & E2 & H)];
    destruct (pipeline pd w ev st) as [[r st'] evs]; cbn [snd] in *;
    rewrite filter_preamble, H in Hf; [destruct Hf|].
  destruct Hf as [Hf|[]]. injection Hf as _ _ ->.
  destruct (try_download_inv w ev st st1 csv ev1 Hcsv E1) as [-> Hobj].
  destruct (try_transform_inv pd w csv st st2 df ev2 E2) as (t & Hread & Hacc & Hdf).
  exists t. split; [|exact Hdf]. exists csv. auto.
Qed.

Lemma submitted_frame_is_transformed_object_witness :
  let ev := Sample.finalized "uploads" "events.csv" in
  let df := target_frame Sample.pd 10 15 Sample.scenario in
  In (LoadSubmit table_id_full (mk_config WRITE_APPEND) df)
     (snd (process_gcs_csv_to_bq Sample.pd Sample.w ev Sample.empty_warehouse))
  /\ exists t,
       transformed Sample.pd Sample.w ev t
       /\ df = target_frame Sample.pd (clock Sample.w 0) (clock Sample.w 1) t.
Proof.
  cbv zeta.
  assert (Hin : In (LoadSubmit table_id_full (mk_config WRITE_APPEND)
                      (target_frame Sample.pd 10 15 Sample.scenario))
                   (snd (process_gcs_csv_to_bq Sample.pd Sample.w
                           (Sample.finalized "uploads" "events.csv")
                           Sample.empty_warehouse))).
  { do 11 right. left. reflexivity. }
  split; [exact Hin|].
  exact (submitted_frame_is_transformed_object Sample.pd Sample.w
           (Sample.finalized "uploads" "events.csv") Sample.empty_warehouse
           _ _ _ Hin).
Defined.

(** ** A CSV without records *)

(** On a frame that [read_csv] built, with the four columns and a timestamp
    column that [to_datetime] accepts, every statement up to line 123
    succeeds. *)
Lemma rules_csv (pd : Pandas) (t_fill : Z) (df : DataFrame) :
  csv_frame df = true ->
  accepted df = true ->
  timestamps_readable pd df = true ->
  is_ok (parse_timestamps pd df) = true /\ is_ok (rules pd t_fill df) = true.
Proof.
  intros Hcsv Ha Hr.
  destruct (accepted_columns df Ha) as (Hts & Hc & Hv & _).
  apply has_column_present in Hts, Hc, Hv.
  destruct Hts as [ts Ets]. destruct Hc as [c Ec]. destruct Hv as [v Ev].
  destruct (csv_frame_column df _ ts Hcsv Ets) as [Dts _].
  destruct (csv_frame_column df _ c Hcsv Ec) as [Dc _].
  destruct (csv_frame_column df _ v Hcsv Ev) as [Dv _].
  destruct (value_series_csv pd v Dv) as (_ & Hnum & _).
  unfold timestamps_readable in Hr. rewrite (column_present _ df ts Ets) in Hr.
  unfold rules, parse_timestamps, fill_timestamps, retype_timestamps, update_col, get_col.
  rewrite Ets. cbn [rbind]. rewrite (to_datetime_csv pd true ts Dts).
  destruct (to_datetime_utc pd true ts) as [f|e]; [|discriminate Hr].
  cbn [rbind is_ok]. split; [reflexivity|].
  rewrite columns_set_same. cbn [rbind fillna_datetime].
  rewrite columns_set_same. cbn [rbind to_datetime].
  unfold add_country_code, get_col.
  rewrite !columns_set_other by reflexivity. rewrite Ec.
  cbn [rbind]. rewrite (country_chain_csv pd c _ Dc). cbn [rbind].
  unfold coerce_value, get_col.
  rewrite !columns_set_other by reflexivity. rewrite Ev.
  cbn [rbind]. rewrite (value_chain_csv pd v _ Dv). cbn [rbind].
  unfold add_is_high_value, get_col.
  rewrite columns_set_same. cbn [rbind].
  rewrite (flag_series_numeric _ Hnum). reflexivity.
Qed.

(** X14: A CSV with a header and no record, read as a frame with the four
    columns and no row: every statement up to line 123 succeeds, line 128
    raises ValueError since a scalar cannot be set on a frame without rows,
    the handler prints its message, and the invocation raises the
    UnboundLocalError of line 145.  The clock was read twice; no load is
    submitted and the warehouse is as it was. *)
Theorem header_only_csv_is_not_loaded (pd : Pandas) (w : World) (ev : CloudEvent)
    (st : State) (text : string) (t : DataFrame) :
  object_delivered w ev text ->
  read_csv pd text = Ok t ->
  csv_frame t = true ->
  accepted t = true ->
  timestamps_readable pd t = true ->
  nrows t = 0 ->
  has_column "processing_datetime" t = false ->
  process_gcs_csv_to_bq pd w ev st =
  (Raise (mk_exn UnboundLocalError
            "cannot access local variable 'traceback' where it is not associated with a value"
            []),
   mk_state (2 + clock_reads st) (warehouse st),
   (preamble ev ++ download_events ev ++
    [PrintHead "Original DataFrame (first 3 rows):" t;
     PrintDtypes "Original DataFrame dtypes:" t;
     Print "Error transforming data with pandas: cannot set a frame with no defined index and a scalar";
     Print "Full traceback for pandas transformation error:"])%list).
Proof.
  intros Hobj Hread Hcsv Ha Hr Hn Hp.
  rewrite (process_after_download pd w ev st text Hobj).
  pose proof (try_transform_run pd w text st) as Hrun. rewrite Hread in Hrun.
  rewrite (transform_columns_csv pd _ _ t Hcsv) in Hrun.
  destruct (accepted_columns t Ha) as (Hts & Hc & Hv & Hu).
  unfold transform_outcome in Hrun. rewrite Hts, Hc, Hv in Hrun. cbn [negb] in Hrun.
  destruct (rules_csv pd (clock w (clock_reads st)) t Hcsv Ha Hr) as [Hpt Hrules].
  unfold timestamps_readable in Hr.
  destruct (to_datetime_utc pd true (column "event_timestamp" t)); [|discriminate Hr].
  unfold can_broadcast in Hrun. rewrite Hn, Hp in Hrun. cbn [Nat.eqb negb orb] in Hrun.
  unfold reads_taken in Hrun. rewrite Hpt, Hrules in Hrun.
  rewrite (bind_raise _ _ _ _ _ _ Hrun). reflexivity.
Qed.

(** The header of the scenario, with no record under it: four empty
    columns of text. *)
Definition header_only : DataFrame :=
  mk_frame 0
    [("user_id", ObjectS []); ("event_timestamp", ObjectS []);
     ("country", ObjectS []); ("value", ObjectS [])].

Lemma header_only_csv_is_not_loaded_witness :
  let ev := Sample.finalized "uploads" "events.csv" in
  let pd := Sample.pandas Sample.csv_text header_only in
  object_delivered Sample.w ev Sample.csv_text
  /\ read_csv pd Sample.csv_text = Ok header_only
  /\ csv_frame header_only = true
  /\ accepted header_only = true
  /\ timestamps_readable pd header_only = true
  /\ nrows header_only = 0
  /\ has_column "processing_datetime" header_only = false
  /\ exists e st' evs,
       process_gcs_csv_to_bq pd Sample.w ev Sample.empty_warehouse = (Raise e, st', evs)
       /\ exn_cls e = UnboundLocalError
       /\ existsb is_submit evs = false
       /\ warehouse st' table_id_full = [].
Proof.
  cbv zeta. split; [exact sample_delivered|].
  split; [reflexivity|]. split; [reflexivity|]. split; [reflexivity|].
  split; [reflexivity|]. split; [reflexivity|]. split; [reflexivity|].
  do 3 eexists. split.
  - apply (header_only_csv_is_not_loaded (Sample.pandas Sample.csv_text header_only)
             Sample.w (Sample.finalized "uploads" "events.csv") Sample.empty_warehouse
             Sample.csv_text header_only sample_delivered); reflexivity.
  - split; [reflexivity|]. split; reflexivity.
Defined.

(** ** The transformation reads four columns *)

(** X15: The result depends on the four columns only: two frames that
    [read_csv] built, with a row and as many rows, and with the same
    user_id, event_timestamp, country and value columns, give the same
    frame or the same exception, whatever other columns they have and in
    whatever order the columns stand. *)
Theorem transform_reads_four_columns_only (pd : Pandas) (t_fill t_proc : Z)
    (t t' : DataFrame) :
  csv_frame t = true ->
  csv_frame t' = true ->
  nrows t = nrows t' ->
  nrows t <> 0 ->
  assoc "user_id" (columns t) = assoc "user_id" (columns t') ->
  assoc "event_timestamp" (columns t) = assoc "event_timestamp" (columns t') ->
  assoc "country" (columns t) = assoc "country" (columns t') ->
  assoc "value" (columns t) = assoc "value" (columns t') ->
  transform_columns pd t_fill t_proc t = transform_columns pd t_fill t_proc t'.
Proof.
  intros Hcsv Hcsv' Hn Hn0 Hu Hts Hc Hv.
  rewrite !transform_columns_csv by assumption.
  assert (Hb : can_broadcast t = true).
  { unfold can_broadcast. destruct (nrows t); [now elim Hn0|reflexivity]. }
  assert (Hb' : can_broadcast t' = true).
  { unfold can_broadcast. rewrite <- Hn. destruct (nrows t); [now elim Hn0|reflexivity]. }
  unfold transform_outcome, target_frame, has_column, column, get_col.
  now rewrite Hb, Hb', Hn, Hu, Hts, Hc, Hv.
Qed.

(** The scenario with its columns in another order, a column that shadows a
    derived one and a column of notes. *)
Definition scenario_reordered : DataFrame :=
  mk_frame 2
    [("value", ObjectS [Some "150"; Some "abc"]);
     ("is_high_value", ObjectS [Some "no"; Some "yes"]);
     ("country", ObjectS [Some "malaysia"; Some "Vietnam"]);
     ("note", ObjectS [Some "first"; None]);
     ("user_id", ObjectS [Some "u1"; Some "u2"]);
     ("event_timestamp", ObjectS [Some "not-a-date"; Some "2024-01-01T00:00:00Z"])].

Lemma transform_reads_four_columns_only_witness :
  csv_frame Sample.scenario = true
  /\ csv_frame scenario_reordered = true
  /\ nrows Sample.scenario = nrows scenario_reordered
  /\ nrows Sample.scenario <> 0
  /\ transform_columns Sample.pd 10 15 Sample.scenario
     = transform_columns Sample.pd 10 15 scenario_reordered.
Proof.
  split; [reflexivity|]. split; [reflexivity|]. split; [reflexivity|].
  split; [discriminate|].
  apply (transform_reads_four_columns_only Sample.pd 10 15 Sample.scenario
           scenario_reordered); try reflexivity.
  discriminate.
Defined.

(** ** The value rule, read backwards *)



(** ** Letter case *)

Lemma upper_lower_char (c : ascii) :
  PyStr.upper_char (PyStr.lower_char c) = PyStr.upper_char c.
Proof. destruct c as [[] [] [] [] [] [] [] []]; reflexivity. Qed.

Lemma upper_upper_char (c : ascii) :
  PyStr.upper_char (PyStr.upper_char c) = PyStr.upper_char c.
Proof. destruct c as [[] [] [] [] [] [] [] []]; reflexivity. Qed.

Lemma lower_upper_char (c : ascii) :
  PyStr.lower_char (PyStr.upper_char c) = PyStr.lower_char c.
Proof. destruct c as [[] [] [] [] [] [] [] []]; reflexivity. Qed.

Lemma lower_lower_char (c : ascii) :
  PyStr.lower_char (PyStr.lower_char c) = PyStr.lower_char c.
Proof. destruct c as [[] [] [] [] [] [] [] []]; reflexivity. Qed.

Lemma lower_upper (s : string) : PyStr.lower (PyStr.upper s) = PyStr.lower s.
Proof. induction s; simpl; [reflexivity|]. now rewrite lower_upper_char, IHs. Qed.

Lemma lower_lower (s : string) : PyStr.lower (PyStr.lower s) = PyStr.lower s.
Proof. induction s; simpl; [reflexivity|]. now rewrite lower_lower_char, IHs. Qed.

(** A byte is an ASCII character. *)
Definition is_ascii (a : ascii) : bool := (N_of_ascii a <? 128)%N.

Lemma lower_char_class (a : ascii) : is_ascii (PyStr.lower_char a) = is_ascii a.
Proof. destruct a as [[] [] [] [] [] [] [] []]; reflexivity. Qed.

Lemma upper_char_class (a : ascii) : is_ascii (PyStr.upper_char a) = is_ascii a.
Proof. destruct a as [[] [] [] [] [] [] [] []]; reflexivity. Qed.

Lemma lower_char_above (a : ascii) : is_ascii a = false -> PyStr.lower_char a = a.
Proof.
  destruct a as [[] [] [] [] [] [] [] []]; intros H;
    first [reflexivity | discriminate H].
Qed.

Lemma upper_char_above (a : ascii) : is_ascii a = false -> PyStr.upper_char a = a.
Proof.
  destruct a as [[] [] [] [] [] [] [] []]; intros H;
    first [reflexivity | discriminate H].
Qed.

Lemma continuation_above (a : ascii) : PyStr.is_continuation a = true -> is_ascii a = false.
Proof.
  destruct a as [[] [] [] [] [] [] [] []]; intros H;
    first [reflexivity | discriminate H].
Qed.

(** One step of [unicode_upper], with the recursive calls abstracted. *)
Definition upper_step (rec : string -> string) (a : ascii) (r : string) : string :=
  let n := N_of_ascii a in
  if (n <? 128)%N then String (PyStr.upper_char a) (rec r)
  else
    match r with
    | String b r1 =>
        if ((192 <=? n) && (n <? 224))%N && PyStr.is_continuation b then
          PyStr.upper_sequence (String a (String b EmptyString))
            ((n mod 32) * 64 + PyStr.low6 b)
          ++ rec r1
        else
          match r1 with
          | String c r2 =>
              if ((224 <=? n) && (n <? 240))%N && PyStr.is_continuation b
                 && PyStr.is_continuation c then
                PyStr.upper_sequence (String a (String b (String c EmptyString)))
                  (((n mod 16) * 64 + PyStr.low6 b) * 64 + PyStr.low6 c)
                ++ rec r2
              else
                match r2 with
                | String d r3 =>
                    if ((240 <=? n) && (n <? 248))%N && PyStr.is_continuation b
                       && PyStr.is_continuation c && PyStr.is_continuation d then
                      PyStr.upper_sequence
                        (String a (String b (String c (String d EmptyString))))
                        ((((n mod 8) * 64 + PyStr.low6 b) * 64 + PyStr.low6 c) * 64
                         + PyStr.low6 d)
                      ++ rec r3
                    else String a (rec r)
                | EmptyString => String a (rec r)
                end
          | EmptyString => String a (rec r)
          end
    | EmptyString => String a EmptyString
    end.

Lemma unicode_upper_step (a : ascii) (r : string) :
  PyStr.unicode_upper (String a r) = upper_step PyStr.unicode_upper a r.
Proof. destruct r; reflexivity. Qed.

Section AsciiCase.

(** A change of case of the ASCII letters, byte by byte. *)
Variable f : ascii -> ascii.
Variable g : string -> string.
Hypothesis g_nil : g EmptyString = EmptyString.
Hypothesis g_cons : forall a r, g (String a r) = String (f a) (g r).
Hypothesis f_class : forall a, is_ascii (f a) = is_ascii a.
Hypothesis f_above : forall a, is_ascii a = false -> f a = a.
Hypothesis f_upper : forall a, PyStr.upper_char (f a) = PyStr.upper_char a.

Lemma f_continuation (b : ascii) : PyStr.is_continuation (f b) = PyStr.is_continuation b.
Proof.
  destruct (is_ascii b) eqn:Hb.
  - destruct (PyStr.is_continuation b) eqn:E1.
    + apply continuation_above in E1. congruence.
    + destruct (PyStr.is_continuation (f b)) eqn:E2; [|reflexivity].
      apply continuation_above in E2. rewrite f_class in E2. congruence.
  - now rewrite f_above.
Qed.

Lemma f_continuation_fixed (b : ascii) : PyStr.is_continuation b = true -> f b = b.
Proof. intros H. apply f_above. now apply continuation_above. Qed.

Lemma upper_step_case (rec : string -> string) (a : ascii) (r : string) :
  (forall s, String.length s <= String.length r -> rec (g s) = rec s) ->
  upper_step rec (f a) (g r) = upper_step rec a r.
Proof.
  intros IH. unfold upper_step.
  pose proof (f_class a) as Hc. unfold is_ascii in Hc. rewrite Hc.
  destruct (N_of_ascii a <? 128)%N eqn:Ha.
  - rewrite f_upper. rewrite IH by lia. reflexivity.
  - rewrite (f_above a Ha).
    destruct r as [|b r1]; [now rewrite g_nil|].
    rewrite g_cons, f_continuation.
    destruct (((192 <=? N_of_ascii a) && (N_of_ascii a <? 224))%N
              && PyStr.is_continuation b) eqn:T2.
    { apply andb_true_iff in T2. destruct T2 as [_ Tb].
      rewrite (f_continuation_fixed b Tb). rewrite IH by (simpl; lia). reflexivity. }
    assert (Hr : rec (String (f b) (g r1)) = rec (String b r1)).
    { rewrite <- g_cons. apply IH. lia. }
    destruct r1 as [|c r2]; [rewrite g_nil in *; now rewrite Hr|].
    rewrite g_cons in *. rewrite f_continuation.
    destruct (((224 <=? N_of_ascii a) && (N_of_ascii a <? 240))%N
              && PyStr.is_continuation b && PyStr.is_continuation c) eqn:T3.
    { apply andb_true_iff in T3. destruct T3 as [T3 Tc].
      apply andb_true_iff in T3. destruct T3 as [_ Tb].
      rewrite (f_continuation_fixed b Tb), (f_continuation_fixed c Tc).
      rewrite IH by (simpl; lia). reflexivity. }
    destruct r2 as [|d r3]; [rewrite g_nil in *; now rewrite Hr|].
    rewrite g_cons in *. rewrite f_continuation.
    destruct (((240 <=? N_of_ascii a) && (N_of_ascii a <? 248))%N
              && PyStr.is_continuation b && PyStr.is_continuation c
              && PyStr.is_continuation d) eqn:T4.
    { apply andb_true_iff in T4. destruct T4 as [T4 Td].
      apply andb_true_iff in T4. destruct T4 as [T4 Tc].
      apply andb_true_iff in T4. destruct T4 as [_ Tb].
      rewrite (f_continuation_fixed b Tb), (f_continuation_fixed c Tc),
        (f_continuation_fixed d Td).
      rewrite IH by (simpl; lia). reflexivity. }
    now rewrite Hr.
Qed.

(** [str.upper] does not see the case of the ASCII letters of its
    argument. *)
Lemma unicode_upper_case (s : string) :
  PyStr.unicode_upper (g s) = PyStr.unicode_upper s.
Proof.
  assert (H : forall n s, String.length s <= n ->
                          PyStr.unicode_upper (g s) = PyStr.unicode_upper s).
  { induction n as [|n IH]; intros [|a r] Hlen; simpl in Hlen;
      try (now rewrite g_nil); [lia|].
    rewrite g_cons, !unicode_upper_step. apply upper_step_case.
    intros s' Hs'. apply IH. lia. }
  now apply (H (String.length s)).
Qed.

End AsciiCase.

Lemma unicode_upper_lower (s : string) :
  PyStr.unicode_upper (PyStr.lower s) = PyStr.unicode_upper s.
Proof.
  apply (unicode_upper_case PyStr.lower_char PyStr.lower); auto.
  - apply lower_char_class.
  - apply lower_char_above.
  - apply upper_lower_char.
Qed.

Lemma unicode_upper_upper (s : string) :
  PyStr.unicode_upper (PyStr.upper s) = PyStr.unicode_upper s.
Proof.
  apply (unicode_upper_case PyStr.upper_char PyStr.upper); auto.
  - apply upper_char_class.
  - apply upper_char_above.
  - apply upper_upper_char.
Qed.

(** X18: The country rule does not see the case of ASCII letters: a country
    written in lower case or in upper case gets the code of the country as
    it was written. *)
Theorem country_rule_ignores_case (s : string) :
  country_rule (Some (PyStr.lower s)) = country_rule (Some s)
  /\ country_rule (Some (PyStr.upper s)) = country_rule (Some s).
Proof.
  rewrite !country_rule_spec. unfold spec_country_code.
  now rewrite unicode_upper_lower, unicode_upper_upper.
Qed.

(** X20: The extension filter does not see the case of ASCII letters either. *)
Theorem extension_filter_ignores_case (file_name : string) :
  is_csv (PyStr.upper file_name) = is_csv file_name
  /\ is_csv (PyStr.lower file_name) = is_csv file_name.
Proof.
  unfold is_csv. now rewrite lower_upper, lower_lower.
Qed.

(** ** The country table, read backwards *)

Definition country_names : list string :=
  ["MALAYSIA"; "SINGAPORE"; "THAILAND"; "INDONESIA"].

(** X17: Each code is given to one country only, and the sentinel to
    everything else: the code of a text is MY exactly when the text, in
    upper case as [str.upper] of Python writes it, is MALAYSIA, and so on
    for SG, TH and ID; it is OT exactly when the text in upper case is none
    of the four names.  A missing country is the text nan, and gets OT. *)
Theorem country_code_determines_country (s : string) :
  (country_rule (Some s) = Some "MY" <-> PyStr.unicode_upper s = "MALAYSIA")
  /\ (country_rule (Some s) = Some "SG" <-> PyStr.unicode_upper s = "SINGAPORE")
  /\ (country_rule (Some s) = Some "TH" <-> PyStr.unicode_upper s = "THAILAND")
  /\ (country_rule (Some s) = Some "ID" <-> PyStr.unicode_upper s = "INDONESIA")
  /\ (country_rule (Some s) = Some "OT" <-> ~ In (PyStr.unicode_upper s) country_names)
  /\ country_rule None = Some "OT".
Proof.
  rewrite country_rule_spec. unfold spec_country_code, spec_lookup, country_names.
  destruct (String.eqb_spec (PyStr.unicode_upper s) "MALAYSIA") as [E1|N1];
    [|destruct (String.eqb_spec (PyStr.unicode_upper s) "SINGAPORE") as [E2|N2];
      [|destruct (String.eqb_spec (PyStr.unicode_upper s) "THAILAND") as [E3|N3];
        [|destruct (String.eqb_spec (PyStr.unicode_upper s) "INDONESIA") as [E4|N4]]]];
    repeat split;
    try discriminate;
    try (intros _; assumption);
    try (intros Hu; congruence);
    try (intros H; exfalso; apply H; simpl; intuition congruence);
    try (simpl; intuition congruence).
Qed.


(** ** The extension filter *)

Lemma length_append (p s : string) :
  String.length (p ++ s) = String.length p + String.length s.
Proof. induction p; simpl; auto. Qed.

Lemma substring_whole (s : string) : substring 0 (String.length s) s = s.
Proof. induction s; simpl; [reflexivity|]. now rewrite IHs. Qed.

Lemma substring_after (p s : string) :
  substring (String.length p) (String.length s) (p ++ s) = s.
Proof. induction p; simpl; [apply substring_whole|exact IHp]. Qed.

Lemma substring_split (s : string) :
  forall m, m <= String.length s ->
            s = substring 0 m s ++ substring m (String.length s - m) s.
Proof.
  induction s as [|c r IH]; intros m Hm; simpl in Hm.
  - assert (m = 0) by lia. subst m. reflexivity.
  - destruct m as [|m].
    + simpl. now rewrite substring_whole.
    + simpl. f_equal. apply IH. lia.
Qed.

(** [s.endswith(suffix)] holds exactly when [s] is some text followed by
    [suffix]. *)
Lemma endswith_iff (s suffix : string) :
  PyStr.endswith s suffix = true <-> exists stem, s = stem ++ suffix.
Proof.
  unfold PyStr.endswith. split.
  - intros H. apply andb_true_iff in H. destruct H as [Hle Heq].
    apply Nat.leb_le in Hle. apply String.eqb_eq in Heq.
    exists (substring 0 (String.length s - String.length suffix) s).
    assert (Hm : String.length s - String.length suffix <= String.length s) by lia.
    pose proof (substring_split s _ Hm) as Hs.
    replace (String.length s - (String.length s - String.length suffix))
      with (String.length suffix) in Hs by lia.
    rewrite Heq in Hs. exact Hs.
  - intros [stem ->]. rewrite length_append.
    replace (String.length stem + String.length suffix - String.length suffix)
      with (String.length stem) by lia.
    rewrite substring_after, String.eqb_refl, andb_true_r.
    apply Nat.leb_le. lia.
Qed.

(** X19: The filter lets through exactly the names that, in lower case, are some
    text followed by .csv; the text may be empty, and a name shorter than
    four characters never passes. *)
Theorem extension_filter_accepts_csv_suffix (file_name : string) :
  (is_csv file_name = true <-> exists stem, PyStr.lower file_name = stem ++ ".csv")
  /\ (is_csv file_name = true -> 4 <= String.length file_name).
Proof.
  split; [apply endswith_iff|].
  unfold is_csv, PyStr.endswith. intros H. apply andb_true_iff in H.
  destruct H as [Hle _]. apply Nat.leb_le in Hle.
  assert (Hlen : String.length (PyStr.lower file_name) = String.length file_name).
  { clear Hle. induction file_name; simpl; auto. }
  rewrite Hlen in Hle. exact Hle.
Qed.

(** ** Access to the object store *)

(** A computation that emits no event of the kind [p]. *)
Definition silent (p : event -> bool) {A} (m : M A) : Prop :=
  forall st r st' evs, m st = (r, st', evs) -> existsb p evs = false.

Lemma silent_ret (p : event -> bool) {A} (a : A) : silent p (ret a).
Proof. intros st r st' evs E. now injection E as <- <- <-. Qed.

Lemma silent_raise (p : event -> bool) {A} (e : exn) : silent p (@raise A e).
Proof. intros st r st' evs E. now injection E as <- <- <-. Qed.

Lemma silent_lift (p : event -> bool) {A} (x : result A) : silent p (lift x).
Proof. intros st r st' evs E. now injection E as <- <- <-. Qed.

Lemma silent_emit (p : event -> bool) (e : event) : p e = false -> silent p (emit e).
Proof.
  intros He st r st' evs E. injection E as <- <- <-. simpl. now rewrite He.
Qed.

Lemma silent_bind (p : event -> bool) {A B} (m : M A) (k : A -> M B) :
  silent p m -> (forall a, silent p (k a)) -> silent p (bind m k).
Proof.
  intros Hm Hk st r st' evs. unfold bind.
  destruct (m st) as [[r1 st1] ev1] eqn:E1. pose proof (Hm _ _ _ _ E1) as S1.
  destruct r1 as [a|e].
  - destruct (k a st1) as [[r2 st2] ev2] eqn:E2. pose proof (Hk _ _ _ _ _ E2) as S2.
    intros E. injection E as <- <- <-. now rewrite existsb_app, S1, S2.
  - intros E. now injection E as <- <- <-.
Qed.

Lemma silent_try_reraise (p : event -> bool) {A} (m : M A) (h : exn -> M unit) :
  silent p m -> (forall e, silent p (h e)) -> silent p (try_reraise m h).
Proof.
  intros Hm Hh st r st' evs. unfold try_reraise.
  destruct (m st) as [[r1 st1] ev1] eqn:E1. pose proof (Hm _ _ _ _ E1) as S1.
  destruct r1 as [a|e].
  - intros E. now injection E as <- <- <-.
  - destruct (h e st1) as [[r2 st2] ev2] eqn:E2. pose proof (Hh _ _ _ _ _ E2) as S2.
    destruct r2; intros E; injection E as <- <- <-; now rewrite existsb_app, S1, S2.
Qed.

Lemma silent_run {A} (p : event -> bool) (m : M A) :
  (forall st, existsb p (snd (m st)) = false) -> silent p m.
Proof.
  intros H st r st' evs E. specialize (H st). now rewrite E in H.
Qed.

(** After the download block nothing touches the object store. *)
Lemma silent_after_download (pd : Pandas) (w : World) (csv : string) :
  silent is_download
    (bind (try_reraise (transform pd w csv) transform_failed)
          (fun final_df => try_reraise (load w final_df) load_failed)).
Proof.
  apply silent_bind.
  - apply silent_try_reraise.
    + unfold transform.
      repeat first
        [ match goal with
          | |- silent _ (transform_frame ?pd ?w ?df) =>
              intros st r st' evs E;
              rewrite transform_frame_run in E; now injection E as <- <- <-
          end
        | apply silent_bind; [|intros ?]
        | apply silent_ret | apply silent_lift
        | apply silent_emit; reflexivity
        | progress cbv zeta ].
    + intros e. apply silent_run. intros st. now rewrite transform_failed_run.
  - intros df. apply silent_try_reraise.
    + apply silent_run. intros st. pose proof (load_run_cases w df st) as H.
      cbv zeta in H. rewrite H.
      destruct (load_job_created w table_id_full df); [|reflexivity].
      destruct (load_job_outcome w table_id_full df); [reflexivity|].
      destruct (get_table_error w table_id_full); reflexivity.
    + intros e. apply silent_run. intros st. rewrite load_failed_run.
      cbn [snd existsb is_download orb].
      induction (fst (messages (exn_errors e))); simpl; auto.
Qed.

(** The events of the download block: what it downloads is the object of the
    event, and only after the store has said that the object exists. *)
Lemma try_download_events (w : World) (ev : CloudEvent) (st st1 : State)
    (r1 : result string) (ev1 : list event) (b n : string) :
  try_reraise (download w (ce_bucket ev) (ce_name ev))
    (download_failed (ce_bucket ev) (ce_name ev)) st = (r1, st1, ev1) ->
  In (BlobDownload b n) ev1 ->
  b = ce_bucket ev /\ n = ce_name ev
  /\ blob_exists w (ce_bucket ev) (ce_name ev) = Ok true.
Proof.
  unfold try_reraise.
  destruct (PyStr.is_empty (ce_bucket ev) || PyStr.is_empty (ce_name ev)) eqn:Hempty.
  - unfold download. rewrite Hempty. cbn.
    intros E. injection E as <- <- <-. simpl.
    intros [H|[H|[]]]; discriminate H.
  - apply orb_false_iff in Hempty. destruct Hempty as [Hb Hn].
    rewrite download_run by assumption.
    destruct (blob_exists w (ce_bucket ev) (ce_name ev)) as [[|]|e] eqn:Hex.
    + destruct (blob_download_as_text w (ce_bucket ev) (ce_name ev)) as [text|e].
      * intros E. injection E as <- <- <-.
        intros [H|[H|[H|[]]]]; try discriminate H. injection H as <- <-. auto.
      * destruct (download_failed_run (ce_bucket ev) (ce_name ev) e st)
          as (lines & -> & _ & Hnone).
        intros E. injection E as <- <- <-.
        intros [H|[H|H]]; try discriminate H.
        -- injection H as <- <-. auto.
        -- exfalso. assert (existsb is_download lines = true); [|congruence].
           apply existsb_exists. exists (BlobDownload b n). auto.
    + cbn. intros E. injection E as <- <- <-.
      intros [H|[H|[H|[]]]]; discriminate H.
    + destruct (download_failed_run (ce_bucket ev) (ce_name ev) e st)
        as (lines & -> & _ & Hnone).
      intros E. injection E as <- <- <-.
      intros [H|H]; [discriminate H|].
      exfalso. assert (existsb is_download lines = true); [|congruence].
      apply existsb_exists. exists (BlobDownload b n). auto.
Qed.

(** X13: Whatever the event and the collaborators do, an invocation downloads
    nothing but the object the event names, and that only after the store
    has confirmed that the object exists. *)
Theorem download_only_after_existence_check (pd : Pandas) (w : World) (ev : CloudEvent)
    (st : State) (b n : string) :
  In (BlobDownload b n) (snd (process_gcs_csv_to_bq pd w ev st)) ->
  b = ce_bucket ev /\ n = ce_name ev
  /\ is_csv (ce_name ev) = true
  /\ blob_exists w (ce_bucket ev) (ce_name ev) = Ok true.
Proof.
  destruct (is_csv (ce_name ev)) eqn:Hcsv.
  2:{ rewrite process_skips by assumption. simpl.
      intros [H|[H|[H|[]]]]; discriminate H. }
  rewrite process_csv_run by assumption. unfold pipeline, bind at 1.
  destruct (try_reraise (download w _ _) _ st) as [[r1 st1] ev1] eqn:E1.
  assert (Hev1 : In (BlobDownload b n) ev1 ->
                 b = ce_bucket ev /\ n = ce_name ev /\ true = true
                 /\ blob_exists w (ce_bucket ev) (ce_name ev) = Ok true).
  { intros H. destruct (try_download_events w ev st st1 r1 ev1 b n E1 H) as (? & ? & ?).
    auto. }
  destruct r1 as [csv|e].
  - destruct (bind _ _ st1) as [[r2 st2] ev2] eqn:E2.
    pose proof (silent_after_download pd w csv _ _ _ _ E2) as S2.
    cbn [snd]. intros H. apply in_app_iff in H. destruct H as [H|H].
    + simpl in H. destruct H as [H|[H|[H|[]]]]; discriminate H.
    + apply in_app_iff in H. destruct H as [H|H]; [auto|].
      exfalso. assert (existsb is_download ev2 = true); [|congruence].
      apply existsb_exists. exists (BlobDownload b n). auto.
  - cbn [snd]. intros H. apply in_app_iff in H. destruct H as [H|H]; [|auto].
    simpl in H. destruct H as [H|[H|[H|[]]]]; discriminate H.
Qed.

Lemma download_only_after_existence_check_witness :
  let ev := Sample.finalized "uploads" "events.csv" in
  In (BlobDownload "uploads" "events.csv")
     (snd (process_gcs_csv_to_bq Sample.pd Sample.w ev Sample.empty_warehouse))
  /\ "uploads" = ce_bucket ev /\ "events.csv" = ce_name ev
  /\ is_csv (ce_name ev) = true
  /\ blob_exists Sample.w (ce_bucket ev) (ce_name ev) = Ok true.
Proof.
  cbv zeta.
  assert (Hin : In (BlobDownload "uploads" "events.csv")
                   (snd (process_gcs_csv_to_bq Sample.pd Sample.w
                           (Sample.finalized "uploads" "events.csv")
                           Sample.empty_warehouse))).
  { do 4 right. left. reflexivity. }
  split; [exact Hin|].
  exact (download_only_after_existence_check Sample.pd Sample.w
           (Sample.finalized "uploads" "events.csv") Sample.empty_warehouse _ _ Hin).
Defined.
